(** * TmImpactSlip: the raster-to-ESC/POS filter of the TM impact slip driver

    A shallow embedding of [Impact Slip/filter/TmImpactSlip.c] and the
    properties of its raster transcoder: margin detection, band
    transposition, control-byte sanitising, feed distances, and the
    job / page sequencing with cancellation and sink failures.

    Conventions of the embedding.
    - [unsigned] and [unsigned int] values are integers in [0, 2^32) with the
      wrap-around written out ([wrap32]); [unsigned long] wraps at 2^64.
    - A byte buffer is a [list Z]; a pointer into it is an offset; [load]
      and [store] are the accesses [p[i]] and [p[i] = v].  Accesses outside
      the buffer are undefined in C; [load] answers 0 there and [store]
      leaves the buffer alone, and the theorems name the sizes under which
      every access is inside.
    - Result codes are the C [int]s ([EPTMD_SUCCESS] ...). *)

From Stdlib Require Import ZArith Lia List.
From stdpp Require Import base numbers list strings gmap.

Local Open Scope Z_scope.

(** ** Machine integers *)

Definition wrap32 (z : Z) : Z := z mod 2 ^ 32.
Definition wrap64 (z : Z) : Z := z mod 2 ^ 64.

(** The value of an [(int)] cast. *)
Definition to_int (z : Z) : Z :=
  let m := wrap32 z in if m <? 2 ^ 31 then m else m - 2 ^ 32.

(** ** Result codes and command bytes *)

Definition EPTMD_SUCCESS : Z := 0.
Definition EPTMD_FAILED : Z := -1.
Definition EPTMD_CANCEL : Z := -2.

Definition ESC : Z := 0x1b.
Definition GS : Z := 0x1d.
Definition FF : Z := 0x0c.

Definition EINTR : Z := 4.
Definition ENOENT : Z := 2.

(** ** Configuration and page header *)

Inductive EPTME_BLANK_SKIP_TYPE :=
| TmPaperReductionOff
| TmPaperReductionTop
| TmPaperReductionBottom
| TmPaperReductionBoth.

Inductive EPTME_BUZZER := TmBuzzerNotUsed | TmBuzzerInternal | TmBuzzerExternal.

Inductive EPTME_DRAWER := TmDrawerNotUsed | TmDrawer1 | TmDrawer2.

Definition drawer_code (d : EPTME_DRAWER) : Z :=
  match d with TmDrawerNotUsed => 0 | TmDrawer1 => 1 | TmDrawer2 => 2 end.

Record EPTMS_CONFIG_T := {
  p_printerName : string;
  h_motionUnit : Z;
  v_motionUnit : Z;
  paperReduction : EPTME_BLANK_SKIP_TYPE;
  buzzerControl : EPTME_BUZZER;
  drawerControl : EPTME_DRAWER;
  maxBandLines : Z
}.

(** The fields of [cups_page_header_t] the filter reads;
    [HWResolution1] is [HWResolution[1]], the vertical resolution. *)
Record cups_page_header_t := {
  HWResolution1 : Z;
  cupsWidth : Z;
  cupsHeight : Z;
  cupsBitsPerPixel : Z;
  cupsBytesPerLine : Z
}.

(** ** Buffers *)

Definition load (p : list Z) (i : Z) : Z :=
  if i <? 0 then 0 else default 0 (p !! Z.to_nat i).

Definition store (p : list Z) (i : Z) (v : Z) : list Z :=
  if i <? 0 then p else <[Z.to_nat i := v]> p.

(** [memcpy (p + off, src, n)]. *)
Definition memcpy (p : list Z) (off : Z) (src : list Z) (n : Z) : list Z :=
  if (off <? 0) || (Z.of_nat (length p) <? off + n) then p
  else take (Z.to_nat off) p ++ take (Z.to_nat n) src
         ++ drop (Z.to_nat (off + n)) p.

(** ** Margin detection *)

Section Margins.
Variable p_header : cups_page_header_t.
Variable p_pageBuffer : list Z.

(** The inner loop [for (x = 0; x < BytesPerLine; x++)] of both scans:
    does the line at [p_data] hold a non-zero byte at or after [x]? *)
Fixpoint scan_line (n : nat) (p_data x : Z) : bool :=
  match n with
  | O => false
  | S n' =>
      if negb (load p_pageBuffer (p_data + x) =? 0) then true
      else scan_line n' p_data (x + 1)
  end.

Fixpoint FindTop_loop (n : nat) (y p_data : Z) : Z :=
  match n with
  | O => cupsHeight p_header
  | S n' =>
      if scan_line (Z.to_nat (cupsBytesPerLine p_header)) p_data 0 then y
      else FindTop_loop n' (y + 1) (p_data + cupsBytesPerLine p_header)
  end.

Definition FindBlackRasterLineTop : Z :=
  FindTop_loop (Z.to_nat (cupsHeight p_header)) 0 0.

Fixpoint FindEnd_loop (n : nat) (y p_data : Z) : Z :=
  match n with
  | O => 0
  | S n' =>
      if scan_line (Z.to_nat (cupsBytesPerLine p_header)) p_data 0
      then wrap32 (cupsHeight p_header - 1 - y)
      else FindEnd_loop n' (y + 1) (p_data - cupsBytesPerLine p_header)
  end.

Definition FindBlackRasterLineEnd : Z :=
  FindEnd_loop (Z.to_nat (cupsHeight p_header)) 0
    (wrap32 (cupsBytesPerLine p_header * wrap32 (cupsHeight p_header - 1))).

(** [start_line_no] and [last_line_no] as [WriteRaster] computes them. *)
Definition printable_range : Z * Z :=
  (FindBlackRasterLineTop, wrap32 (FindBlackRasterLineEnd + 1)).

(** Scanline [y] of the page holds a non-zero byte. *)
Definition black_line (y : Z) : Prop :=
  exists x, 0 <= x < cupsBytesPerLine p_header
            /\ load p_pageBuffer (y * cupsBytesPerLine p_header + x) <> 0.

End Margins.

(** ** Band transposition: the "Make send-data" block of [WriteBand] *)

Section Transpose.
Variable p_header : cups_page_header_t.
Variable p_pageBuffer : list Z.
Variable p_data : Z.
Variable lines : Z.

(** The eight guarded statements of the loop body; [v] is the value
    [p_send_data[index]] holds on entry (0 after the [memset]). *)
Definition send_byte (x bit v : Z) : Z :=
  let p_data0 := p_data in
  let p_data1 := p_data0 + cupsBytesPerLine p_header in
  let p_data2 := p_data1 + cupsBytesPerLine p_header in
  let p_data3 := p_data2 + cupsBytesPerLine p_header in
  let p_data4 := p_data3 + cupsBytesPerLine p_header in
  let p_data5 := p_data4 + cupsBytesPerLine p_header in
  let p_data6 := p_data5 + cupsBytesPerLine p_header in
  let p_data7 := p_data6 + cupsBytesPerLine p_header in
  let v := if 1 <=? lines
           then Z.land (Z.shiftl (Z.shiftr (load p_pageBuffer (p_data0 + x)) (7 - bit)) 7) 0x80
           else v in
  let v := if 2 <=? lines
           then Z.lor v (Z.land (Z.shiftl (Z.shiftr (load p_pageBuffer (p_data1 + x)) (7 - bit)) 6) 0x40)
           else v in
  let v := if 3 <=? lines
           then Z.lor v (Z.land (Z.shiftl (Z.shiftr (load p_pageBuffer (p_data2 + x)) (7 - bit)) 5) 0x20)
           else v in
  let v := if 4 <=? lines
           then Z.lor v (Z.land (Z.shiftl (Z.shiftr (load p_pageBuffer (p_data3 + x)) (7 - bit)) 4) 0x10)
           else v in
  let v := if 5 <=? lines
           then Z.lor v (Z.land (Z.shiftl (Z.shiftr (load p_pageBuffer (p_data4 + x)) (7 - bit)) 3) 0x08)
           else v in
  let v := if 6 <=? lines
           then Z.lor v (Z.land (Z.shiftl (Z.shiftr (load p_pageBuffer (p_data5 + x)) (7 - bit)) 2) 0x04)
           else v in
  let v := if 7 <=? lines
           then Z.lor v (Z.land (Z.shiftl (Z.shiftr (load p_pageBuffer (p_data6 + x)) (7 - bit)) 1) 0x02)
           else v in
  let v := if 8 <=? lines
           then Z.lor v (Z.land (Z.shiftl (Z.shiftr (load p_pageBuffer (p_data7 + x)) (7 - bit)) 0) 0x01)
           else v in
  v.

(** [for (bit = 0; bit < 8; bit++) { ...; index++; }] *)
Fixpoint bit_loop (n : nat) (x bit index : Z) (p_send_data : list Z) : Z * list Z :=
  match n with
  | O => (index, p_send_data)
  | S n' =>
      bit_loop n' x (bit + 1) (index + 1)
        (store p_send_data index (send_byte x bit (load p_send_data index)))
  end.

(** [for (x = 0; x < p_header->cupsBytesPerLine; x++)] *)
Fixpoint x_loop (n : nat) (x index : Z) (p_send_data : list Z) : Z * list Z :=
  match n with
  | O => (index, p_send_data)
  | S n' =>
      let '(index', p_send_data') := bit_loop 8 x 0 index p_send_data in
      x_loop n' (x + 1) index' p_send_data'
  end.

(** The zero-filled [p_send_data] of [send_data_size] bytes after the
    two loops. *)
Definition MakeSendData : list Z :=
  let send_data_size := wrap32 (cupsBytesPerLine p_header * 8) in
  let p_send_data := replicate (Z.to_nat send_data_size) 0 in
  snd (x_loop (Z.to_nat (cupsBytesPerLine p_header)) 0 0 p_send_data).

End Transpose.

(** ** Sanitising: [AvoidDisturbingData]

    The loop variable [i] is declared without an initialiser
    ([unsigned long i; for ( ; (i + 1) < data_size; i++ )]), so the value
    the scan starts from is indeterminate.  The embedding takes it as the
    argument [i]. *)

Fixpoint AvoidDisturbingData_loop (fuel : nat) (data_size i : Z) (p_data : list Z)
  : list Z :=
  match fuel with
  | O => p_data
  | S fuel' =>
      if wrap64 (i + 1) <? data_size then
        let p_data' :=
          if load p_data i =? 0x10 then
            if (load p_data (wrap64 (i + 1)) =? 0x04)
               || (load p_data (wrap64 (i + 1)) =? 0x05)
               || (load p_data (wrap64 (i + 1)) =? 0x14)
            then store p_data i 0x30 else p_data
          else if load p_data i =? 0x1B then
            if load p_data (wrap64 (i + 1)) =? 0x3D
            then store p_data i 0x3B else p_data
          else p_data in
        AvoidDisturbingData_loop fuel' data_size (wrap64 (i + 1)) p_data'
      else p_data
  end.

(** [p_pageBuffer] is the buffer handed in (the send data), scanned from its
    line [start_line_no]; [WriteBand] calls it with lines 0 to 8, so the
    scan covers the buffer from its first byte.  The loop runs at most
    [data_size] times (once more when [i] starts at [2^64 - 1]). *)
Definition AvoidDisturbingData (p_header : cups_page_header_t)
    (p_pageBuffer : list Z) (start_line_no last_line_no : Z) (i : Z) : list Z :=
  let off := wrap32 (cupsBytesPerLine p_header * start_line_no) in
  let data_size :=
    wrap32 (wrap32 (last_line_no - start_line_no) * cupsBytesPerLine p_header) in
  take (Z.to_nat off) p_pageBuffer
    ++ AvoidDisturbingData_loop (S (Z.to_nat data_size)) data_size i
         (drop (Z.to_nat off) p_pageBuffer).

(** ** Feed distance

    [FeedPaper] computes [num_line * v_motionUnit] in [unsigned], divides
    in [double], splits the quotient with [modf] and converts the integral
    part to [unsigned].  For operands below 2^32 the [double] quotient of
    two integers has the integral part of the exact quotient (the error of
    the division is far below the distance [1 / resolution] to the next
    integer), so [point] is the integer quotient.  The fractional part is
    read once ([if ( fractional == 0 ) {}]) and dropped; nothing is kept
    from one call to the next. *)
Definition FeedPaper_point (p_config : EPTMS_CONFIG_T)
    (p_header : cups_page_header_t) (num_line : Z) : Z :=
  wrap32 (num_line * v_motionUnit p_config) / HWResolution1 p_header.

(** ** The world of the filter

    What the filter touches outside its own memory.
    - [stdout]: the bytes the sink has accepted, in order.
    - [sink]: what the coming input and output calls of the filter will
      answer, one entry a call in the order of the calls: [write] on the
      sink, and [read] and [close] on the descriptor of a user file; once
      the list is used up every call succeeds and transfers all it can.
    - [sigterm]: [g_TmCanceled] is set by the SIGTERM handler and never
      cleared; [Some n] says the flag still reads 0 the next [n] times it is
      read and 1 from then on, [None] that no signal comes.
    - [uninit], [sanitized]: the indeterminate start value of the loop
      variable of [AvoidDisturbingData] at its k-th call, and the number of
      calls so far.
    - [files]: the user files below the driver's directory, by path.
    - [raster], [pixels]: the pages the raster stream still holds and the
      lines left of the page being read. *)

Inductive sys_write :=
| Wrote (n : Z)          (* the call transfers at most [n] of the bytes offered
                            or asked for; [close] answers 0 *)
| WriteErr (errno : Z).  (* the call answers -1 with this [errno] *)

Inductive user_file :=
| Unreadable              (* [open] fails with an error other than ENOENT *)
| Content (bytes : list Z).

Record cups_page := {
  page_header : cups_page_header_t;
  page_pixels : list (list Z)
}.

Record World := {
  stdout : list Z;
  sink : list sys_write;
  sigterm : option nat;
  uninit : nat -> Z;
  sanitized : nat;
  files : gmap string user_file;
  raster : list cups_page;
  pixels : list (list Z)
}.

Definition set_output (out : list Z) (s : list sys_write) (w : World) : World :=
  {| stdout := out; sink := s;
     sigterm := sigterm w; uninit := uninit w; sanitized := sanitized w;
     files := files w; raster := raster w; pixels := pixels w |}.

Definition set_sigterm (t : option nat) (w : World) : World :=
  {| stdout := stdout w; sink := sink w;
     sigterm := t; uninit := uninit w; sanitized := sanitized w;
     files := files w; raster := raster w; pixels := pixels w |}.

Definition set_sanitized (n : nat) (w : World) : World :=
  {| stdout := stdout w; sink := sink w;
     sigterm := sigterm w; uninit := uninit w; sanitized := n;
     files := files w; raster := raster w; pixels := pixels w |}.

Definition set_raster (r : list cups_page) (px : list (list Z)) (w : World) : World :=
  {| stdout := stdout w; sink := sink w;
     sigterm := sigterm w; uninit := uninit w; sanitized := sanitized w;
     files := files w; raster := r; pixels := px |}.

(** A computation on the world; [None] is a loop that ran out of fuel. *)
Definition M (A : Type) : Type := World -> option (A * World).

Definition ret {A : Type} (a : A) : M A := fun w => Some (a, w).

Definition bind {A B : Type} (m : M A) (k : A -> M B) : M B :=
  fun w => match m w with
           | Some (a, w') => k a w'
           | None => None
           end.

Definition diverge {A : Type} : M A := fun _ => None.

Notation "'let*' x ':=' m 'in' k" := (bind m (fun x => k))
  (at level 10, x name, m at level 200, k at level 200, only parsing).
Notation "'let*' ' p ':=' m 'in' k" := (bind m (fun p => k))
  (at level 10, p strict pattern, m at level 200, k at level 200, only parsing).

(** Reading [g_TmCanceled]. *)
Definition g_TmCanceled : M bool :=
  fun w => match sigterm w with
           | None => Some (false, w)
           | Some O => Some (true, w)
           | Some (S n) => Some (false, set_sigterm (Some n) w)
           end.

(** [write( STDOUT_FILENO, buf, n )]: the return value and [errno]. *)
Definition write (buf : list Z) (n : Z) : M (Z * Z) :=
  fun w => match sink w with
           | [] =>
               Some ((n, 0), set_output (stdout w ++ take (Z.to_nat n) buf) [] w)
           | Wrote k :: s =>
               let k' := Z.max 0 (Z.min k n) in
               Some ((k', 0), set_output (stdout w ++ take (Z.to_nat k') buf) s w)
           | WriteErr e :: s =>
               Some ((-1, e), set_output (stdout w) s w)
           end.

(** The start value found in the uninitialised [i] of this call of
    [AvoidDisturbingData]. *)
Definition uninit_i : M Z :=
  fun w => Some (uninit w (sanitized w), set_sanitized (S (sanitized w)) w).

(** [open] of a user file for reading. *)
Definition open (path : string) : M (option (list Z) * Z) :=
  fun w => match files w !! path with
           | None => Some ((None, ENOENT), w)
           | Some Unreadable => Some ((None, 13), w)
           | Some (Content bytes) => Some ((Some bytes, 0), w)
           end.

(** [cupsRasterReadHeader]: 0 when the stream holds no further page. *)
Definition cupsRasterReadHeader : M (option cups_page_header_t) :=
  fun w => match raster w with
           | [] => Some (None, w)
           | pg :: rest => Some (Some (page_header pg), set_raster rest (page_pixels pg) w)
           end.

(** [cupsRasterReadPixels( p_raster, p_data, len )]: the number of bytes read
    and the line buffer afterwards. *)
Definition cupsRasterReadPixels (p_data : list Z) (len : Z) : M (Z * list Z) :=
  fun w => match pixels w with
           | [] => Some ((0, p_data), w)
           | line :: rest =>
               let got := take (Z.to_nat len) line in
               Some ((Z.of_nat (length got), got ++ drop (length got) p_data),
                     set_raster (raster w) rest w)
           end.

(** ** Output primitives *)

Definition result_of_count (count size : Z) : Z :=
  if count =? size then EPTMD_SUCCESS else EPTMD_FAILED.

(** The loop of [WriteData]; [continue] runs the increment
    [count += result] of the [for] statement like any other pass. *)
Fixpoint WriteData_loop (fuel : nat) (p_buffer : list Z) (size count : Z) : M Z :=
  match fuel with
  | O => diverge
  | S fuel' =>
      if count <? size then
        let* '(r, errno) := write (drop (Z.to_nat count) p_buffer) (size - count) in
        let result := to_int r in
        if result =? 0 then ret (result_of_count count size)
        else if result <? 0 then
          if errno =? EINTR
          then WriteData_loop fuel' p_buffer size (wrap32 (count + result))
          else ret (-1)
        else WriteData_loop fuel' p_buffer size (wrap32 (count + result))
      else ret (result_of_count count size)
  end.

(** Every pass but the last uses up an entry of [sink]. *)
Definition WriteData (p_buffer : list Z) (size : Z) : M Z :=
  fun w => WriteData_loop (S (S (length (sink w)))) p_buffer size 0 w.

(** [for ( ; 0xff < point; point -= 0xff )]: the result and [point]. *)
Fixpoint FeedPaper_loop (fuel : nat) (Command : list Z) (point : Z) : M (Z * Z) :=
  match fuel with
  | O => diverge
  | S fuel' =>
      if 0xff <? point then
        let* result := WriteData Command 3 in
        if negb (result =? EPTMD_SUCCESS) then ret (result, point)
        else FeedPaper_loop fuel' Command (wrap32 (point - 0xff))
      else ret (EPTMD_SUCCESS, point)
  end.

Definition FeedPaper (p_config : EPTMS_CONFIG_T) (p_header : cups_page_header_t)
    (num_line : Z) : M Z :=
  let Command := [ESC; 0x4a (* 'J' *); 0xFF] in
  let point := FeedPaper_point p_config p_header num_line in
  if point =? 0 then ret EPTMD_SUCCESS
  else
    let* '(result, point) :=
      FeedPaper_loop (S (Z.to_nat (point / 0xff))) Command point in
    if negb (result =? EPTMD_SUCCESS) then ret result
    else if 0 <? point then
      let Command := store Command 2 (point mod 256) in
      let* result := WriteData Command 3 in
      if negb (result =? EPTMD_SUCCESS) then ret result
      else ret EPTMD_SUCCESS
    else ret EPTMD_SUCCESS.

(** What [ReadUserFile] hands over when every call of [read] does its part:
    the next bytes of the file, as many as it has left up to the size of
    the buffer. *)
Definition ReadUserFile (rest : list Z) (buffer_size : Z) : list Z :=
  take (Z.to_nat buffer_size) rest.

(** What a call of [read] answers: at most [n] of the bytes asked for, or
    -1. *)
Inductive sys_read :=
| ReadUpTo (n : Z)
| ReadErr.

(** [read( fd, p_data + off, n )] on a file with the bytes [rest] left, the
    calls answering by the script [answers] (once the script is used up a
    call hands over all it can): the return value, the buffer, the script
    and the bytes left. *)
Definition read (answers : list sys_read) (rest : list Z) (p_data : list Z)
    (off n : Z) : Z * list Z * list sys_read * list Z :=
  let available := Z.min n (Z.of_nat (length rest)) in
  match answers with
  | [] =>
      (available, memcpy p_data off rest available, [],
       drop (Z.to_nat available) rest)
  | ReadUpTo k :: answers' =>
      let got := Z.max 0 (Z.min k available) in
      (got, memcpy p_data off rest got, answers', drop (Z.to_nat got) rest)
  | ReadErr :: answers' => (-1, p_data, answers', rest)
  end.

(** The loop of [ReadUserFile]: the result, the buffer, the script and the
    bytes left of the file. *)
Fixpoint ReadUserFile_loop (fuel : nat) (answers : list sys_read) (rest : list Z)
    (p_data : list Z) (buffer_size total_size : Z)
  : option (Z * list Z * list sys_read * list Z) :=
  match fuel with
  | O => None
  | S fuel' =>
      if total_size <? buffer_size then
        let '(r, p_data', answers', rest') :=
          read answers rest p_data total_size (buffer_size - total_size) in
        let read_size := to_int r in
        if read_size <? 0 then Some (EPTMD_FAILED, p_data', answers', rest')
        else if read_size =? 0 then Some (total_size, p_data', answers', rest')
        else ReadUserFile_loop fuel' answers' rest' p_data' buffer_size
               (to_int (total_size + read_size))
      else Some (total_size, p_data, answers, rest)
  end.

(** Every pass but the last two uses up an entry of the script. *)
Definition ReadUserFile_calls (answers : list sys_read) (rest : list Z)
    (p_buffer : list Z) (buffer_size : Z)
  : option (Z * list Z * list sys_read * list Z) :=
  ReadUserFile_loop (S (S (S (length answers)))) answers rest p_buffer buffer_size 0.

(** The answer of the script for a call of [read]. *)
Definition as_read (r : sys_write) : sys_read :=
  match r with
  | Wrote n => ReadUpTo n
  | WriteErr _ => ReadErr
  end.

(** [ReadUserFile( fd, p_buffer, buffer_size )] on the descriptor of a user
    file with the bytes [rest] left, its calls of [read] answered by the
    script of the world: the result, the buffer and the bytes left. *)
Definition ReadUserFile_fd (rest p_buffer : list Z) (buffer_size : Z)
  : M (Z * list Z * list Z) :=
  fun w =>
    match ReadUserFile_calls (map as_read (sink w)) rest p_buffer buffer_size with
    | Some (size, p_buffer', answers', rest') =>
        Some ((size, p_buffer', rest'),
              set_output (stdout w)
                (drop (length (sink w) - length answers') (sink w)) w)
    | None => None
    end.

(** [close( fd )] on the descriptor of a user file. *)
Definition close : M Z :=
  fun w => match sink w with
           | [] => Some (0, w)
           | Wrote _ :: s => Some (0, set_output (stdout w) s w)
           | WriteErr _ :: s => Some (-1, set_output (stdout w) s w)
           end.

(** The [while ( 1 )] of [WriteUserFile] over what is left of the file,
    with the [close] and the returns that follow its [break]. *)
Fixpoint WriteUserFile_loop (fuel : nat) (rest : list Z) : M Z :=
  match fuel with
  | O => diverge
  | S fuel' =>
      let data := replicate 1024 0 in
      let* '(size, data, rest) := ReadUserFile_fd rest data 1024 in
      if size <? 0 then
        let* _ := close in ret EPTMD_FAILED
      else if size =? 0 then
        let* closed := close in
        if closed <? 0 then ret EPTMD_FAILED else ret EPTMD_SUCCESS
      else
        let* result := WriteData data size in
        if negb (result =? EPTMD_SUCCESS) then
          let* _ := close in ret EPTMD_FAILED
        else WriteUserFile_loop fuel' rest
  end.

(** [snprintf( path, sizeof(path)-1, "%s/%s_%s", ... )] into
    [char path[512 + 1]]: the name is cut after 511 characters. *)
Definition user_file_path (p_printerName p_file_name : string) : string :=
  String.substring 0 511
    ("/var/lib/tmx-cups" +:+ "/" +:+ p_printerName +:+ "_" +:+ p_file_name).

(** [WriteUserFile]; a pass of the loop that goes on takes at least one
    byte off the file, which bounds the loop. *)
Definition WriteUserFile (p_printerName p_file_name : string) : M Z :=
  let path := user_file_path p_printerName p_file_name in
  let* '(fd, errno) := open path in
  match fd with
  | None => if errno =? ENOENT then ret EPTMD_SUCCESS else ret EPTMD_FAILED
  | Some bytes => WriteUserFile_loop (S (length bytes)) bytes
  end.

(** ** Bands and pages *)

#[global] Instance EPTME_BLANK_SKIP_TYPE_eq_dec : EqDecision EPTME_BLANK_SKIP_TYPE.
Proof. solve_decision. Defined.

#[global] Instance EPTME_BUZZER_eq_dec : EqDecision EPTME_BUZZER.
Proof. solve_decision. Defined.

#[global] Instance EPTME_DRAWER_eq_dec : EqDecision EPTME_DRAWER.
Proof. solve_decision. Defined.

(** [ESC * 1 nL nH], the band-raster command. *)
Definition band_command (p_header : cups_page_header_t) : list Z :=
  [ESC; 0x2a (* '*' *); 1;
   Z.land (cupsWidth p_header) 0xff;
   Z.land (Z.shiftr (cupsWidth p_header) 8) 0xff].

(** [p_data] is the offset of the band in [p_pageBuffer].  [malloc] is
    taken to succeed. *)
Definition WriteBand (p_config : EPTMS_CONFIG_T) (p_header : cups_page_header_t)
    (p_pageBuffer : list Z) (p_data : Z) (lines : Z) : M Z :=
  let send_data_size := wrap32 (cupsBytesPerLine p_header * 8) in
  let Command := band_command p_header in
  let* result := WriteData Command 5 in
  if negb (result =? EPTMD_SUCCESS) then ret result
  else
    let p_send_data := MakeSendData p_header p_pageBuffer p_data lines in
    let* i := uninit_i in
    let p_send_data := AvoidDisturbingData p_header p_send_data 0 8 i in
    let* result := WriteData p_send_data (wrap32 send_data_size) in
    if negb (result =? EPTMD_SUCCESS) then ret result
    else
      let* result := FeedPaper p_config p_header 8 in
      if negb (result =? EPTMD_SUCCESS) then ret result
      else ret EPTMD_SUCCESS.

(** The band loop of [WriteRaster]: the result and [line_no] on leaving. *)
Fixpoint WriteRaster_loop (fuel : nat) (p_config : EPTMS_CONFIG_T)
    (p_header : cups_page_header_t) (p_pageBuffer : list Z)
    (line_no last_line_no : Z) : M (Z * Z) :=
  match fuel with
  | O => diverge
  | S fuel' =>
      if wrap32 (line_no + maxBandLines p_config) <? last_line_no then
        let p_data := wrap32 (cupsBytesPerLine p_header * line_no) in
        let* result :=
          WriteBand p_config p_header p_pageBuffer p_data (maxBandLines p_config) in
        if negb (result =? EPTMD_SUCCESS) then ret (3403, line_no)
        else
          let* canceled := g_TmCanceled in
          if canceled then ret (EPTMD_CANCEL, line_no)
          else WriteRaster_loop fuel' p_config p_header p_pageBuffer
                 (wrap32 (line_no + maxBandLines p_config)) last_line_no
      else ret (EPTMD_SUCCESS, line_no)
  end.

Definition WriteRaster (p_config : EPTMS_CONFIG_T) (p_header : cups_page_header_t)
    (p_pageBuffer : list Z) : M Z :=
  let start_line_no := FindBlackRasterLineTop p_header p_pageBuffer in
  if cupsHeight p_header =? start_line_no then
    if bool_decide (TmPaperReductionOff = paperReduction p_config) then
      let* result := FeedPaper p_config p_header (cupsHeight p_header) in
      if negb (result =? EPTMD_SUCCESS) then ret 3401 else ret EPTMD_SUCCESS
    else ret EPTMD_SUCCESS
  else
    let last_line_no := wrap32 (FindBlackRasterLineEnd p_header p_pageBuffer + 1) in
    let* result :=
      if negb (bool_decide (TmPaperReductionTop = paperReduction p_config)
               || bool_decide (TmPaperReductionBoth = paperReduction p_config))
      then FeedPaper p_config p_header start_line_no
      else ret EPTMD_SUCCESS in
    if negb (result =? EPTMD_SUCCESS) then ret 3402
    else
      let* '(result, line_no) :=
        WriteRaster_loop (S (Z.to_nat last_line_no)) p_config p_header p_pageBuffer
          start_line_no last_line_no in
      if negb (result =? EPTMD_SUCCESS) then ret result
      else
        let* result :=
          if line_no <? last_line_no then
            let p_data := wrap32 (cupsBytesPerLine p_header * line_no) in
            WriteBand p_config p_header p_pageBuffer p_data
              (wrap32 (last_line_no - line_no))
          else ret EPTMD_SUCCESS in
        if negb (result =? EPTMD_SUCCESS) then ret 3404
        else
          let* result :=
            if negb (bool_decide (TmPaperReductionBottom = paperReduction p_config)
                     || bool_decide (TmPaperReductionBoth = paperReduction p_config))
            then FeedPaper p_config p_header
                   (wrap32 (cupsHeight p_header - last_line_no))
            else ret EPTMD_SUCCESS in
          if negb (result =? EPTMD_SUCCESS) then ret 3405
          else ret EPTMD_SUCCESS.

Definition StartPage (p_config : EPTMS_CONFIG_T) : M Z :=
  let CommandFeedToThePrintStartingPosition :=
    [GS; 0x28 (* '(' *); 0x47 (* 'G' *); 2; 0; 84; 1] in
  let* result := WriteData CommandFeedToThePrintStartingPosition 7 in
  if negb (result =? EPTMD_SUCCESS) then ret 3101
  else
    let* result := WriteUserFile (p_printerName p_config) "StartPage.prn" in
    if negb (result =? EPTMD_SUCCESS) then ret 3102
    else ret EPTMD_SUCCESS.

Definition EndPage (p_config : EPTMS_CONFIG_T) (p_header : cups_page_header_t) : M Z :=
  let* canceled := g_TmCanceled in
  if canceled then ret EPTMD_CANCEL
  else
    let* result := WriteUserFile (p_printerName p_config) "EndPage.prn" in
    if negb (result =? EPTMD_SUCCESS) then ret 3201
    else
      let Command := [ESC; 0x46 (* 'F' *); 0; FF] in
      let* result := WriteData Command 4 in
      if negb (result =? EPTMD_SUCCESS) then ret 3202
      else ret EPTMD_SUCCESS.

Definition TransferRaster (p_pageBuffer p_data : list Z)
    (p_header : cups_page_header_t) (line_no : Z) : list Z :=
  memcpy p_pageBuffer (wrap32 (cupsBytesPerLine p_header * line_no)) p_data
    (cupsBytesPerLine p_header).

(** The scanline loop of [ReadRaster]: the result and the page buffer. *)
Fixpoint ReadRaster_loop (n : nat) (p_header : cups_page_header_t) (i : Z)
    (p_data p_pageBuffer : list Z) : M (Z * list Z) :=
  match n with
  | O => ret (EPTMD_SUCCESS, p_pageBuffer)
  | S n' =>
      let data_size := cupsBytesPerLine p_header in
      let* canceled := g_TmCanceled in
      if canceled then ret (EPTMD_CANCEL, p_pageBuffer)
      else
        let* '(num_bytes_read, p_data) := cupsRasterReadPixels p_data data_size in
        if num_bytes_read <? data_size then ret (3302, p_pageBuffer)
        else
          ReadRaster_loop n' p_header (i + 1) p_data
            (TransferRaster p_pageBuffer p_data p_header i)
  end.

Definition ReadRaster (p_header : cups_page_header_t) (p_pageBuffer : list Z)
  : M (Z * list Z) :=
  let data_size := cupsBytesPerLine p_header in
  let p_data := replicate (Z.to_nat data_size) 0 in
  ReadRaster_loop (Z.to_nat (cupsHeight p_header)) p_header 0 p_data p_pageBuffer.

(** The result and the page buffer, which [ReadRaster] fills in place. *)
Definition DoPage (p_config : EPTMS_CONFIG_T) (pageHeader : cups_page_header_t)
    (p_pageBuffer : list Z) : M (Z * list Z) :=
  let* result := StartPage p_config in
  let* '(result, p_pageBuffer) :=
    if result =? EPTMD_SUCCESS then ReadRaster pageHeader p_pageBuffer
    else ret (result, p_pageBuffer) in
  let* result :=
    if result =? EPTMD_SUCCESS then WriteRaster p_config pageHeader p_pageBuffer
    else ret result in
  let* result :=
    if result =? EPTMD_SUCCESS then EndPage p_config pageHeader
    else ret result in
  ret (result, p_pageBuffer).

(** ** Jobs *)

Definition OpenDrawer (p_config : EPTMS_CONFIG_T) : M Z :=
  if bool_decide (TmDrawerNotUsed = drawerControl p_config) then ret EPTMD_SUCCESS
  else
    let Command := [ESC; 0x70 (* 'p' *); 0; 50; 200] in
    let Command := store Command 2 (drawer_code (drawerControl p_config) - 1) in
    WriteData Command 5.

Definition SoundBuzzer (p_config : EPTMS_CONFIG_T) : M Z :=
  if bool_decide (TmBuzzerNotUsed = buzzerControl p_config) then ret EPTMD_SUCCESS
  else if bool_decide (TmBuzzerInternal = buzzerControl p_config) then
    let Command := [ESC; 0x70 (* 'p' *); 1; 50; 200] in
    let* result := WriteData Command 5 in
    if negb (result =? EPTMD_SUCCESS) then ret result else ret EPTMD_SUCCESS
  else if bool_decide (TmBuzzerExternal = buzzerControl p_config) then
    let Command := [ESC; 0x28 (* '(' *); 0x41 (* 'A' *); 5; 0; 97; 100; 1; 50; 200] in
    let* result := WriteData Command 10 in
    if negb (result =? EPTMD_SUCCESS) then ret result else ret EPTMD_SUCCESS
  else ret EPTMD_SUCCESS.

Definition StartJob (p_config : EPTMS_CONFIG_T) : M Z :=
  let* canceled := g_TmCanceled in
  if canceled then ret EPTMD_CANCEL
  else
    let CommandSetDevice := [ESC; 0x3d (* '=' *); 0x01; ESC; 0x40 (* '@' *)] in
    let* result := WriteData CommandSetDevice 5 in
    if negb (result =? EPTMD_SUCCESS) then ret 2101
    else
      let CommandSetPrintSheet := [ESC; 0x63 (* 'c' *); 0x30 (* '0' *); 0x04] in
      let* result := WriteData CommandSetPrintSheet 4 in
      if negb (result =? EPTMD_SUCCESS) then ret 2102
      else
        let CommandSetConfigSheet := [ESC; 0x63; 0x31 (* '1' *); 0x04] in
        let* result := WriteData CommandSetConfigSheet 4 in
        if negb (result =? EPTMD_SUCCESS) then ret 2103
        else
          let CommandSetNearendPrint := [ESC; 0x63; 0x33 (* '3' *); 0x00] in
          let* result := WriteData CommandSetNearendPrint 4 in
          if negb (result =? EPTMD_SUCCESS) then ret 2104
          else
            let CommandSelectTheSideOfTheSlip :=
              [GS; 0x28 (* '(' *); 0x47 (* 'G' *); 2; 0; 48; 4] in
            let* result := WriteData CommandSelectTheSideOfTheSlip 7 in
            if negb (result =? EPTMD_SUCCESS) then ret 2105
            else
              let* result := OpenDrawer p_config in
              if negb (result =? EPTMD_SUCCESS) then ret 2106
              else
                let* result := SoundBuzzer p_config in
                if negb (result =? EPTMD_SUCCESS) then ret 2107
                else
                  let* result :=
                    WriteUserFile (p_printerName p_config) "StartJob.prn" in
                  if negb (result =? EPTMD_SUCCESS) then ret 2108
                  else ret EPTMD_SUCCESS.

Definition EndJob (p_config : EPTMS_CONFIG_T) : M Z :=
  let* canceled := g_TmCanceled in
  if canceled then ret EPTMD_CANCEL
  else
    let* result := WriteUserFile (p_printerName p_config) "EndJob.prn" in
    if negb (result =? EPTMD_SUCCESS) then ret 2201
    else ret EPTMD_SUCCESS.

(** The [while ( EPTMD_SUCCESS == result )] of [DoJob], entered with
    [result] at [EPTMD_SUCCESS]; [p_pageBuffer] is [None] for [NULL].  A pass
    takes a page off the stream, so the pages left bound the loop. *)
Fixpoint DoJob_loop (fuel : nat) (p_config : EPTMS_CONFIG_T)
    (p_pageBuffer : option (list Z)) : M Z :=
  match fuel with
  | O => diverge
  | S fuel' =>
      let* header := cupsRasterReadHeader in
      match header with
      | None => ret EPTMD_SUCCESS
      | Some pageHeader =>
          if negb (cupsBitsPerPixel pageHeader =? 1) then ret 2001
          else
            let p_pageBuffer :=
              match p_pageBuffer with
              | None =>
                  let size :=
                    wrap32 (cupsHeight pageHeader * cupsBytesPerLine pageHeader) in
                  replicate (Z.to_nat size) 0
              | Some buffer => buffer
              end in
            let* '(result, p_pageBuffer) := DoPage p_config pageHeader p_pageBuffer in
            if result =? EPTMD_SUCCESS
            then DoJob_loop fuel' p_config (Some p_pageBuffer)
            else ret result
      end
  end.

(** [DoJob] up to the release of the page buffer: [StartJob] and the loop
    over the pages. *)
Definition DoJob_pages (p_config : EPTMS_CONFIG_T) : M Z :=
  let* result := StartJob p_config in
  if result =? EPTMD_SUCCESS
  then fun w => DoJob_loop (S (length (raster w))) p_config None w
  else ret result.

Definition DoJob (p_config : EPTMS_CONFIG_T) : M Z :=
  let* result := DoJob_pages p_config in
  if negb (result =? EPTMD_SUCCESS) then
    let* _ := EndJob p_config in ret result
  else EndJob p_config.

(** The exit status [main] returns for the result of the job. *)
Definition main_status (result : Z) : Z :=
  if result =? EPTMD_SUCCESS then 0
  else if result =? EPTMD_CANCEL then -2
  else -1.

(** [main] once [Init] has succeeded with the configuration [Config]. *)
Definition main (Config : EPTMS_CONFIG_T) : M Z :=
  let* result := DoJob Config in
  ret (main_status result).

(** ** What the output is compared with *)

(** The rewriting the sanitiser is to perform on a byte [a] followed by [b]. *)
Definition sanitized_byte (a b : Z) : Z :=
  if (a =? 0x10) && ((b =? 0x04) || (b =? 0x05) || (b =? 0x14)) then 0x30
  else if (a =? 0x1B) && (b =? 0x3D) then 0x3B
  else a.

(** An upper bound of the passes the sanitiser's loop makes from [i]. *)
Definition sanitizer_passes (data_size i : Z) : Z :=
  if i + 1 <? 2 ^ 64 then Z.max 0 (data_size - 1 - i) else Z.max 0 data_size.

(** The distances of the feed commands for an integer distance [d]:
    commands of 255 and a last one for what is left. *)
Definition feed_chunks (d : Z) : list Z :=
  if d <=? 0 then []
  else replicate (Z.to_nat ((d - 1) / 255)) 255 ++ [d - 255 * ((d - 1) / 255)].

(** The feed commands [ESC J n] for a list of distances. *)
Definition feed_bytes (chunks : list Z) : list Z :=
  flat_map (fun n => [ESC; 0x4a; n]) chunks.

(** The distances of the commands in a run of three-byte feed commands. *)
Fixpoint feed_distances (out : list Z) : list Z :=
  match out with
  | _ :: _ :: n :: rest => n :: feed_distances rest
  | _ => []
  end.

Definition sum_list (l : list Z) : Z := fold_right Z.add 0 l.

(** The bytes of a feed for [num_line] scanlines. *)
Definition feed_output (p_config : EPTMS_CONFIG_T) (p_header : cups_page_header_t)
    (num_line : Z) : list Z :=
  feed_bytes (feed_chunks (FeedPaper_point p_config p_header num_line)).

(** Successive feeds for the scanline counts [counts]. *)
Fixpoint feed_each (p_config : EPTMS_CONFIG_T) (p_header : cups_page_header_t)
    (counts : list Z) : M Z :=
  match counts with
  | [] => ret EPTMD_SUCCESS
  | n :: rest =>
      let* result := FeedPaper p_config p_header n in
      if negb (result =? EPTMD_SUCCESS) then ret result
      else feed_each p_config p_header rest
  end.

(** The bytes of one band: the command, the sanitised send data and the
    feed that follows it; [i] is the start value of the sanitiser's scan. *)
Definition band_payload (p_header : cups_page_header_t) (p_pageBuffer : list Z)
    (p_data lines i : Z) : list Z :=
  AvoidDisturbingData p_header (MakeSendData p_header p_pageBuffer p_data lines) 0 8 i.

Definition band_output (p_config : EPTMS_CONFIG_T) (p_header : cups_page_header_t)
    (p_pageBuffer : list Z) (p_data lines i : Z) : list Z :=
  band_command p_header ++ band_payload p_header p_pageBuffer p_data lines i
    ++ feed_output p_config p_header 8.

(** [n] bands of 8 lines from line [line_no] on, the k-th sanitiser call
    being the first. *)
Fixpoint full_bands (n : nat) (p_config : EPTMS_CONFIG_T)
    (p_header : cups_page_header_t) (p_pageBuffer : list Z) (line_no : Z)
    (un : nat -> Z) (k : nat) : list Z :=
  match n with
  | O => []
  | S n' =>
      band_output p_config p_header p_pageBuffer
        (cupsBytesPerLine p_header * line_no) 8 (un k)
      ++ full_bands n' p_config p_header p_pageBuffer (line_no + 8) un (S k)
  end.

(** The flag's schedule after [polls] further reads. *)
Definition after_polls (polls : nat) (t : option nat) : option nat :=
  match t with
  | None => None
  | Some n => Some (n - polls)%nat
  end.

(** The world after [bytes] went to the sink, the flag was read [polls]
    times and the sanitiser ran [bands] times. *)
Definition advance (bytes : list Z) (polls bands : nat) (w : World) : World :=
  {| stdout := stdout w ++ bytes; sink := sink w;
     sigterm := after_polls polls (sigterm w); uninit := uninit w;
     sanitized := (sanitized w + bands)%nat;
     files := files w; raster := raster w; pixels := pixels w |}.

(** No signal is seen by the next [n] reads of the flag. *)
Definition quiet_for (n : nat) (w : World) : Prop :=
  match sigterm w with
  | None => True
  | Some t => (n <= t)%nat
  end.

(** The margin policy in the words of the table: which modes feed the top
    margin and which the bottom margin. *)
Definition feeds_top_margin (mode : EPTME_BLANK_SKIP_TYPE) : bool :=
  match mode with
  | TmPaperReductionOff | TmPaperReductionBottom => true
  | TmPaperReductionTop | TmPaperReductionBoth => false
  end.

Definition feeds_bottom_margin (mode : EPTME_BLANK_SKIP_TYPE) : bool :=
  match mode with
  | TmPaperReductionOff | TmPaperReductionTop => true
  | TmPaperReductionBottom | TmPaperReductionBoth => false
  end.

(** The number of bands the band loop writes for the printable range
    [[top, last)]; the band after them, of 1 to 8 lines, is the final one. *)
Definition loop_bands (top last : Z) : nat := Z.to_nat ((last - top - 1) / 8).

(** The final band of the printable range [[top, last)], as the [k]-th band
    of the page (counting from 0). *)
Definition final_band (p_config : EPTMS_CONFIG_T) (p_header : cups_page_header_t)
    (p_pageBuffer : list Z) (top last : Z) (un : nat -> Z) (k : nat) : list Z :=
  let line_no := top + 8 * Z.of_nat (loop_bands top last) in
  band_output p_config p_header p_pageBuffer
    (cupsBytesPerLine p_header * line_no) (last - line_no) (un k).

(** A call that fails with an error other than EINTR. *)
Definition fatal (r : sys_write) : Prop :=
  match r with
  | Wrote _ => False
  | WriteErr e => e <> EINTR
  end.

(** The first fatal entry of the sink's script is still ahead: the script
    is [pre ++ WriteErr e :: rest] with nothing fatal in [pre]. *)
Definition ahead (e : Z) (rest : list sys_write) (w : World) : Prop :=
  exists pre, sink w = pre ++ WriteErr e :: rest
              /\ Forall (fun r => ~ fatal r) pre.

Definition is_success (result : Z) : bool := result =? EPTMD_SUCCESS.

(** A result that is neither success nor the cancellation: the results for
    which [main] returns the exit status -1. *)
Definition is_failure (result : Z) : bool :=
  negb (result =? EPTMD_SUCCESS) && negb (result =? EPTMD_CANCEL).

(** The world [w] with the script [s] in place of its own. *)
Definition with_script (s : list sys_write) (w : World) : World :=
  set_output (stdout w) s w.

(** Two runs that differ in what the script holds after its first fatal
    entry only, [rest] in the one and [rest'] in the other: both have the
    fatal entry still ahead, after the same entries. *)
Definition ahead_in_both (e : Z) (rest rest' : list sys_write) (w1 w2 : World)
  : Prop :=
  exists pre, Forall (fun r => ~ fatal r) pre
              /\ sink w1 = pre ++ WriteErr e :: rest
              /\ w2 = with_script (pre ++ WriteErr e :: rest') w1.

(** Both runs have made the failing call, and at most [n] calls after it:
    the scripts are left at [rest] and [rest'] less the same number of
    entries, and the worlds are the same otherwise, the output included. *)
Definition failed_in_both (n : nat) (rest rest' : list sys_write) (w1 w2 : World)
  : Prop :=
  exists k, (k <= n)%nat /\ sink w1 = drop k rest
            /\ w2 = with_script (drop k rest') w1.

(** [m] stops at the fatal entry.  Run with that entry ahead, it returns
    the same result whatever follows the entry in the script, and either
    the entry is still ahead when it returns, or it has made the failing
    call, at most [n] calls after it, none of them writing (the output does
    not depend on what the calls would have answered), and its result is
    one of [bad]. *)
Definition stops {A : Type} (e : Z) (rest rest' : list sys_write) (n : nat)
    (bad : A -> bool) (m : M A) : Prop :=
  forall w1 w2 a w1',
    ahead_in_both e rest rest' w1 w2 -> m w1 = Some (a, w1') ->
    exists w2',
      m w2 = Some (a, w2')
      /\ (ahead_in_both e rest rest' w1' w2'
          \/ (failed_in_both n rest rest' w1' w2' /\ bad a = true)).

(** A step that neither reads nor changes the script. *)
Definition quiet {A : Type} (m : M A) : Prop :=
  forall w a w' s,
    m w = Some (a, w') ->
    sink w' = sink w /\ m (with_script s w) = Some (a, with_script s w').


(** The bytes [StartJob] and [StartPage] write when there is no user file. *)
Definition job_prologue (p_config : EPTMS_CONFIG_T) : list Z :=
  [ESC; 0x3d; 0x01; ESC; 0x40] ++ [ESC; 0x63; 0x30; 0x04]
  ++ [ESC; 0x63; 0x31; 0x04] ++ [ESC; 0x63; 0x33; 0x00]
  ++ [GS; 0x28; 0x47; 2; 0; 48; 4]
  ++ match drawerControl p_config with
     | TmDrawerNotUsed => []
     | TmDrawer1 => [ESC; 0x70; 0; 50; 200]
     | TmDrawer2 => [ESC; 0x70; 1; 50; 200]
     end
  ++ match buzzerControl p_config with
     | TmBuzzerNotUsed => []
     | TmBuzzerInternal => [ESC; 0x70; 1; 50; 200]
     | TmBuzzerExternal => [ESC; 0x28; 0x41; 5; 0; 97; 100; 1; 50; 200]
     end.

Definition page_prologue : list Z := [GS; 0x28; 0x47; 2; 0; 84; 1].

(** [m] returns, and leaves the raster stream's pages as they are. *)
Definition runs {A : Type} (m : M A) : Prop :=
  forall w, exists a w', m w = Some (a, w') /\ raster w' = raster w.

(** The sizes of a page header under which the [unsigned] arithmetic of the
    page does not wrap. *)
Definition page_ok (p_header : cups_page_header_t) : Prop :=
  0 <= cupsBytesPerLine p_header
  /\ 0 <= cupsHeight p_header /\ cupsHeight p_header + 8 <= 2 ^ 32
  /\ cupsBytesPerLine p_header * cupsHeight p_header < 2 ^ 32.

(** ** Worked inputs *)

(** A page of 8 scanlines of one byte at 203 dpi. *)
Definition example_header : cups_page_header_t :=
  {| HWResolution1 := 203; cupsWidth := 8; cupsHeight := 8;
     cupsBitsPerPixel := 1; cupsBytesPerLine := 1 |}.

(** The page whose scanline 5 alone holds a non-zero byte. *)
Definition example_page : list Z := [0; 0; 0; 0; 0; 1; 0; 0].

(** The configuration of the worked inputs: motion unit 10 (at 203 dpi in
    [example_header]), neither drawer nor buzzer, bands of 8 lines. *)
Definition example_config (mode : EPTME_BLANK_SKIP_TYPE) : EPTMS_CONFIG_T :=
  {| p_printerName := "TM-H6000IV"; h_motionUnit := 10; v_motionUnit := 10;
     paperReduction := mode; buzzerControl := TmBuzzerNotUsed;
     drawerControl := TmDrawerNotUsed; maxBandLines := 8 |}.

(** A world at the start of a job: a sink that takes everything, no signal,
    no user files, the sanitiser's scan starting at 0, the pages [pages]
    waiting in the raster stream. *)
Definition example_world (pages : list cups_page) : World :=
  {| stdout := []; sink := []; sigterm := None; uninit := fun _ => 0;
     sanitized := 0%nat; files := ∅; raster := pages; pixels := [] |}.

(** The bytes on the sink and the result after a run. *)
Definition output_of {A : Type} (r : option (A * World)) : list Z :=
  match r with
  | Some (_, w) => stdout w
  | None => []
  end.

Definition result_of {A : Type} (r : option (A * World)) : option A :=
  match r with
  | Some (a, _) => Some a
  | None => None
  end.

(** A page of 8 scanlines of one byte at 8 dpi: with motion unit 10 a feed
    for 8 scanlines is 10 units, one for 3 scanlines 3 units. *)
Definition coarse_header : cups_page_header_t :=
  {| HWResolution1 := 8; cupsWidth := 8; cupsHeight := 8;
     cupsBitsPerPixel := 1; cupsBytesPerLine := 1 |}.

(** A job without pages on a sink whose first call of [write] fails with
    EIO (5) and which takes everything afterwards, with a user file
    [EndJob.prn] of two bytes. *)
Definition failing_world : World :=
  {| stdout := []; sink := [WriteErr 5]; sigterm := None; uninit := fun _ => 0;
     sanitized := 0%nat;
     files := {[ user_file_path "TM-H6000IV" "EndJob.prn" := Content [0x41; 0x42] ]};
     raster := []; pixels := [] |}.

(** A page of 40 black scanlines of one byte at 8 dpi: five bands. *)
Definition five_band_page : cups_page :=
  {| page_header := {| HWResolution1 := 8; cupsWidth := 8; cupsHeight := 40;
                       cupsBitsPerPixel := 1; cupsBytesPerLine := 1 |};
     page_pixels := replicate 40 [0xff] |}.

(** A job of two such pages with the user files [StartJob.prn] and
    [StartPage.prn] in place, when SIGTERM comes while the second band of
    the second page is being written: the flag reads 0 in [StartJob] (1
    read), all through the first page (40 reads in [ReadRaster], 4 after
    the bands of the band loop, 1 in [EndPage]), in [ReadRaster] of the
    second page (40 reads) and after its first band, and 1 after its second
    band. *)
Definition canceled_second_page_world : World :=
  {| stdout := []; sink := []; sigterm := Some 87%nat; uninit := fun _ => 0;
     sanitized := 0%nat;
     files := {[ user_file_path "TM-H6000IV" "StartJob.prn" := Content [0x53];
                 user_file_path "TM-H6000IV" "StartPage.prn" := Content [0x50];
                 user_file_path "TM-H6000IV" "EndJob.prn" := Content [0x41; 0x42] ]};
     raster := [five_band_page; five_band_page]; pixels := [] |}.

(** The job of that page on a sink whose first twelve calls are taken in
    full (five of [StartJob], one of [StartPage], three for each of two
    bands) and whose thirteenth call fails with EIO (5), with two entries
    after it in the script and a user file [EndJob.prn] of two bytes. *)
Definition failing_page_world : World :=
  {| stdout := [];
     sink := replicate 12 (Wrote 4096) ++ [WriteErr 5; Wrote 7; Wrote 7];
     sigterm := None; uninit := fun _ => 0; sanitized := 0%nat;
     files := {[ user_file_path "TM-H6000IV" "EndJob.prn" := Content [0x41; 0x42] ]};
     raster := [five_band_page]; pixels := [] |}.

(** The job of that page when SIGTERM comes while the second band is being
    written: the flag reads 0 in [StartJob] (1 read), in [ReadRaster] (40
    reads) and after the first band, and 1 after the second band. *)
Definition canceled_world : World :=
  {| stdout := []; sink := []; sigterm := Some 42%nat; uninit := fun _ => 0;
     sanitized := 0%nat;
     files := {[ user_file_path "TM-H6000IV" "EndJob.prn" := Content [0x41; 0x42] ]};
     raster := [five_band_page]; pixels := [] |}.

(** ** Start-up: [Init] and the PPD *)

Definition LONG_MAX : Z := 2 ^ 63 - 1.
Definition LONG_MIN : Z := - 2 ^ 63.

Definition isspace (c : Ascii.ascii) : bool :=
  let n := Z.of_nat (Ascii.nat_of_ascii c) in
  (n =? 32) || ((9 <=? n) && (n <=? 13)).

Definition digit_value (c : Ascii.ascii) : option Z :=
  let n := Z.of_nat (Ascii.nat_of_ascii c) in
  if (48 <=? n) && (n <=? 57) then Some (n - 48) else None.

Fixpoint skip_space (s : string) : string :=
  match s with
  | String.String c s' => if isspace c then skip_space s' else s
  | String.EmptyString => s
  end.

(** The value of the decimal digits at the head of [s], after [acc]. *)
Fixpoint digits_value (s : string) (acc : Z) : Z :=
  match s with
  | String.String c s' =>
      match digit_value c with
      | Some d => digits_value s' (10 * acc + d)
      | None => acc
      end
  | String.EmptyString => acc
  end.

(** [atol], which is [strtol] in base 10: white space, an optional sign,
    the decimal digits that follow; a value out of the range of [long] is
    answered by LONG_MAX or LONG_MIN. *)
Definition atol (s : string) : Z :=
  match skip_space s with
  | String.String c s' =>
      let n := Z.of_nat (Ascii.nat_of_ascii c) in
      if n =? 45 (* '-' *) then Z.max LONG_MIN (- digits_value s' 0)
      else if n =? 43 (* '+' *) then Z.min LONG_MAX (digits_value s' 0)
      else Z.min LONG_MAX (digits_value (String.String c s') 0)
  | String.EmptyString => 0
  end.

(** The PPD file as the filter reads it: the value of the first attribute
    of a name ([ppdFindAttr] with a NULL spec) and the marked choice of an
    option ([ppdFindMarkedChoice]). *)
Record ppd_file_t := {
  ppd_attrs : gmap string string;
  ppd_marked : gmap string string
}.

Definition ppdFindAttr (p_ppd : ppd_file_t) (name : string) : option string :=
  ppd_attrs p_ppd !! name.

Definition ppdFindMarkedChoice (p_ppd : ppd_file_t) (keyword : string) : option string :=
  ppd_marked p_ppd !! keyword.

(** What the calls of [Init] outside the filter answer.
    - [signal_calls]: the return values of the six calls of [InitSignal], in
      order; a call past the end of the list returns 0.
    - [open_input]: the descriptor [open( argv[6], O_RDONLY )] returns.
    - [cupsRasterOpen]: whether a raster stream is opened on a descriptor
      ([false] for NULL).
    - [ppdOpenFile]: the PPD file named by the environment variable PPD
      ([None] for NULL); [ppdMarkDefaults], [cupsParseOptions] and
      [cupsMarkOptions] (the conflict flag with the PPD after marking) are
      the calls of the CUPS library. *)
Record Startup := {
  signal_calls : list Z;
  open_input : string -> Z;
  cupsRasterOpen : Z -> bool;
  ppdOpenFile : option ppd_file_t;
  ppdMarkDefaults : ppd_file_t -> ppd_file_t;
  cupsParseOptions : string -> list (string * string);
  cupsMarkOptions : ppd_file_t -> list (string * string) -> bool * ppd_file_t
}.

Definition set_h_motionUnit (v : Z) (c : EPTMS_CONFIG_T) : EPTMS_CONFIG_T :=
  {| p_printerName := p_printerName c; h_motionUnit := v;
     v_motionUnit := v_motionUnit c; paperReduction := paperReduction c;
     buzzerControl := buzzerControl c; drawerControl := drawerControl c;
     maxBandLines := maxBandLines c |}.

Definition set_v_motionUnit (v : Z) (c : EPTMS_CONFIG_T) : EPTMS_CONFIG_T :=
  {| p_printerName := p_printerName c; h_motionUnit := h_motionUnit c;
     v_motionUnit := v; paperReduction := paperReduction c;
     buzzerControl := buzzerControl c; drawerControl := drawerControl c;
     maxBandLines := maxBandLines c |}.

Definition set_paperReduction (v : EPTME_BLANK_SKIP_TYPE) (c : EPTMS_CONFIG_T)
  : EPTMS_CONFIG_T :=
  {| p_printerName := p_printerName c; h_motionUnit := h_motionUnit c;
     v_motionUnit := v_motionUnit c; paperReduction := v;
     buzzerControl := buzzerControl c; drawerControl := drawerControl c;
     maxBandLines := maxBandLines c |}.

Definition set_buzzerControl (v : EPTME_BUZZER) (c : EPTMS_CONFIG_T) : EPTMS_CONFIG_T :=
  {| p_printerName := p_printerName c; h_motionUnit := h_motionUnit c;
     v_motionUnit := v_motionUnit c; paperReduction := paperReduction c;
     buzzerControl := v; drawerControl := drawerControl c;
     maxBandLines := maxBandLines c |}.

Definition set_drawerControl (v : EPTME_DRAWER) (c : EPTMS_CONFIG_T) : EPTMS_CONFIG_T :=
  {| p_printerName := p_printerName c; h_motionUnit := h_motionUnit c;
     v_motionUnit := v_motionUnit c; paperReduction := paperReduction c;
     buzzerControl := buzzerControl c; drawerControl := v;
     maxBandLines := maxBandLines c |}.

(** The two assignments at the end of [Init]. *)
Definition set_printer (name : string) (lines : Z) (c : EPTMS_CONFIG_T) : EPTMS_CONFIG_T :=
  {| p_printerName := name; h_motionUnit := h_motionUnit c;
     v_motionUnit := v_motionUnit c; paperReduction := paperReduction c;
     buzzerControl := buzzerControl c; drawerControl := drawerControl c;
     maxBandLines := lines |}.

(** [EPTMS_CONFIG_T Config = {0};] in [main]. *)
Definition zero_Config : EPTMS_CONFIG_T :=
  {| p_printerName := ""; h_motionUnit := 0; v_motionUnit := 0;
     paperReduction := TmPaperReductionOff; buzzerControl := TmBuzzerNotUsed;
     drawerControl := TmDrawerNotUsed; maxBandLines := 0 |}.

Definition InitSignal (calls : list Z) : Z :=
  let answer (k : nat) := default 0 (calls !! k) in
  if negb (answer 0%nat =? 0) then 1101       (* sigemptyset *)
  else if negb (answer 1%nat =? 0) then 1102  (* sigaddset *)
  else if negb (answer 2%nat =? 0) then 1103  (* sigprocmask( SIG_BLOCK ) *)
  else if negb (answer 3%nat =? 0) then 1104  (* sigaction, read *)
  else if negb (answer 4%nat =? 0) then 1105  (* sigaction, set *)
  else if negb (answer 5%nat =? 0) then 1106  (* sigprocmask( SIG_UNBLOCK ) *)
  else EPTMD_SUCCESS.

(** The functions that fill the configuration return the result with the
    configuration as they leave it. *)
Definition GetModelSpecificFromPPD (p_ppd : ppd_file_t) (p_config : EPTMS_CONFIG_T)
  : Z * EPTMS_CONFIG_T :=
  match ppdFindAttr p_ppd "TmxMotionUnitHori" with
  | None => (4101, p_config)
  | Some value =>
      let p_config := set_h_motionUnit (wrap32 (atol value)) p_config in
      if (0 =? h_motionUnit p_config) || (255 <? h_motionUnit p_config)
      then (4102, p_config)
      else
        match ppdFindAttr p_ppd "TmxMotionUnitVert" with
        | None => (4103, p_config)
        | Some value =>
            let p_config := set_v_motionUnit (wrap32 (atol value)) p_config in
            if (0 =? v_motionUnit p_config) || (255 <? v_motionUnit p_config)
            then (4104, p_config)
            else (EPTMD_SUCCESS, p_config)
        end
  end.

Definition GetPaperReductionFromPPD (p_ppd : ppd_file_t) (p_config : EPTMS_CONFIG_T)
  : Z * EPTMS_CONFIG_T :=
  match ppdFindMarkedChoice p_ppd "TmxPaperReduction" with
  | None => (4201, p_config)
  | Some choice =>
      if String.eqb "Off" choice
      then (EPTMD_SUCCESS, set_paperReduction TmPaperReductionOff p_config)
      else if String.eqb "Top" choice
      then (EPTMD_SUCCESS, set_paperReduction TmPaperReductionTop p_config)
      else if String.eqb "Bottom" choice
      then (EPTMD_SUCCESS, set_paperReduction TmPaperReductionBottom p_config)
      else if String.eqb "Both" choice
      then (EPTMD_SUCCESS, set_paperReduction TmPaperReductionBoth p_config)
      else (4202, p_config)
  end.

Definition GetBuzzerAndDrawerFromPPD (p_ppd : ppd_file_t) (p_config : EPTMS_CONFIG_T)
  : Z * EPTMS_CONFIG_T :=
  match ppdFindMarkedChoice p_ppd "TmxBuzzerAndDrawer" with
  | None => (4301, p_config)
  | Some choice =>
      if String.eqb "NotUsed" choice
      then (EPTMD_SUCCESS,
            set_drawerControl TmDrawerNotUsed
              (set_buzzerControl TmBuzzerNotUsed p_config))
      else if String.eqb "InternalBuzzer" choice
      then (EPTMD_SUCCESS, set_buzzerControl TmBuzzerInternal p_config)
      else if String.eqb "ExternalBuzzer" choice
      then (EPTMD_SUCCESS, set_buzzerControl TmBuzzerExternal p_config)
      else if String.eqb "OpenDrawer1" choice
      then (EPTMD_SUCCESS, set_drawerControl TmDrawer1 p_config)
      else if String.eqb "OpenDrawer2" choice
      then (EPTMD_SUCCESS, set_drawerControl TmDrawer2 p_config)
      else (4302, p_config)
  end.

(** [argv[k]]; [main] is entered with [argc] strings in [argv]. *)
Definition arg (argv : list string) (k : nat) : string := default "" (argv !! k).

Definition GetParameters (env : Startup) (argv : list string)
    (p_config : EPTMS_CONFIG_T) : Z * EPTMS_CONFIG_T :=
  match ppdOpenFile env with
  | None => (4001, p_config)
  | Some p_ppd =>
      let p_ppd := ppdMarkDefaults env p_ppd in
      let p_options := cupsParseOptions env (arg argv 5) in
      let num_option := Z.of_nat (length p_options) in
      let '(conflict, p_ppd) :=
        if 0 <? num_option then cupsMarkOptions env p_ppd p_options
        else (false, p_ppd) in
      if conflict then (4002, p_config)
      else
        let '(result, p_config) := GetModelSpecificFromPPD p_ppd p_config in
        let '(result, p_config) :=
          if result =? EPTMD_SUCCESS then GetPaperReductionFromPPD p_ppd p_config
          else (result, p_config) in
        let '(result, p_config) :=
          if result =? EPTMD_SUCCESS then GetBuzzerAndDrawerFromPPD p_ppd p_config
          else (result, p_config) in
        (result, p_config)
  end.

(** [argv] is the array [main] was entered with, so it is not NULL. *)
Definition Init (env : Startup) (argc : Z) (argv : list string)
    (p_config : EPTMS_CONFIG_T) : Z * EPTMS_CONFIG_T :=
  if negb (6 =? argc) && negb (7 =? argc) then (1001, p_config)
  else
    let result := InitSignal (signal_calls env) in
    if negb (result =? EPTMD_SUCCESS) then (result, p_config)
    else
      let InputFd := if 6 =? argc then 0 else open_input env (arg argv 6) in
      if negb (6 =? argc) && (InputFd <? 0) then (1002, p_config)
      else if negb (cupsRasterOpen env InputFd) then (1003, p_config)
      else
        let '(result, p_config) := GetParameters env argv p_config in
        if negb (result =? EPTMD_SUCCESS) then (result, p_config)
        else (EPTMD_SUCCESS, set_printer (arg argv 0) 8 p_config).

(** [main] from its entry: [Init], the job when [Init] succeeded, and the
    exit status.  [Exit] closes the raster stream and the input and writes
    nothing; the messages go to the standard error stream. *)
Definition main_from_argv (env : Startup) (argv : list string) : M Z :=
  let '(result, Config) := Init env (Z.of_nat (length argv)) argv zero_Config in
  if result =? EPTMD_SUCCESS then main Config
  else ret (main_status result).

(** ** Further terms of comparison *)

(** A call of [write] that takes at least one byte. *)
Definition short_write (r : sys_write) : Prop :=
  match r with
  | Wrote k => 1 <= k
  | WriteErr _ => False
  end.

(** A call of [read] that hands over at least one byte when one is left. *)
Definition short_read (r : sys_read) : Prop :=
  match r with
  | ReadUpTo k => 1 <= k
  | ReadErr => False
  end.

(** The number of bytes the calls of a script take when each takes all it
    is allowed. *)
Definition taken (pre : list sys_write) : Z :=
  sum_list (map (fun r => match r with Wrote k => k | WriteErr _ => 0 end) pre).

(** The byte pairs the sanitiser is there to keep off the line: DLE EOT,
    DLE ENQ, DLE DC4 and ESC =. *)
Definition disturbing (a b : Z) : bool :=
  ((a =? 0x10) && ((b =? 0x04) || (b =? 0x05) || (b =? 0x14)))
  || ((a =? 0x1B) && (b =? 0x3D)).

(** The bytes of a user file, nothing when there is no such file. *)
Definition user_bytes (w : World) (p_printerName p_file_name : string) : list Z :=
  match files w !! user_file_path p_printerName p_file_name with
  | Some (Content bytes) => bytes
  | _ => []
  end.

(** ** Further worked inputs *)

(** A world whose user file [StartJob.prn] holds 1500 bytes, more than the
    buffer of [WriteUserFile] takes at once. *)
Definition long_file_world : World :=
  {| stdout := []; sink := []; sigterm := None; uninit := fun _ => 0;
     sanitized := 0%nat;
     files := {[ user_file_path "TM-H6000IV" "StartJob.prn"
                 := Content (replicate 1500 0x41) ]};
     raster := []; pixels := [] |}.

(** The start of the filter for the queue TM-H6000IV, reading the raster
    from the standard input: every call succeeds, no job option is given,
    and the PPD has the motion units 160 and 144, paper reduction Both and
    the drawer 1 to open. *)
Definition example_startup : Startup :=
  {| signal_calls := [];
     open_input := fun _ => 3;
     cupsRasterOpen := fun _ => true;
     ppdOpenFile :=
       Some {| ppd_attrs := {[ "TmxMotionUnitHori" := "160";
                               "TmxMotionUnitVert" := "144" ]};
               ppd_marked := {[ "TmxPaperReduction" := "Both";
                                "TmxBuzzerAndDrawer" := "OpenDrawer1" ]} |};
     ppdMarkDefaults := fun p_ppd => p_ppd;
     cupsParseOptions := fun _ => [];
     cupsMarkOptions := fun p_ppd _ => (false, p_ppd) |}.

Definition example_argv : list string :=
  ["TM-H6000IV"; "42"; "user"; "title"; "1"; ""].

(** A page of one scanline whose header says 8 bits a pixel. *)
Definition deep_page : cups_page :=
  {| page_header := {| HWResolution1 := 203; cupsWidth := 1; cupsHeight := 1;
                       cupsBitsPerPixel := 8; cupsBytesPerLine := 1 |};
     page_pixels := [[0xff]] |}.

(** ** The output of a page and of a job *)

(** The number of bands of a page: none when the page is blank. *)
Definition page_bands (p_header : cups_page_header_t) (p_pageBuffer : list Z) : nat :=
  let top := FindBlackRasterLineTop p_header p_pageBuffer in
  if cupsHeight p_header =? top then 0%nat
  else S (loop_bands top (FindBlackRasterLineEnd p_header p_pageBuffer + 1)).

(** The bytes of the raster of a page, its first band being the [k]-th call
    of the sanitiser: for a blank page the feed of the whole page under
    mode Off and nothing under the other modes; otherwise the top margin
    feed of the mode, the bands and the bottom margin feed of the mode. *)
Definition raster_output (p_config : EPTMS_CONFIG_T) (p_header : cups_page_header_t)
    (p_pageBuffer : list Z) (un : nat -> Z) (k : nat) : list Z :=
  let top := FindBlackRasterLineTop p_header p_pageBuffer in
  let last := FindBlackRasterLineEnd p_header p_pageBuffer + 1 in
  if cupsHeight p_header =? top then
    if bool_decide (paperReduction p_config = TmPaperReductionOff)
    then feed_output p_config p_header (cupsHeight p_header) else []
  else
    (if feeds_top_margin (paperReduction p_config)
     then feed_output p_config p_header top else [])
    ++ full_bands (loop_bands top last) p_config p_header p_pageBuffer top un k
    ++ final_band p_config p_header p_pageBuffer top last un (k + loop_bands top last)
    ++ (if feeds_bottom_margin (paperReduction p_config)
        then feed_output p_config p_header (cupsHeight p_header - last) else []).

(** The bytes of a page: the page start with its user file [sp], the
    raster, the user file [ep] of the page end and the eject command. *)
Definition page_output (p_config : EPTMS_CONFIG_T) (sp ep : list Z) (pg : cups_page)
    (un : nat -> Z) (k : nat) : list Z :=
  page_prologue ++ sp
  ++ raster_output p_config (page_header pg) (concat (page_pixels pg)) un k
  ++ ep ++ [ESC; 0x46; 0; FF].

Fixpoint pages_bands (pages : list cups_page) : nat :=
  match pages with
  | [] => 0%nat
  | pg :: rest =>
      (page_bands (page_header pg) (concat (page_pixels pg)) + pages_bands rest)%nat
  end.

(** The number of times a page that is written to its end reads the flag:
    at every scanline in [ReadRaster], after every band of the band loop in
    [WriteRaster], and once in [EndPage]. *)
Definition page_polls (pg : cups_page) : nat :=
  (Z.to_nat (cupsHeight (page_header pg))
   + Nat.pred (page_bands (page_header pg) (concat (page_pixels pg))) + 1)%nat.

Fixpoint pages_polls (pages : list cups_page) : nat :=
  match pages with
  | [] => 0%nat
  | pg :: rest => (page_polls pg + pages_polls rest)%nat
  end.

(** The bytes of the pages of a job, one page after the other. *)
Fixpoint pages_output (p_config : EPTMS_CONFIG_T) (sp ep : list Z)
    (pages : list cups_page) (un : nat -> Z) (k : nat) : list Z :=
  match pages with
  | [] => []
  | pg :: rest =>
      page_output p_config sp ep pg un k
      ++ pages_output p_config sp ep rest un
           (k + page_bands (page_header pg) (concat (page_pixels pg)))
  end.

(** A page of the raster stream as the filter expects it: 1 bit a pixel, a
    resolution, [cupsHeight] scanlines of [cupsBytesPerLine] bytes, filling
    a page buffer of [size] bytes, with sizes the [unsigned] arithmetic of
    the page does not wrap on. *)
Definition page_of_size (size : Z) (pg : cups_page) : Prop :=
  let p_header := page_header pg in
  cupsBitsPerPixel p_header = 1
  /\ 0 < HWResolution1 p_header
  /\ 0 <= cupsBytesPerLine p_header /\ cupsBytesPerLine p_header * 8 < 2 ^ 31
  /\ 0 <= cupsHeight p_header /\ cupsHeight p_header + 8 <= 2 ^ 32
  /\ cupsBytesPerLine p_header * cupsHeight p_header = size /\ size < 2 ^ 32
  /\ length (page_pixels pg) = Z.to_nat (cupsHeight p_header)
  /\ Forall (fun l => Z.of_nat (length l) = cupsBytesPerLine p_header) (page_pixels pg).

(** The page of [example_page] as a page of the stream, and a blank page of
    the same size. *)
Definition black_line_page : cups_page :=
  {| page_header := coarse_header;
     page_pixels := [[0]; [0]; [0]; [0]; [0]; [1]; [0]; [0]] |}.

Definition blank_page : cups_page :=
  {| page_header := coarse_header; page_pixels := replicate 8 [0] |}.

(** * Properties *)

(** ** Machine integers and buffers *)

(** Boolean tests in the hypotheses as propositions. *)
Ltac bool_hyps :=
  repeat match goal with
    | H : _ && _ = true |- _ => apply andb_true_iff in H; destruct H
    | H : _ && _ = false |- _ => apply andb_false_iff in H; destruct H
    | H : _ || _ = true |- _ => apply orb_true_iff in H; destruct H
    | H : _ || _ = false |- _ => apply orb_false_iff in H; destruct H
    | H : negb _ = true |- _ => apply negb_true_iff in H
    | H : negb _ = false |- _ => apply negb_false_iff in H
    | H : (_ <=? _) = true |- _ => apply Z.leb_le in H
    | H : (_ <=? _) = false |- _ => apply Z.leb_gt in H
    | H : (_ <? _) = true |- _ => apply Z.ltb_lt in H
    | H : (_ <? _) = false |- _ => apply Z.ltb_ge in H
    | H : (_ =? _) = true |- _ => apply Z.eqb_eq in H
    | H : (_ =? _) = false |- _ => apply Z.eqb_neq in H
    end.

(** Case analysis on the condition of the first [if] of the goal. *)
Ltac case_cond :=
  match goal with
  | |- context [if ?c then _ else _] =>
      let E := fresh "E" in destruct c eqn:E; bool_hyps
  end.

Lemma wrap32_small z : 0 <= z < 2 ^ 32 -> wrap32 z = z.
Proof. intros H. unfold wrap32. apply Z.mod_small. exact H. Qed.

Lemma wrap64_small z : 0 <= z < 2 ^ 64 -> wrap64 z = z.
Proof. intros H. unfold wrap64. apply Z.mod_small. exact H. Qed.

Lemma to_int_small z : 0 <= z < 2 ^ 31 -> to_int z = z.
Proof.
  intros H. unfold to_int. rewrite wrap32_small by lia.
  destruct (Z.ltb_spec z (2 ^ 31)); lia.
Qed.

Lemma store_length p i v : length (store p i v) = length p.
Proof. unfold store. destruct (i <? 0); [reflexivity | apply length_insert]. Qed.

Lemma load_store_eq p i v :
  0 <= i < Z.of_nat (length p) -> load (store p i v) i = v.
Proof.
  intros H. unfold load, store.
  destruct (Z.ltb_spec i 0); [lia |].
  rewrite list_lookup_insert_eq by lia. reflexivity.
Qed.

Lemma load_store_ne p i j v : i <> j -> load (store p i v) j = load p j.
Proof.
  intros H. unfold load, store.
  destruct (Z.ltb_spec j 0); [reflexivity |].
  destruct (Z.ltb_spec i 0); [reflexivity |].
  rewrite list_lookup_insert_ne by lia. reflexivity.
Qed.

Lemma load_replicate n i : load (replicate n 0) i = 0.
Proof.
  unfold load. destruct (i <? 0); [reflexivity |].
  destruct (replicate n 0 !! Z.to_nat i) eqn:E; [| reflexivity].
  apply lookup_replicate in E. simpl. tauto.
Qed.

(** ** Margin detection *)

Section MarginFacts.
Variable hdr : cups_page_header_t.
Variable buf : list Z.
Hypothesis bpl_nonneg : 0 <= cupsBytesPerLine hdr.

Lemma scan_line_true n p_data x :
  scan_line buf n p_data x = true <->
  exists x', x <= x' < x + Z.of_nat n /\ load buf (p_data + x') <> 0.
Proof.
  revert x. induction n as [| n IH]; intros x; simpl.
  - split; [discriminate | intros (x' & H & _); lia].
  - destruct (Z.eqb_spec (load buf (p_data + x)) 0) as [E | E]; simpl.
    + rewrite IH. split; intros (x' & H & Hx).
      * exists x'. split; [lia | exact Hx].
      * exists x'. split; [| exact Hx].
        destruct (Z.eq_dec x' x) as [-> | ?]; [contradiction | lia].
    + split; [intros _ | reflexivity]. exists x. split; [lia | exact E].
Qed.

Lemma scan_line_black y :
  scan_line buf (Z.to_nat (cupsBytesPerLine hdr)) (y * cupsBytesPerLine hdr) 0 = true
  <-> black_line hdr buf y.
Proof.
  rewrite scan_line_true. unfold black_line.
  split; intros (x & H & Hx); exists x; (split; [lia | exact Hx]).
Qed.

Lemma scan_line_not_black y :
  scan_line buf (Z.to_nat (cupsBytesPerLine hdr)) (y * cupsBytesPerLine hdr) 0 = false
  <-> ~ black_line hdr buf y.
Proof.
  rewrite <- scan_line_black.
  destruct (scan_line _ _ _); split; congruence.
Qed.

(** The scan from line [y] downwards the page: the first black line at or
    after [y], or the height. *)
Lemma FindTop_loop_spec n y :
  0 <= y -> y + Z.of_nat n = cupsHeight hdr ->
  let r := FindTop_loop hdr buf n y (y * cupsBytesPerLine hdr) in
  (forall y', y <= y' < r -> ~ black_line hdr buf y')
  /\ (r = cupsHeight hdr \/ (y <= r < cupsHeight hdr /\ black_line hdr buf r)).
Proof.
  revert y. induction n as [| n IH]; intros y Hy Hn; simpl.
  - split; [intros y' H'; lia | left; reflexivity].
  - destruct (scan_line buf _ _ 0) eqn:E.
    + apply scan_line_black in E. split; [intros y' H'; lia |].
      right. split; [lia | exact E].
    + apply scan_line_not_black in E.
      replace (y * cupsBytesPerLine hdr + cupsBytesPerLine hdr)
        with ((y + 1) * cupsBytesPerLine hdr) by lia.
      destruct (IH (y + 1)) as [Hlt Hr]; [lia | lia |].
      split.
      * intros y' H'. destruct (Z.eq_dec y' y) as [-> | ?]; [exact E |].
        apply Hlt. lia.
      * destruct Hr as [Hr | [Hr Hb]]; [left; exact Hr | right].
        split; [lia | exact Hb].
Qed.

(** The scan from line [height - 1 - y] upwards the page. *)
Lemma FindEnd_loop_spec n y :
  0 <= y -> y + Z.of_nat n = cupsHeight hdr -> cupsHeight hdr < 2 ^ 32 ->
  let r := FindEnd_loop hdr buf n y
             ((cupsHeight hdr - 1 - y) * cupsBytesPerLine hdr) in
  (forall y', r < y' < cupsHeight hdr - y -> ~ black_line hdr buf y')
  /\ ((r = 0 /\ forall y', 0 <= y' < cupsHeight hdr - y -> ~ black_line hdr buf y')
      \/ (0 <= r < cupsHeight hdr - y /\ black_line hdr buf r)).
Proof.
  revert y. induction n as [| n IH]; intros y Hy Hn Hh; simpl.
  - split; [intros y' H'; lia | left; split; [reflexivity | intros y' H'; lia]].
  - destruct (scan_line buf _ _ 0) eqn:E.
    + apply scan_line_black in E. rewrite wrap32_small by lia.
      split; [intros y' H'; lia |]. right. split; [lia | exact E].
    + apply scan_line_not_black in E.
      replace ((cupsHeight hdr - 1 - y) * cupsBytesPerLine hdr - cupsBytesPerLine hdr)
        with ((cupsHeight hdr - 1 - (y + 1)) * cupsBytesPerLine hdr) by lia.
      destruct (IH (y + 1)) as [Hgt Hr]; [lia | lia | lia |].
      assert (Hcase : forall y', y' < cupsHeight hdr - y ->
                (y' < cupsHeight hdr - (y + 1) \/ y' = cupsHeight hdr - 1 - y)) by (intros; lia).
      split.
      * intros y' H'. destruct (Hcase y') as [Hc | ->]; [lia | | exact E].
        apply Hgt. lia.
      * destruct Hr as [[Hr Hall] | [Hr Hb]]; [left | right].
        -- split; [exact Hr |]. intros y' H'.
           destruct (Hcase y') as [Hc | ->]; [lia | | exact E]. apply Hall. lia.
        -- split; [lia | exact Hb].
Qed.

Lemma FindBlackRasterLineTop_spec :
  0 <= cupsHeight hdr ->
  let top := FindBlackRasterLineTop hdr buf in
  (forall y, 0 <= y < top -> ~ black_line hdr buf y)
  /\ (top = cupsHeight hdr \/ (0 <= top < cupsHeight hdr /\ black_line hdr buf top)).
Proof.
  intros Hh. unfold FindBlackRasterLineTop.
  apply (FindTop_loop_spec (Z.to_nat (cupsHeight hdr)) 0); lia.
Qed.

Lemma FindBlackRasterLineEnd_spec :
  0 <= cupsHeight hdr -> cupsHeight hdr < 2 ^ 32 ->
  cupsBytesPerLine hdr * cupsHeight hdr < 2 ^ 32 ->
  let bottom := FindBlackRasterLineEnd hdr buf in
  (forall y, bottom < y < cupsHeight hdr -> ~ black_line hdr buf y)
  /\ ((bottom = 0 /\ forall y, 0 <= y < cupsHeight hdr -> ~ black_line hdr buf y)
      \/ (0 <= bottom < cupsHeight hdr /\ black_line hdr buf bottom)).
Proof.
  intros Hh Hlt Hsz. unfold FindBlackRasterLineEnd.
  destruct (Z.eq_dec (cupsHeight hdr) 0) as [E0 | Hpos].
  - rewrite E0. simpl. split; [intros y H'; lia |].
    left. split; [reflexivity | intros y H'; lia].
  - rewrite (wrap32_small (cupsHeight hdr - 1)) by lia.
    rewrite wrap32_small by nia.
    replace (cupsBytesPerLine hdr * (cupsHeight hdr - 1))
      with ((cupsHeight hdr - 1) * cupsBytesPerLine hdr) by lia.
    pose proof (FindEnd_loop_spec (Z.to_nat (cupsHeight hdr)) 0) as H.
    simpl in H. rewrite !Z.sub_0_r in H. apply H; lia.
Qed.

End MarginFacts.

(** C4.  On a page of [cupsHeight] scanlines (the buffer below 2^32 bytes,
    as its [unsigned] size requires): when no scanline holds a non-zero
    byte the top scan returns the height and the bottom scan 0; otherwise
    the top scan returns the smallest and the bottom scan the largest index
    of a scanline holding a non-zero byte; so when scanline [y] is the only
    one holding a non-zero byte, top = bottom = [y] and the printable range
    is [[y, y + 1)]. *)
Theorem margin_detection (hdr : cups_page_header_t) (buf : list Z) :
  0 <= cupsBytesPerLine hdr ->
  0 <= cupsHeight hdr < 2 ^ 32 ->
  cupsBytesPerLine hdr * cupsHeight hdr < 2 ^ 32 ->
  let top := FindBlackRasterLineTop hdr buf in
  let bottom := FindBlackRasterLineEnd hdr buf in
  ((forall y, 0 <= y < cupsHeight hdr -> ~ black_line hdr buf y) ->
   top = cupsHeight hdr /\ bottom = 0)
  /\ (forall y, 0 <= y < cupsHeight hdr -> black_line hdr buf y ->
      (0 <= top <= y /\ black_line hdr buf top
       /\ forall y', 0 <= y' < top -> ~ black_line hdr buf y')
      /\ (y <= bottom < cupsHeight hdr /\ black_line hdr buf bottom
          /\ forall y', bottom < y' < cupsHeight hdr -> ~ black_line hdr buf y'))
  /\ (forall y, 0 <= y < cupsHeight hdr -> black_line hdr buf y ->
      (forall y', 0 <= y' < cupsHeight hdr -> y' <> y -> ~ black_line hdr buf y') ->
      top = y /\ bottom = y /\ printable_range hdr buf = (y, y + 1)).
Proof.
  intros Hb Hh Hsz top bottom.
  destruct (FindBlackRasterLineTop_spec hdr buf) as [Tlt Tr]; [lia |].
  destruct (FindBlackRasterLineEnd_spec hdr buf Hb) as [Bgt Br]; [lia | lia | lia |].
  fold top in Tlt, Tr. fold bottom in Bgt, Br.
  assert (General : forall y, 0 <= y < cupsHeight hdr -> black_line hdr buf y ->
      (0 <= top <= y /\ black_line hdr buf top
       /\ forall y', 0 <= y' < top -> ~ black_line hdr buf y')
      /\ (y <= bottom < cupsHeight hdr /\ black_line hdr buf bottom
          /\ forall y', bottom < y' < cupsHeight hdr -> ~ black_line hdr buf y')).
  { intros y Hy Hblack. split.
    - destruct Tr as [Tr | [Tr Tb]].
      + exfalso. apply (Tlt y); [lia | exact Hblack].
      + split; [| split; [exact Tb | exact Tlt]].
        split; [lia |]. destruct (Z.le_gt_cases top y) as [? | Hgt]; [lia |].
        exfalso. apply (Tlt y); [lia | exact Hblack].
    - destruct Br as [[_ Ball] | [Br Bb]].
      + exfalso. apply (Ball y); [lia | exact Hblack].
      + split; [| split; [exact Bb | exact Bgt]].
        split; [| lia]. destruct (Z.le_gt_cases y bottom) as [? | Hgt]; [lia |].
        exfalso. apply (Bgt y); [lia | exact Hblack]. }
  split; [| split; [exact General |]].
  - intros Hblank. split.
    + destruct Tr as [Tr | [Tr Tb]]; [exact Tr |].
      exfalso. apply (Hblank top); [lia | exact Tb].
    + destruct Br as [[Br _] | [Br Bb]]; [exact Br |].
      exfalso. apply (Hblank bottom); [lia | exact Bb].
  - intros y Hy Hblack Honly.
    destruct (General y Hy Hblack) as [(Ht & Tb & _) (Hbt & Bb & _)].
    assert (Etop : top = y).
    { destruct (Z.eq_dec top y) as [? | Hne]; [assumption |].
      exfalso. apply (Honly top); [lia | exact Hne | exact Tb]. }
    assert (Ebot : bottom = y).
    { destruct (Z.eq_dec bottom y) as [? | Hne]; [assumption |].
      exfalso. apply (Honly bottom); [lia | exact Hne | exact Bb]. }
    split; [exact Etop | split; [exact Ebot |]].
    unfold printable_range. fold top. fold bottom.
    rewrite Etop, Ebot, wrap32_small by lia. reflexivity.
Qed.

(** The 8-scanline page of one byte a line whose scanline 5 alone is
    non-zero: top = 5, bottom = 5, printable range [[5, 6)]. *)
Lemma margin_detection_witness :
  FindBlackRasterLineTop example_header example_page = 5
  /\ FindBlackRasterLineEnd example_header example_page = 5
  /\ printable_range example_header example_page = (5, 6).
Proof.
  assert (Hblack : black_line example_header example_page 5).
  { exists 0. split; [simpl; lia | vm_compute; discriminate]. }
  assert (Honly : forall y', 0 <= y' < cupsHeight example_header -> y' <> 5 ->
                             ~ black_line example_header example_page y').
  { intros y' Hy' Hne (x & Hx & Hl). simpl in Hx, Hy'.
    assert (x = 0) as -> by lia.
    assert (y' = 0 \/ y' = 1 \/ y' = 2 \/ y' = 3 \/ y' = 4 \/ y' = 6 \/ y' = 7)
      as Hc by lia.
    destruct Hc as [-> | [-> | [-> | [-> | [-> | [-> | ->]]]]]];
      apply Hl; reflexivity. }
  destruct (margin_detection example_header example_page) as (_ & _ & H);
    [simpl; lia | simpl; lia | simpl; lia |].
  apply (H 5); [simpl; lia | exact Hblack | exact Honly].
Defined.

(** ** Band transposition *)

Lemma testbit_pick d bit s m j :
  0 <= bit <= 7 -> 0 <= s -> m = 2 ^ s -> 0 <= j ->
  Z.testbit (Z.land (Z.shiftl (Z.shiftr d (7 - bit)) s) m) j
  = (j =? s) && Z.testbit d (7 - bit).
Proof.
  intros Hbit Hs -> Hj.
  rewrite Z.land_spec, Z.pow2_bits_eqb by lia.
  rewrite Z.shiftl_spec by lia.
  destruct (Z.eqb_spec s j) as [<- | Hne].
  - rewrite Z.eqb_refl, Z.sub_diag, Z.shiftr_spec by lia.
    rewrite andb_true_r. simpl. reflexivity.
  - rewrite andb_false_r. destruct (Z.eqb_spec j s); [lia | reflexivity].
Qed.

Lemma testbit_if_set (c : bool) X j :
  Z.testbit (if c then X else 0) j = c && Z.testbit X j.
Proof. destruct c; [reflexivity | apply Z.testbit_0_l]. Qed.

Lemma testbit_if_lor (c : bool) v X j :
  Z.testbit (if c then Z.lor v X else v) j = Z.testbit v j || (c && Z.testbit X j).
Proof. destruct c; [apply Z.lor_spec | simpl; rewrite orb_false_r; reflexivity]. Qed.

Section TransposeFacts.
Variable hdr : cups_page_header_t.
Variable buf : list Z.
Variable p_data : Z.
Variable lines : Z.

(** Bit [j] of the byte built for column byte [x] and bit position [bit]
    (both counted from the least significant bit here). *)
Lemma send_byte_testbit x bit j :
  0 <= bit <= 7 -> 0 <= j ->
  Z.testbit (send_byte hdr buf p_data lines x bit 0) j
  = (0 <=? 7 - j) && (7 - j <? lines)
    && Z.testbit (load buf (p_data + (7 - j) * cupsBytesPerLine hdr + x)) (7 - bit).
Proof.
  intros Hbit Hj. unfold send_byte. cbv zeta.
  rewrite !testbit_if_lor, testbit_if_set.
  rewrite (testbit_pick _ bit 7 0x80), (testbit_pick _ bit 6 0x40),
    (testbit_pick _ bit 5 0x20), (testbit_pick _ bit 4 0x10),
    (testbit_pick _ bit 3 0x08), (testbit_pick _ bit 2 0x04),
    (testbit_pick _ bit 1 0x02), (testbit_pick _ bit 0 0x01)
    by (reflexivity || lia).
  assert (Hcase : j = 0 \/ j = 1 \/ j = 2 \/ j = 3 \/ j = 4 \/ j = 5 \/ j = 6
                  \/ j = 7 \/ 8 <= j) by lia.
  destruct Hcase as [-> | [-> | [-> | [-> | [-> | [-> | [-> | [-> | Hbig]]]]]]]].
  9: { destruct (Z.eqb_spec j 7), (Z.eqb_spec j 6), (Z.eqb_spec j 5),
         (Z.eqb_spec j 4), (Z.eqb_spec j 3), (Z.eqb_spec j 2), (Z.eqb_spec j 1),
         (Z.eqb_spec j 0); lia. }
  all: cbn [Z.eqb Pos.eqb andb orb Z.sub Z.add Z.opp Z.pos_sub Z.leb Z.compare
            Z.succ_double Z.pred_double Z.double Pos.pred_double Z.mul Pos.mul];
    rewrite ?andb_false_r, ?orb_false_r, ?orb_false_l, ?andb_true_r, ?andb_true_l.
  all: match goal with
       | |- (?a <=? lines) && Z.testbit (load buf ?p) _
            = (?b <? lines) && Z.testbit (load buf ?q) _ =>
           replace q with p by lia;
           destruct (Z.leb_spec a lines), (Z.ltb_spec b lines); try lia; reflexivity
       end.
Qed.

Lemma bit_loop_spec n x bit index send :
  0 <= index -> index + Z.of_nat n <= Z.of_nat (length send) ->
  let r := bit_loop hdr buf p_data lines n x bit index send in
  fst r = index + Z.of_nat n
  /\ length (snd r) = length send
  /\ forall i, load (snd r) i
               = if (index <=? i) && (i <? index + Z.of_nat n)
                 then send_byte hdr buf p_data lines x (bit + (i - index)) (load send i)
                 else load send i.
Proof.
  revert bit index send. induction n as [| n IH]; intros bit index send Hi Hlen.
  - simpl. split; [lia | split; [reflexivity |]]. intros i.
    case_cond; solve [lia | reflexivity].
  - cbn [bit_loop].
    destruct (IH (bit + 1) (index + 1)
                (store send index (send_byte hdr buf p_data lines x bit (load send index))))
      as (Hf & Hl & Hload); [lia | rewrite store_length; lia |].
    split; [lia | split; [rewrite Hl; apply store_length |]].
    intros i. rewrite Hload.
    destruct (Z.eq_dec i index) as [-> | Hne].
    + do 2 (case_cond; try lia).
      rewrite load_store_eq by lia. f_equal. lia.
    + rewrite load_store_ne by lia.
      do 2 (case_cond; try lia); try reflexivity.
      f_equal. lia.
Qed.

Lemma x_loop_spec n x send :
  0 <= x -> 8 * (x + Z.of_nat n) <= Z.of_nat (length send) ->
  let r := x_loop hdr buf p_data lines n x (8 * x) send in
  length (snd r) = length send
  /\ forall i, load (snd r) i
               = if (8 * x <=? i) && (i <? 8 * (x + Z.of_nat n))
                 then send_byte hdr buf p_data lines (i / 8) (i mod 8) (load send i)
                 else load send i.
Proof.
  revert x send. induction n as [| n IH]; intros x send Hx Hlen.
  - simpl. split; [reflexivity |]. intros i.
    case_cond; solve [lia | reflexivity].
  - cbn [x_loop].
    pose proof (bit_loop_spec 8 x 0 (8 * x) send) as Hbits.
    destruct (bit_loop hdr buf p_data lines 8 x 0 (8 * x) send) as [index' send'] eqn:E.
    cbn [fst snd] in Hbits. destruct Hbits as (Hf & Hl & Hload); [lia | lia |].
    replace index' with (8 * (x + 1)) by lia.
    destruct (IH (x + 1) send') as (Hl' & Hload'); [lia | rewrite Hl; lia |].
    split; [rewrite Hl'; exact Hl |].
    intros i. rewrite Hload', Hload.
    do 3 (case_cond; try lia); try reflexivity.
    f_equal.
    + apply Z.div_unique with (r := i - 8 * x); lia.
    + apply Z.mod_unique with (q := x); lia.
Qed.

Lemma MakeSendData_spec :
  0 <= cupsBytesPerLine hdr -> cupsBytesPerLine hdr * 8 < 2 ^ 32 ->
  length (MakeSendData hdr buf p_data lines) = Z.to_nat (cupsBytesPerLine hdr * 8)
  /\ forall x bit, 0 <= x < cupsBytesPerLine hdr -> 0 <= bit <= 7 ->
       load (MakeSendData hdr buf p_data lines) (x * 8 + bit)
       = send_byte hdr buf p_data lines x bit 0.
Proof.
  intros Hb Hsz. unfold MakeSendData. cbv zeta.
  rewrite wrap32_small by lia.
  pose proof (x_loop_spec (Z.to_nat (cupsBytesPerLine hdr)) 0
                (replicate (Z.to_nat (cupsBytesPerLine hdr * 8)) 0)) as H.
  cbv zeta in H. change (8 * 0) with 0 in H.
  destruct H as (Hl & Hload); [lia | rewrite length_replicate; lia |].
  split; [rewrite Hl; apply length_replicate |].
  intros x bit Hx Hbit. rewrite Hload.
  case_cond; try lia.
  rewrite load_replicate. f_equal.
  - symmetry. apply Z.div_unique with (r := bit); lia.
  - symmetry. apply Z.mod_unique with (q := x); lia.
Qed.

End TransposeFacts.

(** C2.  A band of 1 to 8 scanlines of [cupsBytesPerLine] bytes starting at
    offset [p_data] of the page buffer is transposed into exactly
    [cupsBytesPerLine * 8] bytes.  Counting bits from the most significant
    one (bit [k] is [Z.testbit _ (7 - k)]), bit [k] of the output byte at
    [x * 8 + b] is bit [b] of byte [x] of scanline [k] for [k < lines] and 0
    for [k >= lines], and the byte has no bit above its eight.  For one byte
    a line, scanline 0 = 0x80 and scanline 1 = 0x40, the output is
    0x80, 0x40 and six zero bytes. *)
Theorem transposition_correct (hdr : cups_page_header_t) (buf : list Z)
    (p_data lines : Z) :
  0 <= cupsBytesPerLine hdr -> cupsBytesPerLine hdr * 8 < 2 ^ 32 ->
  1 <= lines <= 8 ->
  length (MakeSendData hdr buf p_data lines) = Z.to_nat (cupsBytesPerLine hdr * 8)
  /\ (forall x b k,
        0 <= x < cupsBytesPerLine hdr -> 0 <= b <= 7 -> 0 <= k <= 7 ->
        Z.testbit (load (MakeSendData hdr buf p_data lines) (x * 8 + b)) (7 - k)
        = if k <? lines
          then Z.testbit (load buf (p_data + k * cupsBytesPerLine hdr + x)) (7 - b)
          else false)
  /\ (forall x b j,
        0 <= x < cupsBytesPerLine hdr -> 0 <= b <= 7 -> 8 <= j ->
        Z.testbit (load (MakeSendData hdr buf p_data lines) (x * 8 + b)) j = false)
  /\ (cupsBytesPerLine hdr = 1 ->
      MakeSendData hdr [0x80; 0x40] 0 2 = [0x80; 0x40; 0; 0; 0; 0; 0; 0]).
Proof.
  intros Hb Hsz Hlines.
  destruct (MakeSendData_spec hdr buf p_data lines Hb Hsz) as [Hlen Hload].
  split; [exact Hlen | split; [| split]].
  - intros x b k Hx Hbb Hk. rewrite Hload by lia.
    rewrite send_byte_testbit by lia.
    replace (7 - (7 - k)) with k by lia.
    destruct (Z.leb_spec 0 k), (Z.ltb_spec k lines); try lia; reflexivity.
  - intros x b j Hx Hbb Hj. rewrite Hload by lia.
    rewrite send_byte_testbit by lia.
    destruct (Z.leb_spec 0 (7 - j)); [lia | reflexivity].
  - intros E. destruct hdr as [res wd ht bpp bpl]. simpl in E. subst bpl.
    reflexivity.
Qed.

Lemma transposition_correct_witness :
  length (MakeSendData example_header [0x80; 0x40] 0 2) = 8%nat
  /\ MakeSendData example_header [0x80; 0x40] 0 2 = [0x80; 0x40; 0; 0; 0; 0; 0; 0].
Proof.
  destruct (transposition_correct example_header [0x80; 0x40] 0 2)
    as (Hlen & _ & _ & Hex); [simpl; lia | simpl; lia | lia |].
  split; [exact Hlen | apply Hex; reflexivity].
Defined.

(** ** Sanitising *)

(** One pass of the scan leaves the buffer as it was but for byte [i]. *)
Lemma sanitize_step_spec (p : list Z) (i : Z) :
  0 <= i < Z.of_nat (length p) ->
  let p' :=
    if load p i =? 0x10 then
      if (load p (i + 1) =? 0x04) || (load p (i + 1) =? 0x05)
         || (load p (i + 1) =? 0x14)
      then store p i 0x30 else p
    else if load p i =? 0x1B then
      if load p (i + 1) =? 0x3D then store p i 0x3B else p
    else p in
  length p' = length p
  /\ load p' i = sanitized_byte (load p i) (load p (i + 1))
  /\ forall j, j <> i -> load p' j = load p j.
Proof.
  intros Hi. cbv zeta. unfold sanitized_byte.
  destruct (load p i =? 16) eqn:E10; cbn [andb].
  - destruct ((load p (i + 1) =? 4) || (load p (i + 1) =? 5) || (load p (i + 1) =? 20)).
    + split; [apply store_length | split; [apply load_store_eq; lia |]].
      intros j Hj. apply load_store_ne. lia.
    + split; [reflexivity | split; [| reflexivity]].
      apply Z.eqb_eq in E10. rewrite E10. reflexivity.
  - destruct (load p i =? 27) eqn:E1B; cbn [andb].
    + destruct (load p (i + 1) =? 61).
      * split; [apply store_length | split; [apply load_store_eq; lia |]].
        intros j Hj. apply load_store_ne. lia.
      * split; [reflexivity | split; [reflexivity | reflexivity]].
    + split; [reflexivity | split; [reflexivity | reflexivity]].
Qed.

(** The scan started at [i] rewrites the bytes from [i] on that have a
    successor within [data_size], each by the bytes the buffer held before
    the scan, and no other byte. *)
Lemma AvoidDisturbingData_loop_spec fuel data_size i (p : list Z) :
  0 <= i -> i + 1 < 2 ^ 64 ->
  data_size <= Z.of_nat (length p) -> data_size < 2 ^ 64 ->
  data_size - i <= Z.of_nat fuel ->
  let out := AvoidDisturbingData_loop fuel data_size i p in
  length out = length p
  /\ forall j, load out j
               = if (i <=? j) && (j + 1 <? data_size)
                 then sanitized_byte (load p j) (load p (j + 1))
                 else load p j.
Proof.
  revert i p. induction fuel as [| fuel IH]; intros i p Hi Hi64 Hlen Hds Hfuel.
  - simpl. split; [reflexivity |]. intros j. case_cond; [lia | reflexivity | reflexivity].
  - cbn [AvoidDisturbingData_loop]. rewrite !(wrap64_small (i + 1)) by lia.
    destruct (Z.ltb_spec (i + 1) data_size) as [Hlt | Hge].
    + destruct (sanitize_step_spec p i) as (Hl1 & Hi1 & Hne1); [lia |].
      cbv zeta in Hl1, Hi1, Hne1.
      match goal with
      | |- context [AvoidDisturbingData_loop fuel data_size (i + 1) ?q] =>
          set (p' := q) in *
      end.
      destruct (IH (i + 1) p') as (Hl2 & Hload); [lia | lia | lia | lia | lia |].
      split; [lia |]. intros j. rewrite Hload.
      destruct (Z.eq_dec j i) as [-> | Hji].
      * do 2 (case_cond; try lia); exact Hi1.
      * do 2 (case_cond; try lia); rewrite ?Hne1 by lia; reflexivity.
    + split; [reflexivity |]. intros j.
      case_cond; try reflexivity. lia.
Qed.

Lemma sanitizer_passes_next data_size i :
  data_size < 2 ^ 64 -> 0 <= i < 2 ^ 64 -> wrap64 (i + 1) < data_size ->
  0 <= wrap64 (i + 1) < 2 ^ 64
  /\ sanitizer_passes data_size (wrap64 (i + 1)) = sanitizer_passes data_size i - 1.
Proof.
  intros Hds Hi Hlt. unfold sanitizer_passes, wrap64 in *.
  destruct (Z.ltb_spec (i + 1) (2 ^ 64)).
  - rewrite Z.mod_small in * by lia.
    destruct (Z.ltb_spec (i + 1 + 1) (2 ^ 64)); lia.
  - assert (E : (i + 1) mod 2 ^ 64 = 0)
      by (replace (i + 1) with (2 ^ 64) by lia; reflexivity).
    rewrite E in *. change (0 + 1 <? 2 ^ 64) with true. cbv iota. lia.
Qed.

Lemma sanitizer_passes_done data_size i :
  0 <= i < 2 ^ 64 -> data_size <= wrap64 (i + 1) ->
  sanitizer_passes data_size i = 0.
Proof.
  intros Hi Hge. unfold sanitizer_passes, wrap64 in *.
  destruct (Z.ltb_spec (i + 1) (2 ^ 64)).
  - rewrite Z.mod_small in * by lia. lia.
  - assert (E : (i + 1) mod 2 ^ 64 = 0)
      by (replace (i + 1) with (2 ^ 64) by lia; reflexivity).
    rewrite E in *. lia.
Qed.

Lemma sanitizer_passes_nonneg data_size i : 0 <= sanitizer_passes data_size i.
Proof. unfold sanitizer_passes. destruct (i + 1 <? 2 ^ 64); lia. Qed.

(** The fuel of [AvoidDisturbingData] covers the passes of the scan: more
    fuel changes nothing. *)
Lemma AvoidDisturbingData_loop_fuel data_size (f1 : nat) :
  data_size < 2 ^ 64 ->
  forall (f2 : nat) i (p : list Z),
    0 <= i < 2 ^ 64 ->
    sanitizer_passes data_size i <= Z.of_nat f1 ->
    sanitizer_passes data_size i <= Z.of_nat f2 ->
    AvoidDisturbingData_loop f1 data_size i p
    = AvoidDisturbingData_loop f2 data_size i p.
Proof.
  intros Hds. induction f1 as [| f1 IH]; intros f2 i p Hi H1 H2.
  - pose proof (sanitizer_passes_nonneg data_size i) as H0.
    destruct f2 as [| f2]; [reflexivity |]. cbn [AvoidDisturbingData_loop].
    destruct (Z.ltb_spec (wrap64 (i + 1)) data_size) as [Hlt | Hge]; [| reflexivity].
    destruct (sanitizer_passes_next data_size i Hds Hi Hlt) as [_ Hnext].
    pose proof (sanitizer_passes_nonneg data_size (wrap64 (i + 1))). lia.
  - cbn [AvoidDisturbingData_loop].
    destruct (Z.ltb_spec (wrap64 (i + 1)) data_size) as [Hlt | Hge].
    + destruct (sanitizer_passes_next data_size i Hds Hi Hlt) as [Hrange Hnext].
      pose proof (sanitizer_passes_nonneg data_size (wrap64 (i + 1))) as H0.
      destruct f2 as [| f2]; [lia |]. cbn [AvoidDisturbingData_loop].
      destruct (Z.ltb_spec (wrap64 (i + 1)) data_size); [| lia].
      apply IH; [exact Hrange | lia | lia].
    + destruct f2 as [| f2]; [reflexivity |]. cbn [AvoidDisturbingData_loop].
      destruct (Z.ltb_spec (wrap64 (i + 1)) data_size); [lia | reflexivity].
Qed.

Lemma sanitizer_passes_bound data_size i :
  0 <= i -> sanitizer_passes data_size i <= Z.of_nat (S (Z.to_nat data_size)).
Proof. intros Hi. unfold sanitizer_passes. destruct (i + 1 <? 2 ^ 64); lia. Qed.

(** Started at 0, the scan does what the sanitiser is meant to do: a byte
    that has a successor in the buffer is rewritten by [sanitized_byte], the
    last byte and the length stay. *)
Lemma AvoidDisturbingData_from_zero (hdr : cups_page_header_t) (p : list Z) :
  0 <= cupsBytesPerLine hdr -> cupsBytesPerLine hdr * 8 < 2 ^ 32 ->
  Z.of_nat (length p) = cupsBytesPerLine hdr * 8 ->
  let out := AvoidDisturbingData hdr p 0 8 0 in
  length out = length p
  /\ forall j, load out j
               = if (0 <=? j) && (j + 1 <? Z.of_nat (length p))
                 then sanitized_byte (load p j) (load p (j + 1))
                 else load p j.
Proof.
  intros Hb Hsz Hlen. unfold AvoidDisturbingData. cbv zeta.
  rewrite Z.mul_0_r, Z.sub_0_r. change (wrap32 0) with 0. change (wrap32 8) with 8.
  rewrite wrap32_small by lia. change (Z.to_nat 0) with 0%nat.
  rewrite take_0, drop_0. cbn [app].
  replace (8 * cupsBytesPerLine hdr) with (Z.of_nat (length p)) by lia.
  apply AvoidDisturbingData_loop_spec; lia.
Qed.

(** Whatever value the scan starts from, the buffer keeps its length. *)
Lemma AvoidDisturbingData_loop_length fuel data_size i (p : list Z) :
  length (AvoidDisturbingData_loop fuel data_size i p) = length p.
Proof.
  revert i p. induction fuel as [| fuel IH]; intros i p; [reflexivity |].
  cbn [AvoidDisturbingData_loop].
  repeat case_cond; rewrite ?IH, ?store_length; reflexivity.
Qed.

Lemma AvoidDisturbingData_length (hdr : cups_page_header_t) (p : list Z) s l i :
  length (AvoidDisturbingData hdr p s l i) = length p.
Proof.
  unfold AvoidDisturbingData. cbv zeta.
  rewrite length_app, AvoidDisturbingData_loop_length, <- length_app, take_drop.
  reflexivity.
Qed.

(** C3 (the code at the failing input).  The scan of [AvoidDisturbingData]
    starts at the value its uninitialised loop variable happens to hold.
    When that value is 1, the pair 0x10, 0x04 at the head of a band buffer
    is left as it is, and so is the pair 0x1B, 0x3D behind it: byte 0 is
    never looked at.  Started at 0 the same buffer is rewritten to
    0x30, 0x04, 0x3B, 0x3D ([AvoidDisturbingData_from_zero]). *)
Theorem sanitizer_start_is_indeterminate :
  AvoidDisturbingData example_header [0x10; 0x04; 0x1B; 0x3D; 0x10; 0x06; 0; 0] 0 8 1
  = [0x10; 0x04; 0x3B; 0x3D; 0x10; 0x06; 0; 0]
  /\ AvoidDisturbingData example_header [0x10; 0x04; 0x1B; 0x3D; 0x10; 0x06; 0; 0] 0 8 3
     = [0x10; 0x04; 0x1B; 0x3D; 0x10; 0x06; 0; 0]
  /\ AvoidDisturbingData example_header [0x10; 0x04; 0x1B; 0x3D; 0x10; 0x06; 0; 0] 0 8 0
     = [0x30; 0x04; 0x3B; 0x3D; 0x10; 0x06; 0; 0].
Proof. repeat split; reflexivity. Qed.

(** ** A sink that takes everything *)

Lemma advance_nil w : advance [] 0 0 w = w.
Proof.
  destruct w as [out s t un k f r px]. unfold advance. cbn.
  rewrite app_nil_r, Nat.add_0_r. destruct t as [n |]; cbn; [| reflexivity].
  rewrite Nat.sub_0_r. reflexivity.
Qed.

Lemma advance_advance b1 p1 k1 b2 p2 k2 w :
  advance b2 p2 k2 (advance b1 p1 k1 w)
  = advance (b1 ++ b2) (p1 + p2) (k1 + k2) w.
Proof.
  unfold advance. cbn. rewrite app_assoc, Nat.add_assoc. f_equal.
  destruct (sigterm w) as [n |]; cbn; [| reflexivity]. f_equal. lia.
Qed.

Lemma bind_Some {A B : Type} (m : M A) (k : A -> M B) w a w' :
  m w = Some (a, w') -> bind m k w = k a w'.
Proof. intros H. unfold bind. rewrite H. reflexivity. Qed.

Lemma WriteData_healthy (p_buffer : list Z) (size : Z) (w : World) :
  sink w = [] -> size = Z.of_nat (length p_buffer) -> size < 2 ^ 31 ->
  WriteData p_buffer size w = Some (EPTMD_SUCCESS, advance p_buffer 0 0 w).
Proof.
  intros Hs Hsize Hlt. unfold WriteData. rewrite Hs. cbn [length WriteData_loop].
  destruct (Z.ltb_spec 0 size) as [Hpos | Hnil].
  - unfold bind at 1. unfold write. rewrite Hs.
    rewrite to_int_small by lia.
    destruct (Z.eqb_spec (size - 0) 0); [lia |].
    destruct (Z.ltb_spec (size - 0) 0); [lia |].
    rewrite wrap32_small by lia.
    destruct (Z.ltb_spec (0 + (size - 0)) size); [lia |].
    unfold ret, result_of_count.
    replace (0 + (size - 0) =? size) with true by (symmetry; apply Z.eqb_eq; lia).
    f_equal. f_equal. unfold set_output, advance. cbn. rewrite Hs.
    change (Z.to_nat 0) with 0%nat. rewrite drop_0, firstn_all2 by lia.
    destruct (sigterm w) as [k |]; cbn; rewrite ?Nat.sub_0_r, Nat.add_0_r;
      reflexivity.
  - assert (p_buffer = []) as -> by (destruct p_buffer; [reflexivity | cbn in Hsize; lia]).
    cbn in Hsize. subst size. cbn. unfold ret. rewrite advance_nil. reflexivity.
Qed.

(** ** Feeding *)

Lemma sink_advance b p k w : sink (advance b p k w) = sink w.
Proof. reflexivity. Qed.

Lemma feed_bytes_app l1 l2 : feed_bytes (l1 ++ l2) = feed_bytes l1 ++ feed_bytes l2.
Proof. unfold feed_bytes. apply flat_map_app. Qed.

Lemma feed_distances_feed_bytes l rest :
  feed_distances (feed_bytes l ++ rest) = l ++ feed_distances rest.
Proof.
  induction l as [| n l IH]; [reflexivity |].
  cbn [feed_bytes flat_map app feed_distances]. fold (feed_bytes l).
  rewrite IH. reflexivity.
Qed.

Lemma sum_list_app l1 l2 : sum_list (l1 ++ l2) = sum_list l1 + sum_list l2.
Proof.
  induction l1 as [| a l1 IH]; [reflexivity |].
  cbn [app sum_list fold_right]. fold (sum_list (l1 ++ l2)). fold (sum_list l1).
  rewrite IH. lia.
Qed.

Lemma sum_list_replicate (q : nat) c : sum_list (replicate q c) = Z.of_nat q * c.
Proof.
  induction q as [| q IH]; [reflexivity |].
  cbn [replicate sum_list fold_right]. fold (sum_list (replicate q c)).
  rewrite IH. lia.
Qed.

(** The commands of 255 and what is left for the last command. *)
Lemma feed_chunks_spec d :
  0 < d ->
  exists (q : nat) (r : Z),
    feed_chunks d = replicate q 255 ++ [r]
    /\ d = 255 * Z.of_nat q + r /\ 1 <= r <= 255
    /\ Z.of_nat q = (d - 1) / 255.
Proof.
  intros Hd. exists (Z.to_nat ((d - 1) / 255)), (d - 255 * ((d - 1) / 255)).
  pose proof (Z.div_mod (d - 1) 255) as Hdm.
  pose proof (Z.mod_pos_bound (d - 1) 255) as Hmod.
  assert (0 <= (d - 1) / 255) by (apply Z.div_pos; lia).
  unfold feed_chunks. destruct (Z.leb_spec d 0); [lia |].
  split; [reflexivity |]. lia.
Qed.

Lemma FeedPaper_loop_healthy (q : nat) :
  forall (fuel : nat) (point : Z) (w : World),
    sink w = [] -> 255 * Z.of_nat q < point <= 255 * Z.of_nat q + 255 ->
    point < 2 ^ 32 -> (q < fuel)%nat ->
    FeedPaper_loop fuel [ESC; 0x4a; 0xFF] point w
    = Some ((EPTMD_SUCCESS, point - 255 * Z.of_nat q),
            advance (feed_bytes (replicate q 255)) 0 0 w).
Proof.
  induction q as [| q IH]; intros fuel point w Hs Hp Hlt Hf;
    (destruct fuel as [| fuel]; [lia |]); cbn [FeedPaper_loop].
  - destruct (Z.ltb_spec 255 point); [lia |].
    unfold ret. cbn [replicate feed_bytes flat_map]. rewrite advance_nil.
    repeat f_equal. lia.
  - destruct (Z.ltb_spec 255 point); [| lia].
    rewrite (bind_Some _ _ _ _ _ (WriteData_healthy [ESC; 0x4a; 0xFF] 3 w Hs eq_refl eq_refl)).
    cbn [negb Z.eqb EPTMD_SUCCESS]. change (negb (EPTMD_SUCCESS =? EPTMD_SUCCESS)) with false.
    cbv iota. rewrite wrap32_small by lia.
    rewrite IH by (rewrite ?sink_advance; first [exact Hs | lia]).
    rewrite advance_advance.
    replace (point - 255 - 255 * Z.of_nat q) with (point - 255 * Z.of_nat (S q)) by lia.
    reflexivity.
Qed.

Lemma FeedPaper_point_range cfg hdr n :
  0 < HWResolution1 hdr ->
  0 <= FeedPaper_point cfg hdr n < 2 ^ 32.
Proof.
  intros Hr. unfold FeedPaper_point, wrap32.
  pose proof (Z.mod_pos_bound (n * v_motionUnit cfg) (2 ^ 32)) as Hm.
  split.
  - apply Z.div_pos; lia.
  - apply Z.div_lt_upper_bound; [lia |]. nia.
Qed.

Lemma FeedPaper_healthy cfg hdr n w :
  sink w = [] -> 0 < HWResolution1 hdr ->
  FeedPaper cfg hdr n w
  = Some (EPTMD_SUCCESS, advance (feed_output cfg hdr n) 0 0 w).
Proof.
  intros Hs Hr. pose proof (FeedPaper_point_range cfg hdr n Hr) as Hrange.
  unfold FeedPaper, feed_output. cbv zeta.
  destruct (Z.eqb_spec (FeedPaper_point cfg hdr n) 0) as [E | Hne].
  - rewrite E. unfold ret. cbn. rewrite advance_nil. reflexivity.
  - destruct (feed_chunks_spec (FeedPaper_point cfg hdr n)) as (q & r & Hch & Hd & Hrr & Hq);
      [lia |].
    rewrite Hch.
    assert (Hfuel : (q < S (Z.to_nat (FeedPaper_point cfg hdr n / 255)))%nat).
    { assert ((FeedPaper_point cfg hdr n - 1) / 255 <= FeedPaper_point cfg hdr n / 255)
        by (apply Z.div_le_mono; lia).
      lia. }
    rewrite (bind_Some _ _ _ _ _
               (FeedPaper_loop_healthy q _ (FeedPaper_point cfg hdr n) w Hs
                  ltac:(lia) ltac:(lia) Hfuel)).
    change (negb (EPTMD_SUCCESS =? EPTMD_SUCCESS)) with false. cbv iota.
    replace (FeedPaper_point cfg hdr n - 255 * Z.of_nat q) with r by lia.
    destruct (Z.ltb_spec 0 r); [| lia].
    rewrite Z.mod_small by lia.
    rewrite (bind_Some _ _ _ _ _
               (WriteData_healthy (store [ESC; 0x4a; 0xFF] 2 r) 3 _
                  (eq_trans (sink_advance _ _ _ _) Hs) eq_refl eq_refl)).
    change (negb (EPTMD_SUCCESS =? EPTMD_SUCCESS)) with false. cbv iota.
    unfold ret. rewrite advance_advance, feed_bytes_app. reflexivity.
Qed.

(** C8.  On a sink that takes everything, a feed whose integer distance [d]
    is 0 writes nothing; otherwise it writes the commands [ESC J n] for the
    distances [feed_chunks d]: the single distance [d] up to 255; above 255,
    [d / 255] commands of 255 followed by one for [d mod 255] when that is
    not 0, and [d / 255] commands of 255 in all when [d] is a multiple of
    255 (the last of them is the command for what is left).  The distances
    of the commands written add up to [d]. *)
Theorem feed_chunking (cfg : EPTMS_CONFIG_T) (hdr : cups_page_header_t)
    (n : Z) (w : World) :
  sink w = [] -> 0 < HWResolution1 hdr ->
  let d := FeedPaper_point cfg hdr n in
  FeedPaper cfg hdr n w
  = Some (EPTMD_SUCCESS, advance (feed_bytes (feed_chunks d)) 0 0 w)
  /\ feed_distances (feed_bytes (feed_chunks d)) = feed_chunks d
  /\ sum_list (feed_chunks d) = d
  /\ (d = 0 -> feed_bytes (feed_chunks d) = [])
  /\ (0 < d <= 255 -> feed_chunks d = [d])
  /\ (255 < d -> d mod 255 <> 0 ->
      feed_chunks d = replicate (Z.to_nat (d / 255)) 255 ++ [d mod 255])
  /\ (255 < d -> d mod 255 = 0 ->
      feed_chunks d = replicate (Z.to_nat (d / 255)) 255).
Proof.
  intros Hs Hr d.
  pose proof (FeedPaper_point_range cfg hdr n Hr) as Hrange. fold d in Hrange.
  split; [apply FeedPaper_healthy; assumption |].
  split.
  { rewrite <- (app_nil_r (feed_bytes (feed_chunks d))).
    rewrite feed_distances_feed_bytes. apply app_nil_r. }
  assert (Hzero : feed_chunks 0 = []) by reflexivity.
  split.
  { destruct (Z.eq_dec d 0) as [-> | Hne]; [reflexivity |].
    destruct (feed_chunks_spec d) as (q & r & Hch & Hd & Hrr & Hq); [lia |].
    rewrite Hch, sum_list_app, sum_list_replicate. cbn. lia. }
  split; [intros ->; reflexivity |].
  split.
  { intros Hd. unfold feed_chunks. destruct (Z.leb_spec d 0); [lia |].
    replace ((d - 1) / 255) with 0 by (symmetry; apply Z.div_small; lia).
    change (Z.to_nat 0) with 0%nat. cbn [replicate app]. f_equal. lia. }
  pose proof (Z.div_mod d 255) as Hdm.
  pose proof (Z.mod_pos_bound d 255) as Hmod.
  split.
  - intros Hd Hm. unfold feed_chunks. destruct (Z.leb_spec d 0); [lia |].
    assert (E : (d - 1) / 255 = d / 255).
    { symmetry. apply Z.div_unique with (r := d mod 255 - 1); lia. }
    rewrite E. f_equal. f_equal. lia.
  - intros Hd Hm. unfold feed_chunks. destruct (Z.leb_spec d 0); [lia |].
    assert (E : (d - 1) / 255 = d / 255 - 1).
    { symmetry. apply Z.div_unique with (r := 254); lia. }
    rewrite E.
    replace (d - 255 * (d / 255 - 1)) with 255 by lia.
    replace (Z.to_nat (d / 255)) with (Z.to_nat (d / 255 - 1) + 1)%nat by lia.
    rewrite replicate_add. reflexivity.
Qed.

(** A feed for 6000 scanlines at motion unit 10 and 203 dpi: distance 295,
    written as the commands for 255 and 40. *)
Lemma feed_chunking_witness :
  FeedPaper (example_config TmPaperReductionOff) example_header 6000 (example_world [])
  = Some (EPTMD_SUCCESS,
          advance [ESC; 0x4a; 255; ESC; 0x4a; 40] 0 0 (example_world []))
  /\ sum_list
       (feed_chunks (FeedPaper_point (example_config TmPaperReductionOff) example_header 6000))
     = 295.
Proof.
  destruct (feed_chunking (example_config TmPaperReductionOff) example_header 6000
              (example_world [])) as (Hrun & _ & Hsum & _);
    [reflexivity | reflexivity |].
  split; [exact Hrun | exact Hsum].
Defined.

(** The truncated quotient of a sum against the sum of the truncated
    quotients. *)
Lemma div_add_bounds x y r :
  0 <= x -> 0 <= y -> 0 < r ->
  x / r + y / r <= (x + y) / r <= x / r + y / r + 1.
Proof.
  intros Hx Hy Hr.
  pose proof (Z.div_mod x r) as Hdx. pose proof (Z.mod_pos_bound x r) as Hmx.
  pose proof (Z.div_mod y r) as Hdy. pose proof (Z.mod_pos_bound y r) as Hmy.
  split.
  - apply Z.div_le_lower_bound; lia.
  - assert ((x + y) / r < x / r + y / r + 2); [| lia].
    apply Z.div_lt_upper_bound; lia.
Qed.

Lemma sum_list_nonneg ns : Forall (fun n => 0 <= n) ns -> 0 <= sum_list ns.
Proof.
  induction 1 as [| n ns Hn _ IH]; [reflexivity |].
  cbn [sum_list fold_right]. fold (sum_list ns). lia.
Qed.

Lemma feed_each_healthy cfg hdr ns w :
  sink w = [] -> 0 < HWResolution1 hdr ->
  feed_each cfg hdr ns w
  = Some (EPTMD_SUCCESS, advance (flat_map (feed_output cfg hdr) ns) 0 0 w).
Proof.
  intros Hs Hr. revert w Hs. induction ns as [| n ns IH]; intros w Hs.
  - cbn. unfold ret. rewrite advance_nil. reflexivity.
  - cbn [feed_each flat_map].
    rewrite (bind_Some _ _ _ _ _ (FeedPaper_healthy cfg hdr n w Hs Hr)).
    change (negb (EPTMD_SUCCESS =? EPTMD_SUCCESS)) with false. cbv iota.
    rewrite IH by (rewrite sink_advance; exact Hs).
    rewrite advance_advance. reflexivity.
Qed.

Lemma feed_each_distances cfg hdr ns :
  sum_list (feed_distances (flat_map (feed_output cfg hdr) ns))
  = sum_list (map (FeedPaper_point cfg hdr) ns)
    - sum_list (map (fun n => Z.min 0 (FeedPaper_point cfg hdr n)) ns).
Proof.
  induction ns as [| n ns IH]; [reflexivity |].
  cbn [flat_map map]. unfold feed_output at 1.
  rewrite feed_distances_feed_bytes, sum_list_app, IH.
  cbn [sum_list fold_right].
  fold (sum_list (map (FeedPaper_point cfg hdr) ns)).
  fold (sum_list (map (fun n => Z.min 0 (FeedPaper_point cfg hdr n)) ns)).
  assert (sum_list (feed_chunks (FeedPaper_point cfg hdr n))
          = FeedPaper_point cfg hdr n - Z.min 0 (FeedPaper_point cfg hdr n)); [| lia].
  destruct (Z.le_gt_cases (FeedPaper_point cfg hdr n) 0) as [Hle | Hgt].
  - unfold feed_chunks. destruct (Z.leb_spec (FeedPaper_point cfg hdr n) 0); [| lia].
    cbn. lia.
  - destruct (feed_chunks_spec _ Hgt) as (q & r & Hch & Hd & Hrr & Hq).
    rewrite Hch, sum_list_app, sum_list_replicate. cbn. lia.
Qed.

Lemma FeedPaper_point_small cfg hdr n :
  0 <= n * v_motionUnit cfg < 2 ^ 32 ->
  FeedPaper_point cfg hdr n = n * v_motionUnit cfg / HWResolution1 hdr.
Proof. intros H. unfold FeedPaper_point. rewrite wrap32_small by lia. reflexivity. Qed.

(** The truncated quotient of a total against the sum of the truncated
    quotients of its parts. *)
Lemma floor_sum_bounds (v res : Z) (ns : list Z) :
  0 < res -> 0 <= v -> Forall (fun n => 0 <= n) ns ->
  sum_list (map (fun n => n * v / res) ns) <= sum_list ns * v / res
  /\ sum_list ns * v / res
     < sum_list (map (fun n => n * v / res) ns) + Z.max 1 (Z.of_nat (length ns)).
Proof.
  intros Hr Hv Hns. induction Hns as [| n ns Hn Hns IH].
  - cbn. rewrite Z.div_0_l by lia. lia.
  - cbn [sum_list fold_right map length] in *.
    fold (sum_list ns) in *. fold (sum_list (map (fun n => n * v / res) ns)).
    pose proof (sum_list_nonneg ns Hns) as Hsum.
    destruct IH as [IHlo IHhi].
    replace ((n + sum_list ns) * v) with (n * v + sum_list ns * v) by lia.
    pose proof (div_add_bounds (n * v) (sum_list ns * v) res) as [Hlo Hhi];
      [nia | nia | lia |].
    split; [lia |].
    destruct ns as [| m ns'].
    + cbn in *. rewrite Z.add_0_r. lia.
    + cbn [length] in *. lia.
Qed.

Lemma feed_each_output cfg hdr ns :
  0 <= v_motionUnit cfg ->
  Forall (fun n => 0 <= n /\ n * v_motionUnit cfg < 2 ^ 32) ns ->
  flat_map (feed_output cfg hdr) ns
  = flat_map (fun d => feed_bytes (feed_chunks d))
      (map (fun n => n * v_motionUnit cfg / HWResolution1 hdr) ns).
Proof.
  intros Hv. induction 1 as [| n ns [Hn Hsz] _ IH]; [reflexivity |].
  cbn [flat_map map]. rewrite IH. unfold feed_output.
  rewrite FeedPaper_point_small by nia. reflexivity.
Qed.

(** C1 (as the code has it).  [FeedPaper] keeps nothing from one call to the
    next: each call writes the feed commands of the truncated distance
    [n * v / res] of its own scanline count [n] (motion unit [v] in 1..255,
    resolution [res], the product [n * v] within the [unsigned]
    arithmetic of the calculator).  On a sink that takes everything,
    successive feeds for the counts [ns] write those commands one call
    after the other, and their distances add up to the sum of the
    truncated distances of the counts.  That sum is at most the truncated
    distance [total] of the sum of the counts and falls short of it by less
    than the number of calls; [total] is what one call for the sum of the
    counts feeds when its product is within the [unsigned] arithmetic too.
    For motion unit 10, resolution 203 and counts 3, 3, 3 nothing is
    written and the distance for 9 scanlines is 0 as well. *)
Theorem feed_sum_without_carry (cfg : EPTMS_CONFIG_T) (hdr : cups_page_header_t)
    (ns : list Z) (w : World) :
  sink w = [] -> 0 < HWResolution1 hdr -> 1 <= v_motionUnit cfg <= 255 ->
  Forall (fun n => 0 <= n /\ n * v_motionUnit cfg < 2 ^ 32) ns ->
  let v := v_motionUnit cfg in
  let res := HWResolution1 hdr in
  let each := map (fun n => n * v / res) ns in
  let total := sum_list ns * v / res in
  let emitted := flat_map (fun d => feed_bytes (feed_chunks d)) each in
  feed_each cfg hdr ns w = Some (EPTMD_SUCCESS, advance emitted 0 0 w)
  /\ sum_list (feed_distances emitted) = sum_list each
  /\ sum_list each <= total
  /\ total < sum_list each + Z.max 1 (Z.of_nat (length ns))
  /\ (sum_list ns * v < 2 ^ 32 ->
      FeedPaper cfg hdr (sum_list ns) w
      = Some (EPTMD_SUCCESS, advance (feed_bytes (feed_chunks total)) 0 0 w))
  /\ (v = 10 -> res = 203 -> ns = [3; 3; 3] -> emitted = [] /\ total = 0).
Proof.
  intros Hs Hr Hu Hns v res each total emitted.
  assert (Hnn : Forall (fun n => 0 <= n) ns).
  { clear -Hns. induction Hns as [| n ns [Hn _] _ IH]; constructor; assumption. }
  assert (Hout : flat_map (feed_output cfg hdr) ns = emitted)
    by (apply feed_each_output; [lia | exact Hns]).
  assert (Hpoints : map (FeedPaper_point cfg hdr) ns = each).
  { unfold each, v, res. clear -Hns Hu.
    induction Hns as [| n ns [Hn Hsz] _ IH]; [reflexivity |].
    cbn [map]. rewrite IH, FeedPaper_point_small by nia. reflexivity. }
  assert (Hsum : sum_list (feed_distances emitted) = sum_list each).
  { rewrite <- Hout, feed_each_distances, Hpoints.
    assert (sum_list (map (fun n => Z.min 0 (FeedPaper_point cfg hdr n)) ns) = 0); [| lia].
    clear -Hr. induction ns as [| n ns IH]; [reflexivity |].
    cbn [map sum_list fold_right].
    fold (sum_list (map (fun n => Z.min 0 (FeedPaper_point cfg hdr n)) ns)).
    pose proof (FeedPaper_point_range cfg hdr n Hr). lia. }
  destruct (floor_sum_bounds v res ns Hr ltac:(unfold v; lia) Hnn) as [Hlo Hhi].
  split; [rewrite <- Hout; apply feed_each_healthy; assumption |].
  split; [exact Hsum |].
  split; [exact Hlo |].
  split; [exact Hhi |].
  split.
  - intros Hsz. rewrite (FeedPaper_healthy cfg hdr (sum_list ns) w Hs Hr).
    unfold feed_output. rewrite FeedPaper_point_small; [reflexivity |].
    pose proof (sum_list_nonneg ns Hnn). fold v. nia.
  - intros E10 E203 Ens. unfold emitted, each, total. rewrite E10, E203, Ens.
    split; reflexivity.
Qed.

(** Motion unit 10 at 203 dpi, counts 30, 30, 30: each call feeds 1 unit
    (300/203 truncated), three units in all, where one call for the 90
    scanlines feeds 4 (900/203 truncated). *)
Lemma feed_sum_without_carry_witness :
  feed_each (example_config TmPaperReductionOff) example_header [30; 30; 30]
    (example_world [])
  = Some (EPTMD_SUCCESS,
          advance ([ESC; 0x4a; 1] ++ [ESC; 0x4a; 1] ++ [ESC; 0x4a; 1]) 0 0
            (example_world []))
  /\ FeedPaper (example_config TmPaperReductionOff) example_header (30 + 30 + 30)
       (example_world [])
     = Some (EPTMD_SUCCESS, advance [ESC; 0x4a; 4] 0 0 (example_world [])).
Proof.
  destruct (feed_sum_without_carry (example_config TmPaperReductionOff) example_header
              [30; 30; 30] (example_world [])) as (Hrun & _ & _ & _ & Hone & _);
    [reflexivity | reflexivity | cbn; lia
    | repeat constructor; cbn; lia |].
  split; [exact Hrun | apply Hone; cbn; lia].
Defined.

(** C1 as stated fails: at motion unit 10 and 203 dpi two feeds for 11
    scanlines write no command at all (distance 0 + 0), while one feed for
    the 22 scanlines writes [ESC J 1]: the fraction 110/203 of each call is
    dropped, not carried. *)
Lemma feed_remainder_not_carried :
  output_of (feed_each (example_config TmPaperReductionOff) example_header [11; 11]
               (example_world [])) = []
  /\ output_of (FeedPaper (example_config TmPaperReductionOff) example_header (11 + 11)
                  (example_world [])) = [ESC; 0x4a; 1]
  /\ sum_list
       (feed_distances
          (output_of (feed_each (example_config TmPaperReductionOff) example_header
                        [11; 11] (example_world []))))
     <> FeedPaper_point (example_config TmPaperReductionOff) example_header (11 + 11).
Proof. split; [reflexivity | split; [reflexivity | discriminate]]. Qed.

(** ** Bands *)

Lemma uninit_i_spec w :
  uninit_i w = Some (uninit w (sanitized w), advance [] 0 1 w).
Proof.
  unfold uninit_i, set_sanitized, advance. rewrite app_nil_r, Nat.add_1_r.
  destruct (sigterm w) as [t |]; cbn; rewrite ?Nat.sub_0_r; reflexivity.
Qed.

Lemma g_TmCanceled_spec w :
  g_TmCanceled w
  = Some (match sigterm w with Some O => true | _ => false end, advance [] 1 0 w).
Proof.
  unfold g_TmCanceled, advance, set_sigterm. rewrite app_nil_r, Nat.add_0_r.
  destruct w as [out s t un k f r px]. cbn.
  destruct t as [[| n] |]; cbn; rewrite ?Nat.sub_0_r; reflexivity.
Qed.

Lemma band_payload_length hdr buf p_data lines i :
  0 <= cupsBytesPerLine hdr -> cupsBytesPerLine hdr * 8 < 2 ^ 32 ->
  length (band_payload hdr buf p_data lines i) = Z.to_nat (cupsBytesPerLine hdr * 8).
Proof.
  intros Hb Hsz. unfold band_payload. rewrite AvoidDisturbingData_length.
  apply MakeSendData_spec; assumption.
Qed.

Lemma WriteBand_healthy cfg hdr buf p_data lines w :
  sink w = [] -> 0 < HWResolution1 hdr ->
  0 <= cupsBytesPerLine hdr -> cupsBytesPerLine hdr * 8 < 2 ^ 31 ->
  WriteBand cfg hdr buf p_data lines w
  = Some (EPTMD_SUCCESS,
          advance (band_output cfg hdr buf p_data lines (uninit w (sanitized w))) 0 1 w).
Proof.
  intros Hs Hr Hb Hsz. unfold WriteBand. cbv zeta.
  rewrite (bind_Some _ _ _ _ _ (WriteData_healthy (band_command hdr) 5 w Hs eq_refl eq_refl)).
  change (negb (EPTMD_SUCCESS =? EPTMD_SUCCESS)) with false. cbv iota.
  rewrite (bind_Some _ _ _ _ _ (uninit_i_spec _)).
  rewrite advance_advance.
  fold (band_payload hdr buf p_data lines
          (uninit (advance (band_command hdr) 0 0 w)
             (sanitized (advance (band_command hdr) 0 0 w)))).
  change (uninit (advance (band_command hdr) 0 0 w)) with (uninit w).
  replace (sanitized (advance (band_command hdr) 0 0 w)) with (sanitized w)
    by (cbn; lia).
  rewrite !wrap32_small by (rewrite ?wrap32_small; lia).
  erewrite bind_Some;
    [| apply WriteData_healthy;
       [exact Hs | rewrite band_payload_length by lia; lia | lia]].
  change (negb (EPTMD_SUCCESS =? EPTMD_SUCCESS)) with false. cbv iota.
  rewrite advance_advance.
  erewrite bind_Some; [| apply FeedPaper_healthy; [exact Hs | exact Hr]].
  change (negb (EPTMD_SUCCESS =? EPTMD_SUCCESS)) with false. cbv iota.
  unfold ret. rewrite advance_advance. unfold band_output.
  rewrite app_nil_r, <- app_assoc. reflexivity.
Qed.

(** C10.  On a sink that takes everything a band of [lines] scanlines,
    whatever [lines] is (a final band of fewer than 8 lines included), is
    written as the band command, the send data of [cupsBytesPerLine * 8]
    bytes and the feed computed for 8 scanlines: the distances of the feed
    commands after the payload add up to the distance of 8 scanlines, not
    to that of [lines]. *)
Theorem band_feed_is_eight_lines (cfg : EPTMS_CONFIG_T) (hdr : cups_page_header_t)
    (buf : list Z) (p_data lines : Z) (w : World) :
  sink w = [] -> 0 < HWResolution1 hdr ->
  0 <= cupsBytesPerLine hdr -> cupsBytesPerLine hdr * 8 < 2 ^ 31 ->
  let payload := band_payload hdr buf p_data lines (uninit w (sanitized w)) in
  WriteBand cfg hdr buf p_data lines w
  = Some (EPTMD_SUCCESS,
          advance (band_command hdr ++ payload ++ feed_output cfg hdr 8) 0 1 w)
  /\ length payload = Z.to_nat (cupsBytesPerLine hdr * 8)
  /\ feed_output cfg hdr 8 = feed_bytes (feed_chunks (FeedPaper_point cfg hdr 8))
  /\ sum_list (feed_distances (feed_output cfg hdr 8)) = FeedPaper_point cfg hdr 8.
Proof.
  intros Hs Hr Hb Hsz payload.
  split; [apply WriteBand_healthy; assumption |].
  split; [apply band_payload_length; lia |].
  split; [reflexivity |].
  unfold feed_output.
  rewrite <- (app_nil_r (feed_bytes _)), feed_distances_feed_bytes, app_nil_r.
  pose proof (FeedPaper_point_range cfg hdr 8 Hr) as Hrange.
  destruct (Z.eq_dec (FeedPaper_point cfg hdr 8) 0) as [E | Hne].
  - rewrite E. reflexivity.
  - destruct (feed_chunks_spec (FeedPaper_point cfg hdr 8)) as (q & r & Hch & Hd & Hrr & Hq);
      [lia |].
    rewrite Hch, sum_list_app, sum_list_replicate. cbn. lia.
Qed.

(** A final band of 3 scanlines at 8 dpi and motion unit 10: the feed after
    the payload is [ESC J 10], the distance of 8 scanlines. *)
Lemma band_feed_is_eight_lines_witness :
  WriteBand (example_config TmPaperReductionOff) coarse_header [0xff; 0xff; 0xff] 0 3
    (example_world [])
  = Some (EPTMD_SUCCESS,
          advance ([ESC; 0x2a; 1; 8; 0]
                   ++ [0xe0; 0xe0; 0xe0; 0xe0; 0xe0; 0xe0; 0xe0; 0xe0]
                   ++ [ESC; 0x4a; 10]) 0 1 (example_world []))
  /\ FeedPaper_point (example_config TmPaperReductionOff) coarse_header 3 = 3.
Proof.
  destruct (band_feed_is_eight_lines (example_config TmPaperReductionOff) coarse_header
              [0xff; 0xff; 0xff] 0 3 (example_world [])) as (Hrun & _);
    [reflexivity | reflexivity | cbn; lia | reflexivity |].
  split; [exact Hrun | reflexivity].
Defined.

(** ** The raster of a page *)

Section BandLoop.
Variable cfg : EPTMS_CONFIG_T.
Variable hdr : cups_page_header_t.
Variable buf : list Z.
Variable last : Z.
Hypothesis bands_of_8 : maxBandLines cfg = 8.
Hypothesis res_pos : 0 < HWResolution1 hdr.
Hypothesis bpl_nonneg : 0 <= cupsBytesPerLine hdr.
Hypothesis bpl_small : cupsBytesPerLine hdr * 8 < 2 ^ 31.
Hypothesis last_small : last + 8 <= 2 ^ 32.
Hypothesis buf_small : cupsBytesPerLine hdr * last < 2 ^ 32.

Lemma WriteRaster_loop_step fuel line_no w :
  sink w = [] -> 0 <= line_no -> line_no + 8 < last ->
  WriteRaster_loop (S fuel) cfg hdr buf line_no last w
  = let band := band_output cfg hdr buf (cupsBytesPerLine hdr * line_no) 8
                  (uninit w (sanitized w)) in
    if match sigterm w with Some O => true | _ => false end
    then Some ((EPTMD_CANCEL, line_no), advance band 1 1 w)
    else WriteRaster_loop fuel cfg hdr buf (line_no + 8) last (advance band 1 1 w).
Proof.
  intros Hs Hl Hlt. cbn [WriteRaster_loop]. rewrite bands_of_8.
  rewrite (wrap32_small (line_no + 8)) by lia.
  destruct (Z.ltb_spec (line_no + 8) last); [| lia].
  rewrite (wrap32_small (cupsBytesPerLine hdr * line_no)) by nia.
  rewrite (bind_Some _ _ _ _ _
             (WriteBand_healthy cfg hdr buf _ 8 w Hs res_pos bpl_nonneg bpl_small)).
  change (negb (EPTMD_SUCCESS =? EPTMD_SUCCESS)) with false. cbv iota.
  rewrite (bind_Some _ _ _ _ _ (g_TmCanceled_spec _)).
  rewrite advance_advance, app_nil_r. cbv zeta.
  replace (sigterm (advance (band_output cfg hdr buf (cupsBytesPerLine hdr * line_no) 8
                              (uninit w (sanitized w))) 0 1 w))
    with (sigterm w)
    by (cbn; destruct (sigterm w); cbn; rewrite ?Nat.sub_0_r; reflexivity).
  destruct (match sigterm w with Some O => true | _ => false end); reflexivity.
Qed.

Lemma WriteRaster_loop_completes (n : nat) :
  forall fuel line_no w,
    sink w = [] -> 0 <= line_no ->
    8 * Z.of_nat n < last - line_no <= 8 * Z.of_nat n + 8 ->
    quiet_for n w -> (n < fuel)%nat ->
    WriteRaster_loop fuel cfg hdr buf line_no last w
    = Some ((EPTMD_SUCCESS, line_no + 8 * Z.of_nat n),
            advance (full_bands n cfg hdr buf line_no (uninit w) (sanitized w)) n n w).
Proof.
  induction n as [| n IH]; intros fuel line_no w Hs Hl Hn Hq Hf;
    (destruct fuel as [| fuel]; [lia |]).
  - cbn [WriteRaster_loop]. rewrite bands_of_8.
    rewrite (wrap32_small (line_no + 8)) by lia.
    destruct (Z.ltb_spec (line_no + 8) last); [lia |].
    unfold ret. cbn [full_bands]. rewrite advance_nil, Z.add_0_r. reflexivity.
  - rewrite WriteRaster_loop_step by (assumption || lia). cbv zeta.
    unfold quiet_for in Hq.
    assert (Hflag : match sigterm w with Some O => true | _ => false end = false).
    { destruct (sigterm w) as [[| t] |]; [lia | reflexivity | reflexivity]. }
    rewrite Hflag.
    rewrite IH; [| exact Hs | lia | lia | | lia].
    + rewrite advance_advance. cbn [full_bands uninit sanitized advance].
      replace (sanitized w + 1)%nat with (S (sanitized w)) by lia.
      replace (line_no + 8 + 8 * Z.of_nat n) with (line_no + 8 * Z.of_nat (S n)) by lia.
      reflexivity.
    + unfold quiet_for. cbn. destruct (sigterm w) as [t |]; cbn; [lia | exact I].
Qed.

Lemma WriteRaster_loop_canceled (t : nat) :
  forall fuel line_no w,
    sink w = [] -> 0 <= line_no ->
    8 * Z.of_nat (S t) < last - line_no ->
    sigterm w = Some t -> (t < fuel)%nat ->
    WriteRaster_loop fuel cfg hdr buf line_no last w
    = Some ((EPTMD_CANCEL, line_no + 8 * Z.of_nat t),
            advance (full_bands (S t) cfg hdr buf line_no (uninit w) (sanitized w))
              (S t) (S t) w).
Proof.
  induction t as [| t IH]; intros fuel line_no w Hs Hl Hn Hq Hf;
    (destruct fuel as [| fuel]; [lia |]);
    rewrite WriteRaster_loop_step by (assumption || lia); cbv zeta; rewrite Hq.
  - cbn [full_bands]. rewrite app_nil_r, Z.add_0_r. reflexivity.
  - rewrite IH; [| exact Hs | lia | lia | cbn; rewrite Hq; cbn; f_equal; lia | lia].
    rewrite advance_advance. cbn [full_bands uninit sanitized advance].
    replace (sanitized w + 1)%nat with (S (sanitized w)) by lia.
    replace (line_no + 8 + 8 * Z.of_nat t) with (line_no + 8 * Z.of_nat (S t)) by lia.
    reflexivity.
Qed.

End BandLoop.

Section PageRaster.
Variable cfg : EPTMS_CONFIG_T.
Variable hdr : cups_page_header_t.
Variable buf : list Z.
Hypothesis bands_of_8 : maxBandLines cfg = 8.
Hypothesis res_pos : 0 < HWResolution1 hdr.
Hypothesis bpl_nonneg : 0 <= cupsBytesPerLine hdr.
Hypothesis bpl_small : cupsBytesPerLine hdr * 8 < 2 ^ 31.
Hypothesis height_small : 0 <= cupsHeight hdr /\ cupsHeight hdr + 8 <= 2 ^ 32.
Hypothesis buf_small : cupsBytesPerLine hdr * cupsHeight hdr < 2 ^ 32.

Lemma maybe_feed (c : bool) n w :
  sink w = [] ->
  (if c then FeedPaper cfg hdr n else ret EPTMD_SUCCESS) w
  = Some (EPTMD_SUCCESS, advance (if c then feed_output cfg hdr n else []) 0 0 w).
Proof.
  intros Hs. destruct c; [apply FeedPaper_healthy; assumption |].
  unfold ret. rewrite advance_nil. reflexivity.
Qed.

Lemma top_feed_condition :
  negb (bool_decide (TmPaperReductionTop = paperReduction cfg)
        || bool_decide (TmPaperReductionBoth = paperReduction cfg))
  = feeds_top_margin (paperReduction cfg).
Proof. destruct (paperReduction cfg); reflexivity. Qed.

Lemma bottom_feed_condition :
  negb (bool_decide (TmPaperReductionBottom = paperReduction cfg)
        || bool_decide (TmPaperReductionBoth = paperReduction cfg))
  = feeds_bottom_margin (paperReduction cfg).
Proof. destruct (paperReduction cfg); reflexivity. Qed.

(** On a page that is not blank the scans bracket the printable range. *)
Lemma printable_range_bounds :
  FindBlackRasterLineTop hdr buf <> cupsHeight hdr ->
  0 <= FindBlackRasterLineTop hdr buf
  /\ FindBlackRasterLineTop hdr buf <= FindBlackRasterLineEnd hdr buf
  /\ FindBlackRasterLineEnd hdr buf < cupsHeight hdr.
Proof.
  intros Hne.
  destruct (FindBlackRasterLineTop_spec hdr buf) as [Tlt [Tr | [Tr Tb]]];
    [lia | contradiction |].
  destruct (FindBlackRasterLineEnd_spec hdr buf) as [Bgt [[_ Ball] | [Br Bb]]];
    [lia | lia | lia | lia | |].
  - exfalso. apply (Ball (FindBlackRasterLineTop hdr buf)); [lia | exact Tb].
  - split; [lia |]. split; [| lia].
    destruct (Z.le_gt_cases (FindBlackRasterLineTop hdr buf)
                (FindBlackRasterLineEnd hdr buf)) as [? | Hgt]; [assumption |].
    exfalso. apply (Bgt (FindBlackRasterLineTop hdr buf)); [lia | exact Tb].
Qed.

Lemma black_page_top y :
  0 <= y < cupsHeight hdr -> black_line hdr buf y ->
  FindBlackRasterLineTop hdr buf <> cupsHeight hdr.
Proof.
  intros Hy Hb E.
  destruct (FindBlackRasterLineTop_spec hdr buf) as [Tlt _]; [lia |].
  apply (Tlt y); [lia | exact Hb].
Qed.

Lemma loop_bands_spec top last :
  top < last ->
  8 * Z.of_nat (loop_bands top last) < last - top
  <= 8 * Z.of_nat (loop_bands top last) + 8.
Proof.
  intros Hlt. unfold loop_bands.
  pose proof (Z.div_mod (last - top - 1) 8) as Hdm.
  pose proof (Z.mod_pos_bound (last - top - 1) 8) as Hm.
  assert (0 <= (last - top - 1) / 8) by (apply Z.div_pos; lia).
  lia.
Qed.

(** The raster of a page that is not blank, when no signal is seen during
    the band loop. *)
Lemma WriteRaster_completes w :
  sink w = [] ->
  FindBlackRasterLineTop hdr buf <> cupsHeight hdr ->
  let top := FindBlackRasterLineTop hdr buf in
  let last := FindBlackRasterLineEnd hdr buf + 1 in
  quiet_for (loop_bands top last) w ->
  WriteRaster cfg hdr buf w
  = Some (EPTMD_SUCCESS,
          advance
            ((if feeds_top_margin (paperReduction cfg)
              then feed_output cfg hdr top else [])
             ++ full_bands (loop_bands top last) cfg hdr buf top (uninit w) (sanitized w)
             ++ final_band cfg hdr buf top last (uninit w)
                  (sanitized w + loop_bands top last)
             ++ (if feeds_bottom_margin (paperReduction cfg)
                 then feed_output cfg hdr (cupsHeight hdr - last) else []))
            (loop_bands top last) (S (loop_bands top last)) w).
Proof.
  intros Hs Hne top last Hq.
  destruct (printable_range_bounds Hne) as (Ht0 & Htb & Hbh).
  fold top in Ht0, Htb. 
  pose proof (loop_bands_spec top last ltac:(unfold last; lia)) as Hn.
  unfold WriteRaster. cbv zeta. fold top.
  destruct (Z.eqb_spec (cupsHeight hdr) top) as [E | _]; [unfold top in E; congruence |].
  rewrite (wrap32_small (FindBlackRasterLineEnd hdr buf + 1)) by lia. fold last.
  rewrite top_feed_condition, bottom_feed_condition.
  rewrite (bind_Some _ _ _ _ _ (maybe_feed _ _ w Hs)).
  change (negb (EPTMD_SUCCESS =? EPTMD_SUCCESS)) with false. cbv iota.
  erewrite bind_Some;
    [| apply (WriteRaster_loop_completes cfg hdr buf last bands_of_8 res_pos
                bpl_nonneg bpl_small ltac:(unfold last; lia) ltac:(unfold last; nia)
                (loop_bands top last));
       [exact Hs | exact Ht0 | exact Hn
       | unfold quiet_for in *; cbn; destruct (sigterm w); cbn; [lia | exact I]
       | unfold last in *; lia]].
  change (negb (EPTMD_SUCCESS =? EPTMD_SUCCESS)) with false. cbv iota.
  rewrite advance_advance.
  destruct (Z.ltb_spec (top + 8 * Z.of_nat (loop_bands top last)) last); [| lia].
  rewrite (wrap32_small (cupsBytesPerLine hdr * _)) by (unfold last in *; nia).
  rewrite (wrap32_small (last - _)) by lia.
  change (negb (EPTMD_SUCCESS =? EPTMD_SUCCESS)) with false. cbv iota.
  erewrite bind_Some;
    [| apply WriteBand_healthy; [exact Hs | exact res_pos | exact bpl_nonneg | exact bpl_small]].
  change (negb (EPTMD_SUCCESS =? EPTMD_SUCCESS)) with false. cbv iota.
  rewrite advance_advance.
  rewrite (wrap32_small (cupsHeight hdr - last)) by (unfold last; lia).
  erewrite bind_Some; [| apply maybe_feed; exact Hs].
  change (negb (EPTMD_SUCCESS =? EPTMD_SUCCESS)) with false. cbv iota.
  unfold ret. rewrite advance_advance. unfold final_band. cbv zeta.
  cbn [uninit sanitized advance].
  rewrite !Nat.add_0_r, !Nat.add_0_l, <- !app_assoc.
  replace (loop_bands top last + 1)%nat with (S (loop_bands top last)) by lia.
  reflexivity.
Qed.

(** The raster of a page that is not blank, when the flag is found set by
    the read after the band [t] of the band loop (counting from 0). *)
Lemma WriteRaster_canceled w t :
  sink w = [] ->
  FindBlackRasterLineTop hdr buf <> cupsHeight hdr ->
  let top := FindBlackRasterLineTop hdr buf in
  let last := FindBlackRasterLineEnd hdr buf + 1 in
  sigterm w = Some t -> (t < loop_bands top last)%nat ->
  WriteRaster cfg hdr buf w
  = Some (EPTMD_CANCEL,
          advance
            ((if feeds_top_margin (paperReduction cfg)
              then feed_output cfg hdr top else [])
             ++ full_bands (S t) cfg hdr buf top (uninit w) (sanitized w))
            (S t) (S t) w).
Proof.
  intros Hs Hne top last Hq Ht.
  destruct (printable_range_bounds Hne) as (Ht0 & Htb & Hbh).
  fold top in Ht0, Htb.
  pose proof (loop_bands_spec top last ltac:(unfold last; lia)) as Hn.
  unfold WriteRaster. cbv zeta. fold top.
  destruct (Z.eqb_spec (cupsHeight hdr) top) as [E | _]; [unfold top in E; congruence |].
  rewrite (wrap32_small (FindBlackRasterLineEnd hdr buf + 1)) by lia. fold last.
  rewrite top_feed_condition, bottom_feed_condition.
  rewrite (bind_Some _ _ _ _ _ (maybe_feed _ _ w Hs)).
  change (negb (EPTMD_SUCCESS =? EPTMD_SUCCESS)) with false. cbv iota.
  erewrite bind_Some;
    [| apply (WriteRaster_loop_canceled cfg hdr buf last bands_of_8 res_pos
                bpl_nonneg bpl_small ltac:(unfold last; lia) ltac:(unfold last; nia) t);
       [exact Hs | exact Ht0 | lia
       | cbn; rewrite Hq; cbn; f_equal; lia
       | unfold last in *; lia]].
  change (negb (EPTMD_CANCEL =? EPTMD_SUCCESS)) with true. cbv iota.
  unfold ret. rewrite advance_advance.
  cbn [uninit sanitized advance]. rewrite !Nat.add_0_r, !Nat.add_0_l.
  reflexivity.
Qed.

(** The raster of a blank page. *)
Lemma WriteRaster_blank w :
  sink w = [] ->
  FindBlackRasterLineTop hdr buf = cupsHeight hdr ->
  WriteRaster cfg hdr buf w
  = Some (EPTMD_SUCCESS,
          advance (if bool_decide (paperReduction cfg = TmPaperReductionOff)
                   then feed_output cfg hdr (cupsHeight hdr) else []) 0 0 w).
Proof.
  intros Hs E. unfold WriteRaster. cbv zeta. rewrite E, Z.eqb_refl.
  destruct (paperReduction cfg);
    try (rewrite !bool_decide_eq_false_2 by discriminate;
         unfold ret; rewrite advance_nil; reflexivity).
  rewrite !bool_decide_eq_true_2 by reflexivity.
  rewrite (bind_Some _ _ _ _ _ (FeedPaper_healthy cfg hdr _ w Hs res_pos)).
  reflexivity.
Qed.

End PageRaster.

(** ** Margins and blank pages *)

Lemma example_page_black : black_line coarse_header example_page 5.
Proof. exists 0. split; [cbn; lia | vm_compute; discriminate]. Qed.

(** C6.  For a page that is not blank, with [top] and [bottom] the results
    of the two scans, on a sink that takes everything and with no signal
    seen during the band loop, the raster writer writes: the feed for [top]
    scanlines exactly when the mode is Off or Bottom; then the bands; then
    the feed for [height - (bottom + 1)] scanlines exactly when the mode is
    Off or Top.  Under Both neither margin feed is written. *)
Theorem margin_feed_policy (cfg : EPTMS_CONFIG_T) (hdr : cups_page_header_t)
    (buf : list Z) (w : World) (y : Z) :
  maxBandLines cfg = 8 -> 0 < HWResolution1 hdr ->
  0 <= cupsBytesPerLine hdr -> cupsBytesPerLine hdr * 8 < 2 ^ 31 ->
  0 <= cupsHeight hdr /\ cupsHeight hdr + 8 <= 2 ^ 32 ->
  cupsBytesPerLine hdr * cupsHeight hdr < 2 ^ 32 ->
  sink w = [] ->
  0 <= y < cupsHeight hdr -> black_line hdr buf y ->
  let top := FindBlackRasterLineTop hdr buf in
  let bottom := FindBlackRasterLineEnd hdr buf in
  let mode := paperReduction cfg in
  let top_feed :=
    if bool_decide (mode = TmPaperReductionOff \/ mode = TmPaperReductionBottom)
    then feed_output cfg hdr top else [] in
  let bottom_feed :=
    if bool_decide (mode = TmPaperReductionOff \/ mode = TmPaperReductionTop)
    then feed_output cfg hdr (cupsHeight hdr - (bottom + 1)) else [] in
  let bands :=
    full_bands (loop_bands top (bottom + 1)) cfg hdr buf top (uninit w) (sanitized w)
    ++ final_band cfg hdr buf top (bottom + 1) (uninit w)
         (sanitized w + loop_bands top (bottom + 1)) in
  quiet_for (loop_bands top (bottom + 1)) w ->
  WriteRaster cfg hdr buf w
  = Some (EPTMD_SUCCESS,
          advance (top_feed ++ bands ++ bottom_feed)
            (loop_bands top (bottom + 1)) (S (loop_bands top (bottom + 1))) w)
  /\ (mode = TmPaperReductionBoth -> top_feed = [] /\ bottom_feed = []).
Proof.
  intros H8 Hr Hb Hb8 Hh Hsz Hs Hy Hblack top bottom mode top_feed bottom_feed bands Hq.
  split.
  - assert (Hne : FindBlackRasterLineTop hdr buf <> cupsHeight hdr)
      by (eapply black_page_top; eauto).
    rewrite (WriteRaster_completes cfg hdr buf H8 Hr Hb Hb8 Hh Hsz w Hs Hne Hq).
    fold top bottom mode. unfold top_feed, bottom_feed, bands.
    rewrite <- !app_assoc.
    destruct mode; reflexivity.
  - intros E. unfold top_feed, bottom_feed. rewrite E. split; reflexivity.
Qed.

(** The page whose scanline 5 alone is black, at 8 dpi under mode Top: no
    feed for the 5 lines of top margin, one band, the feed [ESC J 2] for
    the 2 lines of bottom margin. *)
Lemma margin_feed_policy_witness :
  WriteRaster (example_config TmPaperReductionTop) coarse_header example_page
    (example_world [])
  = Some (EPTMD_SUCCESS,
          advance ([ESC; 0x2a; 1; 8; 0; 0; 0; 0; 0; 0; 0; 0; 0x80; ESC; 0x4a; 10]
                   ++ [ESC; 0x4a; 2]) 0 1 (example_world [])).
Proof.
  destruct (margin_feed_policy (example_config TmPaperReductionTop) coarse_header
              example_page (example_world []) 5) as [Hrun _];
    [reflexivity | reflexivity | cbn; lia | reflexivity | cbn; lia | reflexivity
    | reflexivity | cbn; lia | exact example_page_black | exact I |].
  exact Hrun.
Defined.





(** ** Sink failures *)

Lemma with_script_same w : with_script (sink w) w = w.
Proof. destruct w; reflexivity. Qed.

Lemma is_failure_go a : is_failure a = true -> is_success a = false.
Proof.
  unfold is_failure, is_success. destruct (a =? EPTMD_SUCCESS); [discriminate | reflexivity].
Qed.

Lemma is_failure_status a : is_failure a = true -> main_status a = -1.
Proof.
  unfold is_failure, main_status.
  destruct (a =? EPTMD_SUCCESS); [discriminate |].
  destruct (a =? EPTMD_CANCEL); [discriminate | reflexivity].
Qed.

Lemma quiet_ret {A : Type} (a : A) : quiet (ret a).
Proof. intros w a' w' s H. injection H as <- <-. split; reflexivity. Qed.

Lemma quiet_bind {A B : Type} (m : M A) (k : A -> M B) :
  quiet m -> (forall a, quiet (k a)) -> quiet (bind m k).
Proof.
  intros Hm Hk w b w' s H. unfold bind in *.
  destruct (m w) as [[a w1] |] eqn:Em; [| discriminate].
  destruct (Hm w a w1 s Em) as [Hs1 Hm1]. rewrite Hm1.
  destruct (Hk a w1 b w' s H) as [Hs2 Hk2].
  split; [congruence | exact Hk2].
Qed.

Lemma quiet_g_TmCanceled : quiet g_TmCanceled.
Proof.
  intros w c w' s. unfold g_TmCanceled, with_script. cbn [sigterm set_output].
  destruct (sigterm w) as [[| n] |]; intros H; injection H as <- <-;
    split; reflexivity.
Qed.

Lemma quiet_uninit_i : quiet uninit_i.
Proof.
  intros w i w' s. unfold uninit_i. intros H. injection H as <- <-.
  split; reflexivity.
Qed.

Lemma quiet_open path : quiet (open path).
Proof.
  intros w r w' s. unfold open, with_script. cbn [files set_output].
  destruct (files w !! path) as [[| bytes] |]; intros H; injection H as <- <-;
    split; reflexivity.
Qed.

Lemma quiet_cupsRasterReadHeader : quiet cupsRasterReadHeader.
Proof.
  intros w r w' s. unfold cupsRasterReadHeader, with_script. cbn [raster set_output].
  destruct (raster w); intros H; injection H as <- <-; split; reflexivity.
Qed.

Lemma quiet_cupsRasterReadPixels p n : quiet (cupsRasterReadPixels p n).
Proof.
  intros w r w' s. unfold cupsRasterReadPixels, with_script. cbn [pixels set_output].
  destruct (pixels w); intros H; injection H as <- <-; split; reflexivity.
Qed.

Lemma quiet_ReadRaster_loop n hdr :
  forall i p_data buf, quiet (ReadRaster_loop n hdr i p_data buf).
Proof.
  induction n as [| n IH]; intros i p_data buf; [apply quiet_ret |].
  cbn [ReadRaster_loop]. cbv zeta.
  apply quiet_bind; [apply quiet_g_TmCanceled |].
  intros [|]; [apply quiet_ret |].
  apply quiet_bind; [apply quiet_cupsRasterReadPixels |].
  intros [num p_data'].
  destruct (num <? cupsBytesPerLine hdr); [apply quiet_ret | apply IH].
Qed.

Section FirstFailure.
Variable e : Z.
Variables rest rest' : list sys_write.
Hypothesis e_fatal : e <> EINTR.

Lemma stops_ret {A : Type} (n : nat) (bad : A -> bool) (a : A) :
  stops e rest rest' n bad (ret a).
Proof.
  intros w1 w2 a' w1' Hw H. injection H as <- <-.
  exists w2. split; [reflexivity | left; exact Hw].
Qed.

Lemma stops_diverge {A : Type} (n : nat) (bad : A -> bool) :
  stops e rest rest' n bad diverge.
Proof. intros w1 w2 a w1' _ H. discriminate. Qed.

Lemma stops_more {A : Type} (n n' : nat) (bad : A -> bool) (m : M A) :
  (n <= n')%nat -> stops e rest rest' n bad m -> stops e rest rest' n' bad m.
Proof.
  intros Hn Hm w1 w2 a w1' Hw H.
  destruct (Hm w1 w2 a w1' Hw H) as (w2' & H2 & [Ha | [(k & Hk & Hs & Hw2) Hb]]);
    exists w2'; (split; [exact H2 |]); [left; exact Ha | right].
  split; [exists k; split; [lia | split; assumption] | exact Hb].
Qed.

(** [a <- m; k a] where [k] goes on after the results [go] accepts and
    returns at once after the others. *)
Lemma stops_bind {A B : Type} (n : nat) (bad1 : A -> bool) (bad2 : B -> bool)
    (go : A -> bool) (m : M A) (k : A -> M B) :
  stops e rest rest' n bad1 m ->
  (forall a, go a = true -> stops e rest rest' n bad2 (k a)) ->
  (forall a, go a = false ->
             exists b, (bad1 a = true -> bad2 b = true)
                       /\ forall w, k a w = Some (b, w)) ->
  (forall a, bad1 a = true -> go a = false) ->
  stops e rest rest' n bad2 (bind m k).
Proof.
  intros Hm Hk Hpure Hbad w1 w2 b w1' Hw Hrun. unfold bind in *.
  destruct (m w1) as [[a w1m] |] eqn:Em; [| discriminate].
  destruct (Hm w1 w2 a w1m Hw Em) as (w2m & Em2 & Hstate). rewrite Em2.
  destruct Hstate as [Hahead | [Hfailed Hb1]].
  - destruct (go a) eqn:Ego.
    + apply (Hk a Ego w1m w2m b w1' Hahead Hrun).
    + destruct (Hpure a Ego) as (b' & _ & Hret).
      rewrite Hret in Hrun. injection Hrun as <- <-.
      exists w2m. split; [apply Hret | left; exact Hahead].
  - destruct (Hpure a (Hbad a Hb1)) as (b' & Hb' & Hret).
    rewrite Hret in Hrun. injection Hrun as <- <-.
    exists w2m. split; [apply Hret | right; split; [exact Hfailed | exact (Hb' Hb1)]].
Qed.

(** A step that leaves the script alone, and what follows it. *)
Lemma stops_after_quiet {A B : Type} (n : nat) (bad : B -> bool)
    (m : M A) (k : A -> M B) :
  quiet m -> (forall a, stops e rest rest' n bad (k a)) ->
  stops e rest rest' n bad (bind m k).
Proof.
  intros Hm Hk w1 w2 b w1' (pre & Hpre & Hs & Hw2) Hrun. unfold bind in *.
  destruct (m w1) as [[a w1m] |] eqn:Em; [| discriminate].
  destruct (Hm w1 a w1m (pre ++ WriteErr e :: rest') Em) as [Hs1 Hm2].
  rewrite Hw2, Hm2.
  apply (Hk a w1m _ b w1'); [| exact Hrun].
  exists pre. split; [exact Hpre |]. split; [congruence | reflexivity].
Qed.

Lemma stops_quiet {A : Type} (n : nat) (bad : A -> bool) (m : M A) :
  quiet m -> stops e rest rest' n bad m.
Proof.
  intros Hm w1 w2 a w1' (pre & Hpre & Hs & Hw2) Hrun.
  destruct (Hm w1 a w1' (pre ++ WriteErr e :: rest') Hrun) as [Hs1 Hm2].
  exists (with_script (pre ++ WriteErr e :: rest') w1').
  split; [rewrite Hw2; exact Hm2 | left].
  exists pre. split; [exact Hpre |]. split; [congruence | reflexivity].
Qed.

(** The loop of [WriteData] with the fatal entry ahead after [pre]: the
    passes use up an entry each, so both runs have the fuel for them. *)
Lemma WriteData_loop_stops p_buffer size :
  forall (pre : list sys_write) (f1 f2 : nat) (count : Z) (w1 : World) a w1',
    Forall (fun r => ~ fatal r) pre ->
    sink w1 = pre ++ WriteErr e :: rest ->
    (length pre + 2 <= f1)%nat -> (length pre + 2 <= f2)%nat ->
    WriteData_loop f1 p_buffer size count w1 = Some (a, w1') ->
    exists w2',
      WriteData_loop f2 p_buffer size count
        (with_script (pre ++ WriteErr e :: rest') w1) = Some (a, w2')
      /\ (ahead_in_both e rest rest' w1' w2'
          \/ (failed_in_both 0 rest rest' w1' w2' /\ is_failure a = true)).
Proof.
  induction pre as [| r pre IH]; intros f1 f2 count w1 a w1' Hpre Hs Hf1 Hf2 Hrun;
    (destruct f1 as [| f1]; [cbn in Hf1; lia |]);
    (destruct f2 as [| f2]; [cbn in Hf2; lia |]);
    cbn [WriteData_loop] in *.
  - destruct (count <? size).
    + unfold bind at 1 in Hrun. unfold bind at 1. unfold write in *.
      cbn [with_script set_output sink stdout]. rewrite Hs in Hrun. cbn [app] in *.
      change (to_int (-1)) with (-1) in *. cbn [Z.eqb Z.ltb Z.compare] in *.
      destruct (Z.eqb_spec e EINTR) as [? | _]; [contradiction |].
      injection Hrun as <- <-. eexists. split; [reflexivity |]. right.
      split; [| reflexivity].
      exists 0%nat. split; [lia |]. split; reflexivity.
    + injection Hrun as <- <-. eexists. split; [reflexivity |]. left.
      exists []. split; [constructor |]. split; [exact Hs | reflexivity].
  - inversion Hpre as [| ? ? Hr Hpre']; subst.
    assert (Hnext : forall out,
               ahead_in_both e rest rest'
                 (set_output out (pre ++ WriteErr e :: rest) w1)
                 (set_output out (pre ++ WriteErr e :: rest')
                    (with_script ((r :: pre) ++ WriteErr e :: rest') w1))).
    { intros out. exists pre. split; [exact Hpre' |]. split; reflexivity. }
    destruct (count <? size).
    + unfold bind at 1 in Hrun. unfold bind at 1. unfold write in *.
      cbn [with_script set_output sink stdout]. rewrite Hs in Hrun. cbn [app] in *.
      destruct r as [k | e'].
      * destruct (to_int (Z.max 0 (Z.min k (size - count))) =? 0).
        { injection Hrun as <- <-. eexists. split; [reflexivity |]. left. apply Hnext. }
        destruct (to_int (Z.max 0 (Z.min k (size - count))) <? 0).
        { cbn [Z.eqb EINTR] in *. injection Hrun as <- <-.
          eexists. split; [reflexivity |]. left. apply Hnext. }
        match type of Hrun with
        | WriteData_loop _ _ _ ?c ?w = _ =>
            destruct (IH f1 f2 c w a w1' Hpre' eq_refl ltac:(cbn in Hf1; lia)
                        ltac:(cbn in Hf2; lia) Hrun) as (w2' & H2 & Hst)
        end.
        exists w2'. split; [exact H2 | exact Hst].
      * change (to_int (-1)) with (-1) in *. cbn [Z.eqb Z.ltb Z.compare] in *.
        destruct (e' =? EINTR).
        { match type of Hrun with
          | WriteData_loop _ _ _ ?c ?w = _ =>
              destruct (IH f1 f2 c w a w1' Hpre' eq_refl ltac:(cbn in Hf1; lia)
                          ltac:(cbn in Hf2; lia) Hrun) as (w2' & H2 & Hst)
          end.
          exists w2'. split; [exact H2 | exact Hst]. }
        injection Hrun as <- <-. eexists. split; [reflexivity |]. left. apply Hnext.
    + injection Hrun as <- <-. eexists. split; [reflexivity |]. left.
      exists (r :: pre). split; [exact Hpre |]. split; [exact Hs | reflexivity].
Qed.

Lemma WriteData_stops0 p_buffer size :
  stops e rest rest' 0 is_failure (WriteData p_buffer size).
Proof.
  intros w1 w2 a w1' (pre & Hpre & Hs & ->) Hrun. unfold WriteData in *.
  eapply WriteData_loop_stops; [exact Hpre | exact Hs | | | exact Hrun].
  - rewrite Hs, length_app. cbn [length]. lia.
  - cbn [with_script set_output sink]. rewrite length_app. cbn [length]. lia.
Qed.

Lemma WriteData_stops p_buffer size :
  stops e rest rest' 1 is_failure (WriteData p_buffer size).
Proof. apply (stops_more 0); [lia | apply WriteData_stops0]. Qed.

(** The loop of [ReadUserFile] with the fatal entry ahead after [pre]. *)
Lemma ReadUserFile_loop_stops (B : Z) :
  forall (pre : list sys_write) (f1 f2 : nat) (bytes p_data : list Z) (total : Z)
         r p_data' answers' bytes',
    Forall (fun r => ~ fatal r) pre ->
    (length pre + 2 <= f1)%nat -> (length pre + 2 <= f2)%nat ->
    ReadUserFile_loop f1 (map as_read (pre ++ WriteErr e :: rest)) bytes p_data B total
    = Some (r, p_data', answers', bytes') ->
    (exists pre',
        Forall (fun r => ~ fatal r) pre'
        /\ (length pre' <= length pre)%nat
        /\ drop (length pre - length pre') pre = pre'
        /\ answers' = map as_read (pre' ++ WriteErr e :: rest)
        /\ ReadUserFile_loop f2 (map as_read (pre ++ WriteErr e :: rest')) bytes p_data
             B total
           = Some (r, p_data', map as_read (pre' ++ WriteErr e :: rest'), bytes'))
    \/ (answers' = map as_read rest /\ r = EPTMD_FAILED
        /\ ReadUserFile_loop f2 (map as_read (pre ++ WriteErr e :: rest')) bytes p_data
             B total
           = Some (r, p_data', map as_read rest', bytes')).
Proof.
  induction pre as [| r0 pre IH];
    intros f1 f2 bytes p_data total r p_data' answers' bytes' Hpre Hf1 Hf2 Hrun;
    (destruct f1 as [| f1]; [cbn in Hf1; lia |]);
    (destruct f2 as [| f2]; [cbn in Hf2; lia |]);
    cbn [ReadUserFile_loop app map as_read] in *.
  - destruct (total <? B).
    + unfold read in *. change (to_int (-1)) with (-1) in *.
      cbn [Z.ltb Z.compare] in *. injection Hrun as <- <- <- <-.
      right. split; [reflexivity |]. split; reflexivity.
    + injection Hrun as <- <- <- <-. left. exists [].
      split; [constructor |]. split; [lia |]. split; [reflexivity |].
      split; reflexivity.
  - inversion Hpre as [| ? ? Hr0 Hpre']; subst.
    assert (Hhere : forall (v : Z) (q : list Z) (b : list Z),
               exists pre',
                 Forall (fun r => ~ fatal r) pre'
                 /\ (length pre' <= length (r0 :: pre))%nat
                 /\ drop (length (r0 :: pre) - length pre') (r0 :: pre) = pre'
                 /\ map as_read (pre ++ WriteErr e :: rest)
                    = map as_read (pre' ++ WriteErr e :: rest)
                 /\ Some (v, q, map as_read (pre ++ WriteErr e :: rest'), b)
                    = Some (v, q, map as_read (pre' ++ WriteErr e :: rest'), b)).
    { intros v q b. exists pre. split; [exact Hpre' |]. cbn [length].
      split; [lia |]. split; [| split; reflexivity].
      replace (S (length pre) - length pre)%nat with 1%nat by lia. reflexivity. }
    destruct (total <? B).
    + unfold read in *. destruct r0 as [k | e']; cbn [as_read] in *.
      * set (got := Z.max 0 (Z.min k (Z.min (B - total) (Z.of_nat (length bytes))))) in *.
        destruct (to_int got <? 0).
        { injection Hrun as <- <- <- <-. left. apply Hhere. }
        destruct (to_int got =? 0).
        { injection Hrun as <- <- <- <-. left. apply Hhere. }
        destruct (IH f1 f2 _ _ _ _ _ _ _ Hpre' ltac:(cbn in Hf1; lia)
                    ltac:(cbn in Hf2; lia) Hrun)
          as [(pre' & Hp' & Hlen & Hdrop & Hans & Hrun2) | (Hans & Hr & Hrun2)].
        -- left. exists pre'. split; [exact Hp' |]. cbn [length].
           split; [lia |]. split; [| split; [exact Hans | exact Hrun2]].
           replace (S (length pre) - length pre')%nat
             with (S (length pre - length pre')) by lia.
           exact Hdrop.
        -- right. split; [exact Hans |]. split; [exact Hr | exact Hrun2].
      * change (to_int (-1)) with (-1) in *. cbn [Z.ltb Z.compare] in *.
        injection Hrun as <- <- <- <-. left. apply Hhere.
    + injection Hrun as <- <- <- <-. left. exists (r0 :: pre).
      split; [exact Hpre |]. split; [lia |].
      split; [rewrite Nat.sub_diag; reflexivity |]. split; reflexivity.
Qed.

Lemma ReadUserFile_fd_stops bytes p_buffer B :
  stops e rest rest' 0 (fun r => fst (fst r) <? 0) (ReadUserFile_fd bytes p_buffer B).
Proof.
  intros w1 w2 [[size p'] bytes'] w1' (pre & Hpre & Hs & ->) Hrun.
  unfold ReadUserFile_fd, ReadUserFile_calls in *.
  cbn [with_script set_output sink stdout].
  rewrite Hs in Hrun.
  destruct (ReadUserFile_loop _ (map as_read (pre ++ WriteErr e :: rest)) bytes p_buffer B 0)
    as [[[[r q] answers'] b] |] eqn:Eloop; [| discriminate].
  injection Hrun as -> -> -> <-.
  assert (Hf : forall t, (length pre + 2
                          <= S (S (S (length (map as_read (pre ++ WriteErr e :: t))))))%nat).
  { intros t. rewrite length_map, length_app. cbn [length]. lia. }
  destruct (ReadUserFile_loop_stops B pre _
              (S (S (S (length (map as_read (pre ++ WriteErr e :: rest'))))))
              bytes p_buffer 0 _ _ _ _ Hpre (Hf rest) (Hf rest') Eloop)
    as [(pre' & Hp' & Hlen & Hdrop & -> & Hrun2) | (-> & -> & Hrun2)];
    rewrite Hrun2; eexists; (split; [reflexivity |]).
  - left. exists pre'. split; [exact Hp' |].
    cbn [set_output sink stdout with_script].
    rewrite !length_map, !length_app. cbn [length].
    replace (length pre + S (length rest) - (length pre' + S (length rest)))%nat
      with (length pre - length pre')%nat by lia.
    replace (length pre + S (length rest') - (length pre' + S (length rest')))%nat
      with (length pre - length pre')%nat by lia.
    rewrite !drop_app_le by lia. rewrite Hdrop. split; reflexivity.
  - right. split; [| reflexivity]. exists 0%nat. split; [lia |].
    cbn [set_output sink stdout with_script].
    rewrite !length_map, !length_app. cbn [length].
    replace (length pre + S (length rest) - length rest)%nat
      with (length pre + 1)%nat by lia.
    replace (length pre + S (length rest') - length rest')%nat
      with (length pre + 1)%nat by lia.
    rewrite !drop_app_ge by lia.
    replace (length pre + 1 - length pre)%nat with 1%nat by lia.
    split; reflexivity.
Qed.

(** [close] with the fatal entry ahead. *)
Lemma close_stops : stops e rest rest' 0 (fun r => r <? 0) close.
Proof.
  intros w1 w2 a w1' (pre & Hpre & Hs & ->) Hrun. unfold close in *.
  cbn [with_script set_output sink stdout]. rewrite Hs in Hrun.
  destruct pre as [| r0 pre]; cbn [app] in *.
  - injection Hrun as <- <-. eexists. split; [reflexivity |]. right.
    split; [| reflexivity]. exists 0%nat. split; [lia |]. split; reflexivity.
  - inversion Hpre as [| ? ? _ Hpre']; subst.
    destruct r0 as [k | e']; injection Hrun as <- <-;
      (eexists; split; [reflexivity |]); left;
      exists pre; (split; [exact Hpre' |]); split; reflexivity.
Qed.

(** [close( fd ); return EPTMD_FAILED;], with the fatal entry ahead or just
    behind: the call uses up an entry, and what it answers is not looked
    at. *)
Lemma close_and_fail w1 w2 a w1' :
  ahead_in_both e rest rest' w1 w2 \/ failed_in_both 0 rest rest' w1 w2 ->
  bind close (fun _ => ret EPTMD_FAILED) w1 = Some (a, w1') ->
  exists w2',
    bind close (fun _ => ret EPTMD_FAILED) w2 = Some (a, w2')
    /\ (ahead_in_both e rest rest' w1' w2'
        \/ (failed_in_both 1 rest rest' w1' w2' /\ is_failure a = true)).
Proof.
  intros [Hahead | (k & Hk & Hs & ->)] Hrun.
  - unfold bind in *.
    destruct (close w1) as [[c w1c] |] eqn:Ec; [| discriminate].
    destruct (close_stops w1 w2 c w1c Hahead Ec) as (w2c & Ec2 & Hst).
    rewrite Ec2. injection Hrun as <- <-.
    exists w2c. split; [reflexivity |].
    destruct Hst as [H | [(j & Hj & H1 & H2) _]]; [left; exact H | right].
    split; [| reflexivity]. exists j. split; [lia |]. split; assumption.
  - assert (k = 0%nat) as -> by lia. rewrite drop_0 in *.
    unfold bind, close in *. cbn [with_script set_output sink stdout].
    rewrite Hs in Hrun.
    assert (Hend : forall (c c' : Z) (s s' : list sys_write) (u : World),
               s = drop 1 rest -> s' = drop 1 rest' ->
               ret EPTMD_FAILED (set_output (stdout w1) s w1) = Some (a, w1') ->
               exists w2',
                 ret EPTMD_FAILED (set_output (stdout w1) s' w1) = Some (a, w2')
                 /\ (ahead_in_both e rest rest' w1' w2'
                     \/ (failed_in_both 1 rest rest' w1' w2' /\ is_failure a = true))).
    { intros _ _ s s' _ -> -> H. injection H as <- <-.
      eexists. split; [reflexivity |]. right. split; [| reflexivity].
      exists 1%nat. split; [lia |]. split; reflexivity. }
    assert (Hw1 : w1 = set_output (stdout w1) rest w1)
      by (rewrite <- Hs; symmetry; apply with_script_same).
    destruct rest as [| [k | e1] s]; destruct rest' as [| [k' | e1'] s'];
      cbn [drop] in *;
      try (apply (Hend 0 0 _ _ w1 eq_refl eq_refl); exact Hrun);
      try (rewrite Hw1 in Hrun; apply (Hend 0 0 _ _ w1 eq_refl eq_refl); exact Hrun).
Qed.

Lemma WriteUserFile_loop_stops fuel :
  forall bytes, stops e rest rest' 1 is_failure (WriteUserFile_loop fuel bytes).
Proof.
  induction fuel as [| fuel IH]; intros bytes; [apply stops_diverge |].
  cbn [WriteUserFile_loop]. cbv zeta.
  intros w1 w2 a w1' Hw Hrun. unfold bind at 1 in Hrun. unfold bind at 1.
  destruct (ReadUserFile_fd bytes (replicate 1024 0) 1024 w1)
    as [[[[size data] bytes'] w1r] |] eqn:Er; [| discriminate].
  destruct (ReadUserFile_fd_stops bytes (replicate 1024 0) 1024 w1 w2 _ w1r Hw Er)
    as (w2r & Er2 & Hst).
  rewrite Er2. cbn [fst] in Hst.
  destruct (size <? 0) eqn:Eneg.
  { apply (close_and_fail w1r w2r a w1'); [| exact Hrun].
    destruct Hst as [H | [H _]]; [left | right]; exact H. }
  destruct Hst as [Hahead | [_ Hbad]]; [| discriminate].
  destruct (size =? 0).
  { unfold bind in *.
    destruct (close w1r) as [[c w1c] |] eqn:Ec; [| discriminate].
    destruct (close_stops w1r w2r c w1c Hahead Ec) as (w2c & Ec2 & Hst).
    rewrite Ec2.
    destruct Hst as [H | [H Hc]].
    - destruct (c <? 0); injection Hrun as <- <-;
        (eexists; split; [reflexivity |]); left; exact H.
    - rewrite Hc in *. injection Hrun as <- <-.
      eexists. split; [reflexivity |]. right. split; [| reflexivity].
      destruct H as (j & Hj & H1 & H2). exists j. split; [lia |]. split; assumption. }
  unfold bind at 1 in Hrun. unfold bind at 1.
  destruct (WriteData data size w1r) as [[result w1d] |] eqn:Ed; [| discriminate].
  destruct (WriteData_stops0 data size w1r w2r result w1d Hahead Ed) as (w2d & Ed2 & Hst).
  rewrite Ed2.
  destruct Hst as [H | [H Hbad]].
  - destruct (negb (result =? EPTMD_SUCCESS)).
    + apply (close_and_fail w1d w2d a w1'); [left; exact H | exact Hrun].
    + apply (IH bytes' w1d w2d a w1' H Hrun).
  - apply is_failure_go in Hbad. unfold is_success in Hbad. rewrite Hbad in *.
    cbn [negb] in *.
    apply (close_and_fail w1d w2d a w1'); [right; exact H | exact Hrun].
Qed.

Lemma WriteUserFile_stops printer name :
  stops e rest rest' 1 is_failure (WriteUserFile printer name).
Proof.
  unfold WriteUserFile. cbv zeta.
  apply stops_after_quiet; [apply quiet_open |].
  intros [[bytes |] errno].
  - apply WriteUserFile_loop_stops.
  - destruct (errno =? ENOENT); apply stops_ret.
Qed.

(** A step [result <- m; if result is not EPTMD_SUCCESS then return ... else
    ...]: the goal left is the rest of the function after a success. *)
Ltac stops_step L :=
  apply (stops_bind 1 is_failure _ is_success _ _ L);
  [ let a := fresh "a" in
    let Ha := fresh "Ha" in
    intros a Ha; unfold is_success in Ha; rewrite ?Ha; cbn [negb]
  | let a := fresh "a" in
    let Ha := fresh "Ha" in
    intros a Ha; unfold is_success in Ha; eexists;
    (split; [| intros ?; unfold bind, ret; rewrite ?Ha; cbn [negb]; reflexivity]);
    first [ intros _; reflexivity
          | let H := fresh "H" in intros H; exact H ]
  | apply is_failure_go ].

(** A step that reads the flag: the goal left is the rest of the function
    when the flag reads 0. *)
Ltac stops_flag :=
  apply stops_after_quiet; [apply quiet_g_TmCanceled |];
  intros [|]; [apply stops_ret |].

Lemma FeedPaper_loop_stops fuel Command :
  forall point,
    stops e rest rest' 1 (fun p => is_failure (fst p))
      (FeedPaper_loop fuel Command point).
Proof.
  induction fuel as [| fuel IH]; intros point; [apply stops_diverge |].
  cbn [FeedPaper_loop]. destruct (255 <? point); [| apply stops_ret].
  stops_step (WriteData_stops Command 3). apply IH.
Qed.

(** A loop that hands its result on: after a result other than success
    the function returns it. *)
Ltac stops_loop L :=
  apply (stops_bind 1 (fun p => is_failure (fst p)) _ (fun p => is_success (fst p))
           _ _ L);
  [ let result := fresh "result" in
    let x := fresh "x" in
    let Ha := fresh "Ha" in
    intros [result x] Ha; cbn [fst] in Ha; unfold is_success in Ha;
    rewrite ?Ha; cbn [negb]
  | let result := fresh "result" in
    let x := fresh "x" in
    let Ha := fresh "Ha" in
    intros [result x] Ha; cbn [fst] in Ha; unfold is_success in Ha; eexists;
    (split; [| intros ?; unfold bind, ret; repeat (rewrite Ha; cbv beta iota);
               cbn [negb]; reflexivity]);
    let H := fresh "H" in intros H; exact H
  | let p := fresh "p" in intros p; apply is_failure_go ].

Lemma FeedPaper_stops cfg hdr n : stops e rest rest' 1 is_failure (FeedPaper cfg hdr n).
Proof.
  unfold FeedPaper. cbv zeta.
  destruct (FeedPaper_point cfg hdr n =? 0); [apply stops_ret |].
  stops_loop (FeedPaper_loop_stops
                (S (Z.to_nat (FeedPaper_point cfg hdr n / 255))) [ESC; 74; 255]
                (FeedPaper_point cfg hdr n)).
  destruct (0 <? x); [| apply stops_ret].
  stops_step (WriteData_stops (store [ESC; 74; 255] 2 (x mod 256)) 3).
  apply stops_ret.
Qed.

Lemma WriteBand_stops cfg hdr buf p_data lines :
  stops e rest rest' 1 is_failure (WriteBand cfg hdr buf p_data lines).
Proof.
  unfold WriteBand. cbv zeta.
  stops_step (WriteData_stops (band_command hdr) 5).
  apply stops_after_quiet; [apply quiet_uninit_i |]. intros i.
  stops_step (WriteData_stops
                (AvoidDisturbingData hdr (MakeSendData hdr buf p_data lines) 0 8 i)
                (wrap32 (wrap32 (cupsBytesPerLine hdr * 8)))).
  stops_step (FeedPaper_stops cfg hdr 8).
  apply stops_ret.
Qed.

Lemma WriteRaster_loop_stops fuel cfg hdr buf last :
  forall line_no,
    stops e rest rest' 1 (fun p => is_failure (fst p))
      (WriteRaster_loop fuel cfg hdr buf line_no last).
Proof.
  induction fuel as [| fuel IH]; intros line_no; [apply stops_diverge |].
  cbn [WriteRaster_loop].
  destruct (wrap32 (line_no + maxBandLines cfg) <? last); [| apply stops_ret].
  stops_step (WriteBand_stops cfg hdr buf (wrap32 (cupsBytesPerLine hdr * line_no))
                (maxBandLines cfg)).
  stops_flag. apply IH.
Qed.

Lemma maybe_stops (c : bool) (m : M Z) :
  stops e rest rest' 1 is_failure m ->
  stops e rest rest' 1 is_failure (if c then m else ret EPTMD_SUCCESS).
Proof. intros H. destruct c; [exact H | apply stops_ret]. Qed.

Lemma WriteRaster_stops cfg hdr buf :
  stops e rest rest' 1 is_failure (WriteRaster cfg hdr buf).
Proof.
  unfold WriteRaster. cbv zeta.
  destruct (cupsHeight hdr =? FindBlackRasterLineTop hdr buf).
  - destruct (bool_decide (TmPaperReductionOff = paperReduction cfg));
      [| apply stops_ret].
    stops_step (FeedPaper_stops cfg hdr (cupsHeight hdr)). apply stops_ret.
  - stops_step (maybe_stops
                  (negb (bool_decide (TmPaperReductionTop = paperReduction cfg)
                         || bool_decide (TmPaperReductionBoth = paperReduction cfg)))
                  _ (FeedPaper_stops cfg hdr (FindBlackRasterLineTop hdr buf))).
    stops_loop (WriteRaster_loop_stops
                  (S (Z.to_nat (wrap32 (FindBlackRasterLineEnd hdr buf + 1)))) cfg hdr buf
                  (wrap32 (FindBlackRasterLineEnd hdr buf + 1))
                  (FindBlackRasterLineTop hdr buf)).
    match goal with
    | |- stops _ _ _ _ _ (bind (if ?c then ?m else _) _) =>
        stops_step (maybe_stops c m (WriteBand_stops _ _ _ _ _))
    end.
    match goal with
    | |- stops _ _ _ _ _ (bind (if ?c then ?m else _) _) =>
        stops_step (maybe_stops c m (FeedPaper_stops _ _ _))
    end.
    apply stops_ret.
Qed.

Lemma StartPage_stops cfg : stops e rest rest' 1 is_failure (StartPage cfg).
Proof.
  unfold StartPage. cbv zeta.
  stops_step (WriteData_stops [GS; 40; 71; 2; 0; 84; 1] 7).
  stops_step (WriteUserFile_stops (p_printerName cfg) "StartPage.prn").
  apply stops_ret.
Qed.

Lemma EndPage_stops cfg hdr : stops e rest rest' 1 is_failure (EndPage cfg hdr).
Proof.
  unfold EndPage. cbv zeta. stops_flag.
  stops_step (WriteUserFile_stops (p_printerName cfg) "EndPage.prn").
  stops_step (WriteData_stops [ESC; 70; 0; FF] 4).
  apply stops_ret.
Qed.

Lemma ReadRaster_stops hdr buf :
  stops e rest rest' 1 (fun p => is_failure (fst p)) (ReadRaster hdr buf).
Proof. apply stops_quiet. unfold ReadRaster. apply quiet_ReadRaster_loop. Qed.

Lemma DoPage_stops cfg hdr buf :
  stops e rest rest' 1 (fun p => is_failure (fst p)) (DoPage cfg hdr buf).
Proof.
  unfold DoPage.
  apply (stops_bind 1 is_failure _ is_success _ _ (StartPage_stops cfg));
    [| | apply is_failure_go].
  - intros a Ha. unfold is_success in Ha. rewrite Ha.
    apply (stops_bind 1 (fun p => is_failure (fst p)) _ (fun p => is_success (fst p))
             _ _ (ReadRaster_stops hdr buf));
      [| | intros p; apply is_failure_go].
    + intros [result buf'] Hr. cbn [fst] in Hr. unfold is_success in Hr. rewrite Hr.
      apply (stops_bind 1 is_failure _ is_success _ _ (WriteRaster_stops cfg hdr buf'));
        [| | apply is_failure_go].
      * intros r2 H2. unfold is_success in H2. rewrite H2.
        apply (stops_bind 1 is_failure _ (fun _ => false) _ _ (EndPage_stops cfg hdr));
          [discriminate | | reflexivity].
        intros r3 _. exists (r3, buf'). split; [intros H; exact H | reflexivity].
      * intros r2 H2. unfold is_success in H2. exists (r2, buf').
        split; [intros H; exact H |].
        intros w. unfold bind, ret. repeat (rewrite H2; cbv beta iota). reflexivity.
    + intros [result buf'] Hr. cbn [fst] in Hr. unfold is_success in Hr.
      exists (result, buf'). split; [intros H; exact H |].
      intros w. unfold bind, ret. repeat (rewrite Hr; cbv beta iota). reflexivity.
  - intros a Ha. unfold is_success in Ha. exists (a, buf).
    split; [intros H; exact H |].
    intros w. unfold bind, ret. repeat (rewrite Ha; cbv beta iota). reflexivity.
Qed.

Lemma OpenDrawer_stops cfg : stops e rest rest' 1 is_failure (OpenDrawer cfg).
Proof.
  unfold OpenDrawer.
  destruct (bool_decide (TmDrawerNotUsed = drawerControl cfg));
    [apply stops_ret | apply WriteData_stops].
Qed.

Lemma SoundBuzzer_stops cfg : stops e rest rest' 1 is_failure (SoundBuzzer cfg).
Proof.
  unfold SoundBuzzer. cbv zeta.
  destruct (bool_decide (TmBuzzerNotUsed = buzzerControl cfg)); [apply stops_ret |].
  destruct (bool_decide (TmBuzzerInternal = buzzerControl cfg)).
  { stops_step (WriteData_stops [ESC; 112; 1; 50; 200] 5). apply stops_ret. }
  destruct (bool_decide (TmBuzzerExternal = buzzerControl cfg)); [| apply stops_ret].
  stops_step (WriteData_stops [ESC; 40; 65; 5; 0; 97; 100; 1; 50; 200] 10).
  apply stops_ret.
Qed.

Lemma StartJob_stops cfg : stops e rest rest' 1 is_failure (StartJob cfg).
Proof.
  unfold StartJob. cbv zeta. stops_flag.
  stops_step (WriteData_stops [ESC; 61; 1; ESC; 64] 5).
  stops_step (WriteData_stops [ESC; 99; 48; 4] 4).
  stops_step (WriteData_stops [ESC; 99; 49; 4] 4).
  stops_step (WriteData_stops [ESC; 99; 51; 0] 4).
  stops_step (WriteData_stops [GS; 40; 71; 2; 0; 48; 4] 7).
  stops_step (OpenDrawer_stops cfg).
  stops_step (SoundBuzzer_stops cfg).
  stops_step (WriteUserFile_stops (p_printerName cfg) "StartJob.prn").
  apply stops_ret.
Qed.

Lemma DoJob_loop_stops fuel cfg :
  forall buffer, stops e rest rest' 1 is_failure (DoJob_loop fuel cfg buffer).
Proof.
  induction fuel as [| fuel IH]; intros buffer; [apply stops_diverge |].
  cbn [DoJob_loop].
  apply stops_after_quiet; [apply quiet_cupsRasterReadHeader |].
  intros [pageHeader |]; [| apply stops_ret].
  destruct (negb (cupsBitsPerPixel pageHeader =? 1)); [apply stops_ret |].
  apply (stops_bind 1 (fun p => is_failure (fst p)) _ (fun p => is_success (fst p))
           _ _ (DoPage_stops cfg pageHeader _));
    [| | intros p; apply is_failure_go].
  - intros [result buf'] Hr. cbn [fst] in Hr. unfold is_success in Hr. rewrite Hr.
    apply IH.
  - intros [result buf'] Hr. cbn [fst] in Hr. unfold is_success in Hr.
    exists result. split; [intros H; exact H |]. intros w. rewrite Hr. reflexivity.
Qed.

Lemma DoJob_pages_stops cfg : stops e rest rest' 1 is_failure (DoJob_pages cfg).
Proof.
  unfold DoJob_pages.
  apply (stops_bind 1 is_failure _ is_success _ _ (StartJob_stops cfg));
    [| | apply is_failure_go].
  - intros a Ha. unfold is_success in Ha. rewrite Ha.
    intros w1 w2 r w1' Hw Hrun.
    destruct Hw as (pre & Hpre & Hs & ->).
    apply (DoJob_loop_stops _ cfg None w1 _ r w1'); [| exact Hrun].
    exists pre. split; [exact Hpre |]. split; [exact Hs | reflexivity].
  - intros a Ha. unfold is_success in Ha. exists a. split; [intros H; exact H |].
    intros w. rewrite Ha. reflexivity.
Qed.

End FirstFailure.

(** ** Every stage returns *)

Lemma runs_ret {A : Type} (a : A) : runs (ret a).
Proof. intros w. exists a, w. split; reflexivity. Qed.

Lemma runs_bind {A B : Type} (m : M A) (k : A -> M B) :
  runs m -> (forall a, runs (k a)) -> runs (bind m k).
Proof.
  intros Hm Hk w. destruct (Hm w) as (a & w1 & Em & Hr1).
  destruct (Hk a w1) as (b & w2 & Ek & Hr2).
  exists b, w2. unfold bind. rewrite Em. split; [exact Ek | congruence].
Qed.

Lemma runs_g_TmCanceled : runs g_TmCanceled.
Proof.
  intros w. unfold g_TmCanceled.
  destruct (sigterm w) as [[| n] |]; eexists; eexists; split; reflexivity.
Qed.

Lemma runs_uninit_i : runs uninit_i.
Proof. intros w. eexists; eexists; split; reflexivity. Qed.

Lemma runs_open path : runs (open path).
Proof.
  intros w. unfold open.
  destruct (files w !! path) as [[| bytes] |]; eexists; eexists; split; reflexivity.
Qed.

Lemma wrap32_range z : 0 <= wrap32 z < 2 ^ 32.
Proof. unfold wrap32. apply Z.mod_pos_bound. lia. Qed.

Lemma to_int_positive z : 0 <= z < 2 ^ 32 -> 0 < to_int z -> to_int z = z.
Proof.
  intros Hz. unfold to_int. rewrite wrap32_small by lia.
  destruct (Z.ltb_spec z (2 ^ 31)); lia.
Qed.

Lemma WriteData_loop_runs fuel p_buffer size :
  0 <= size < 2 ^ 32 ->
  forall count w,
    0 <= count < 2 ^ 32 -> (length (sink w) + 2 <= fuel)%nat ->
    exists a w', WriteData_loop fuel p_buffer size count w = Some (a, w')
                 /\ raster w' = raster w.
Proof.
  intros Hsize. induction fuel as [| fuel IH]; intros count w Hc Hf; [lia |].
  cbn [WriteData_loop].
  destruct (Z.ltb_spec count size) as [Hlt | Hge];
    [| eexists; eexists; split; reflexivity].
  unfold bind at 1. unfold write.
  destruct (sink w) as [| [k | e'] s] eqn:Es; cbn [length] in Hf.
  - destruct (to_int (size - count) =? 0); [eexists; eexists; split; reflexivity |].
    destruct (Z.ltb_spec (to_int (size - count)) 0) as [Hneg | Hpos].
    + cbn [Z.eqb EINTR]. eexists; eexists; split; reflexivity.
    + destruct fuel as [| fuel]; [lia |]. cbn [WriteData_loop].
      destruct (Z.eq_dec (to_int (size - count)) 0) as [E0 | Hne].
      * rewrite E0, Z.add_0_r, wrap32_small by lia.
        destruct (Z.ltb_spec count size); [| lia].
        (* the same call again on a sink that took nothing: not reached,
           the result was not 0 *)
        unfold bind, write. cbn [sink set_output].
        rewrite E0. cbn [Z.eqb]. eexists; eexists; split; reflexivity.
      * rewrite to_int_positive by lia.
        replace (count + (size - count)) with size by lia.
        rewrite wrap32_small by lia.
        destruct (Z.ltb_spec size size); [lia |].
        eexists; eexists; split; reflexivity.
  - destruct (to_int (Z.max 0 (Z.min k (size - count))) =? 0);
      [eexists; eexists; split; reflexivity |].
    destruct (to_int (Z.max 0 (Z.min k (size - count))) <? 0).
    + cbn [Z.eqb EINTR]. eexists; eexists; split; reflexivity.
    + destruct (IH (wrap32 (count + to_int (Z.max 0 (Z.min k (size - count)))))
                  (set_output (stdout w ++ take (Z.to_nat (Z.max 0 (Z.min k (size - count))))
                                              (drop (Z.to_nat count) p_buffer)) s w))
        as (a & w' & Hrun & Hr); [apply wrap32_range | cbn; lia |].
      exists a, w'. split; [exact Hrun | exact Hr].
  - change (to_int (-1)) with (-1). cbn [Z.eqb Z.ltb Z.compare].
    destruct (e' =? EINTR); [| eexists; eexists; split; reflexivity].
    destruct (IH (wrap32 (count + -1)) (set_output (stdout w) s w))
      as (a & w' & Hrun & Hr); [apply wrap32_range | cbn; lia |].
    exists a, w'. split; [exact Hrun | exact Hr].
Qed.

Lemma runs_WriteData p_buffer size : 0 <= size < 2 ^ 32 -> runs (WriteData p_buffer size).
Proof.
  intros Hsize w. unfold WriteData.
  apply WriteData_loop_runs; [exact Hsize | lia | lia].
Qed.

Create HintDb runs.

#[local] Hint Resolve runs_ret runs_g_TmCanceled runs_uninit_i runs_open : runs.
#[local] Hint Extern 1 (runs (WriteData _ _)) => apply runs_WriteData; lia : runs.

(** One layer of a computation: a bind, a test, a pattern. *)
Ltac runs_step :=
  match goal with
  | |- runs (bind _ _) => apply runs_bind; [| intro]
  | |- runs (if ?c then _ else _) => destruct c
  | |- runs (match ?x with _ => _ end) => destruct x
  | |- runs (ret _) => apply runs_ret
  | |- runs _ => solve [auto with runs]
  end.

Lemma FeedPaper_loop_runs fuel Command :
  forall point,
    point <= 255 * Z.of_nat fuel -> (0 < fuel)%nat ->
    runs (FeedPaper_loop fuel Command point).
Proof.
  induction fuel as [| fuel IH]; intros point Hp Hf; [lia |].
  cbn [FeedPaper_loop]. destruct (Z.ltb_spec 255 point); [| apply runs_ret].
  assert (wrap32 (point - 255) <= point - 255) by (apply Z.mod_le; lia).
  repeat runs_step. apply IH; lia.
Qed.

Lemma runs_FeedPaper cfg hdr n : runs (FeedPaper cfg hdr n).
Proof.
  unfold FeedPaper. cbv zeta.
  destruct (FeedPaper_point cfg hdr n =? 0); [apply runs_ret |].
  apply runs_bind.
  - destruct (Z.le_gt_cases (FeedPaper_point cfg hdr n) 0) as [Hle | Hgt].
    + apply FeedPaper_loop_runs; lia.
    + pose proof (Z.div_mod (FeedPaper_point cfg hdr n) 255) as Hdm.
      pose proof (Z.mod_pos_bound (FeedPaper_point cfg hdr n) 255) as Hm.
      assert (0 <= FeedPaper_point cfg hdr n / 255) by (apply Z.div_pos; lia).
      apply FeedPaper_loop_runs; lia.
  - intros [result point]. repeat runs_step.
Qed.

#[local] Hint Resolve runs_FeedPaper : runs.

Lemma runs_close : runs close.
Proof.
  intros w. unfold close.
  destruct (sink w) as [| [k | e] s]; eexists; eexists; split; reflexivity.
Qed.

#[local] Hint Resolve runs_close : runs.

(** [m] returns, and what it returns has the property [P]. *)
Lemma runs_bind_post {A B : Type} (P : A -> Prop) (m : M A) (k : A -> M B) :
  runs m -> (forall w a w', m w = Some (a, w') -> P a) ->
  (forall a, P a -> runs (k a)) -> runs (bind m k).
Proof.
  intros Hm HP Hk w. destruct (Hm w) as (a & w1 & Em & Hr1).
  destruct (Hk a (HP w a w1 Em) w1) as (b & w2 & Ek & Hr2).
  exists b, w2. unfold bind. rewrite Em. split; [exact Ek | congruence].
Qed.

(** The loop of [ReadUserFile] returns: with a failure, or with the number
    of bytes in the buffer, which it took off the file. *)
Lemma ReadUserFile_loop_returns (B : Z) :
  0 <= B < 2 ^ 31 ->
  forall (answers : list sys_read) (fuel : nat) (bytes p_data : list Z) (total : Z),
    (length answers + 3 <= fuel)%nat -> 0 <= total <= B ->
    exists r p_data' answers' bytes',
      ReadUserFile_loop fuel answers bytes p_data B total
      = Some (r, p_data', answers', bytes')
      /\ (r = EPTMD_FAILED
          \/ (total <= r <= B
              /\ bytes' = drop (Z.to_nat (r - total)) bytes
              /\ r - total <= Z.of_nat (length bytes))).
Proof.
  intros HB. induction answers as [| a answers IH]; intros fuel bytes p_data total Hf Ht.
  - destruct fuel as [| [| fuel]]; [cbn in Hf; lia | cbn in Hf; lia |].
    cbn [ReadUserFile_loop].
    destruct (Z.ltb_spec total B) as [Hlt | Hge].
    + unfold read at 1.
      set (got := Z.min (B - total) (Z.of_nat (length bytes))).
      assert (Hgot : 0 <= got <= B - total) by (unfold got; lia).
      rewrite to_int_small by lia.
      destruct (Z.ltb_spec got 0); [lia |].
      destruct (Z.eqb_spec got 0) as [E0 | Hne].
      * eexists; eexists; eexists; eexists. split; [reflexivity |]. right.
        rewrite E0, Z.sub_diag. change (Z.to_nat 0) with 0%nat. rewrite !drop_0.
        split; [lia |]. split; [reflexivity | lia].
      * rewrite to_int_small by lia.
        destruct (Z.ltb_spec (total + got) B) as [Hlt2 | Hge2].
        -- assert (Hall : got = Z.of_nat (length bytes)) by (unfold got in *; lia).
           unfold read. rewrite length_drop.
           replace (Z.min (B - (total + got)) (Z.of_nat (length bytes - Z.to_nat got)))
             with 0 by lia.
           change (to_int 0) with 0. cbn [Z.ltb Z.eqb Z.compare].
           eexists; eexists; eexists; eexists. split; [reflexivity |]. right.
           change (Z.to_nat 0) with 0%nat. rewrite drop_0.
           replace (total + got - total) with got by lia.
           split; [lia |]. split; [reflexivity | lia].
        -- eexists; eexists; eexists; eexists. split; [reflexivity |]. right.
           replace (total + got - total) with got by lia.
           split; [lia |]. split; [reflexivity | unfold got; lia].
    + eexists; eexists; eexists; eexists. split; [reflexivity |]. right.
      rewrite Z.sub_diag. change (Z.to_nat 0) with 0%nat. rewrite drop_0.
      split; [lia |]. split; [reflexivity | lia].
  - destruct fuel as [| fuel]; [cbn in Hf; lia |]. cbn [length] in Hf.
    cbn [ReadUserFile_loop].
    destruct (Z.ltb_spec total B) as [Hlt | Hge].
    + unfold read at 1. destruct a as [k |].
      * set (got := Z.max 0 (Z.min k (Z.min (B - total) (Z.of_nat (length bytes))))).
        assert (Hgot : 0 <= got <= B - total /\ got <= Z.of_nat (length bytes))
          by (unfold got; lia).
        rewrite to_int_small by lia.
        destruct (Z.ltb_spec got 0); [lia |].
        destruct (Z.eqb_spec got 0) as [E0 | Hne].
        -- eexists; eexists; eexists; eexists. split; [reflexivity |]. right.
           rewrite E0, Z.sub_diag. change (Z.to_nat 0) with 0%nat. rewrite !drop_0.
           split; [lia |]. split; [reflexivity | lia].
        -- rewrite to_int_small by lia.
           destruct (IH fuel (drop (Z.to_nat got) bytes)
                       (memcpy p_data total bytes got) (total + got))
             as (r & q & answers' & bytes' & Hrun & Hres); [lia | lia |].
           exists r, q, answers', bytes'. split; [exact Hrun |].
           destruct Hres as [-> | (Hr & Hb & Hlen)]; [left; reflexivity | right].
           rewrite length_drop in Hlen.
           split; [lia |]. split; [| lia].
           rewrite Hb, drop_drop. f_equal. lia.
      * change (to_int (-1)) with (-1). cbn [Z.ltb Z.compare].
        eexists; eexists; eexists; eexists. split; [reflexivity |]. left. reflexivity.
    + eexists; eexists; eexists; eexists. split; [reflexivity |]. right.
      rewrite Z.sub_diag. change (Z.to_nat 0) with 0%nat. rewrite drop_0.
      split; [lia |]. split; [reflexivity | lia].
Qed.

Lemma ReadUserFile_fd_result bytes p_buffer B w size p_buffer' bytes' w' :
  0 <= B < 2 ^ 31 ->
  ReadUserFile_fd bytes p_buffer B w = Some ((size, p_buffer', bytes'), w') ->
  size = EPTMD_FAILED
  \/ (0 <= size <= B /\ bytes' = drop (Z.to_nat size) bytes
      /\ size <= Z.of_nat (length bytes)).
Proof.
  intros HB Hrun. unfold ReadUserFile_fd, ReadUserFile_calls in Hrun.
  destruct (ReadUserFile_loop_returns B HB (map as_read (sink w))
              (S (S (S (length (map as_read (sink w)))))) bytes p_buffer 0)
    as (r & q & answers' & b & Hloop & Hres); [lia | lia |].
  rewrite Hloop in Hrun. injection Hrun as <- <- <- <-.
  rewrite Z.sub_0_r in Hres. exact Hres.
Qed.

Lemma runs_ReadUserFile_fd bytes p_buffer B :
  0 <= B < 2 ^ 31 -> runs (ReadUserFile_fd bytes p_buffer B).
Proof.
  intros HB w. unfold ReadUserFile_fd, ReadUserFile_calls.
  destruct (ReadUserFile_loop_returns B HB (map as_read (sink w))
              (S (S (S (length (map as_read (sink w)))))) bytes p_buffer 0)
    as (r & q & answers' & b & Hloop & _); [lia | lia |].
  rewrite Hloop. eexists; eexists; split; reflexivity.
Qed.

Lemma WriteUserFile_loop_runs fuel :
  forall bytes, (length bytes < fuel)%nat -> runs (WriteUserFile_loop fuel bytes).
Proof.
  induction fuel as [| fuel IH]; intros bytes Hf; [lia |].
  cbn [WriteUserFile_loop]. cbv zeta.
  apply (runs_bind_post
           (fun r => fst (fst r) = EPTMD_FAILED
                     \/ (0 <= fst (fst r) <= 1024
                         /\ snd r = drop (Z.to_nat (fst (fst r))) bytes
                         /\ fst (fst r) <= Z.of_nat (length bytes)))).
  - apply runs_ReadUserFile_fd. lia.
  - intros w [[size data] bytes'] w' Hrun. cbn [fst snd].
    eapply ReadUserFile_fd_result; [| exact Hrun]. lia.
  - intros [[size data] bytes'] Hres. cbn [fst snd] in Hres.
    destruct (Z.ltb_spec size 0); [repeat runs_step |].
    destruct (Z.eqb_spec size 0); [repeat runs_step |].
    destruct Hres as [-> | (Hsize & -> & Hlen)]; [unfold EPTMD_FAILED in *; lia |].
    apply runs_bind; [apply runs_WriteData; lia |].
    intros result. destruct (negb (result =? EPTMD_SUCCESS)); [repeat runs_step |].
    apply IH. rewrite length_drop. lia.
Qed.

Lemma runs_WriteUserFile printer name : runs (WriteUserFile printer name).
Proof.
  unfold WriteUserFile. cbv zeta. apply runs_bind; [apply runs_open |].
  intros [[bytes |] errno]; [apply WriteUserFile_loop_runs; lia |].
  repeat runs_step.
Qed.

#[local] Hint Resolve runs_WriteUserFile : runs.

Lemma runs_WriteBand cfg hdr buf p_data lines : runs (WriteBand cfg hdr buf p_data lines).
Proof.
  unfold WriteBand. cbv zeta.
  apply runs_bind; [apply runs_WriteData; lia | intros r1].
  destruct (negb (r1 =? EPTMD_SUCCESS)); [apply runs_ret |].
  apply runs_bind; [apply runs_uninit_i | intros i].
  apply runs_bind; [apply runs_WriteData; apply wrap32_range | intros r2].
  repeat runs_step.
Qed.

#[local] Hint Resolve runs_WriteBand : runs.

Lemma WriteRaster_loop_runs fuel cfg hdr buf last :
  maxBandLines cfg = 8 -> last + 8 <= 2 ^ 32 ->
  forall line_no,
    0 <= line_no < last -> last - line_no <= 8 * Z.of_nat fuel ->
    runs (WriteRaster_loop fuel cfg hdr buf line_no last).
Proof.
  intros H8 Hlast. induction fuel as [| fuel IH]; intros line_no Hl Hf; [lia |].
  cbn [WriteRaster_loop]. rewrite H8. rewrite (wrap32_small (line_no + 8)) by lia.
  destruct (Z.ltb_spec (line_no + 8) last); [| apply runs_ret].
  repeat runs_step. apply IH; lia.
Qed.

Lemma runs_WriteRaster cfg hdr buf :
  maxBandLines cfg = 8 -> page_ok hdr -> runs (WriteRaster cfg hdr buf).
Proof.
  intros H8 (Hb & Hh & Hh8 & Hsz). unfold WriteRaster. cbv zeta.
  destruct (Z.eqb_spec (cupsHeight hdr) (FindBlackRasterLineTop hdr buf)) as [E | Hne];
    [repeat runs_step |].
  destruct (printable_range_bounds hdr buf) as (Ht0 & Htb & Hbh);
    [lia | split; lia | lia | congruence |].
  rewrite (wrap32_small (FindBlackRasterLineEnd hdr buf + 1)) by lia.
  apply runs_bind; [repeat runs_step | intros r1].
  destruct (negb (r1 =? EPTMD_SUCCESS)); [apply runs_ret |].
  apply runs_bind; [apply WriteRaster_loop_runs; lia | intros [r2 line_no]].
  repeat runs_step.
Qed.

Lemma runs_StartPage cfg : runs (StartPage cfg).
Proof. unfold StartPage. cbv zeta. repeat runs_step. Qed.

Lemma runs_EndPage cfg hdr : runs (EndPage cfg hdr).
Proof. unfold EndPage. cbv zeta. repeat runs_step. Qed.

Lemma runs_cupsRasterReadPixels p n : runs (cupsRasterReadPixels p n).
Proof.
  intros w. unfold cupsRasterReadPixels.
  destruct (pixels w); eexists; eexists; split; reflexivity.
Qed.

Lemma ReadRaster_loop_runs n hdr :
  forall i p_data buf, runs (ReadRaster_loop n hdr i p_data buf).
Proof.
  induction n as [| n IH]; intros i p_data buf; [apply runs_ret |].
  cbn [ReadRaster_loop]. cbv zeta.
  apply runs_bind; [apply runs_g_TmCanceled | intros [|]]; [apply runs_ret |].
  apply runs_bind; [apply runs_cupsRasterReadPixels | intros [num p_data']].
  destruct (num <? cupsBytesPerLine hdr); [apply runs_ret | apply IH].
Qed.

Lemma runs_DoPage cfg hdr buf :
  maxBandLines cfg = 8 -> page_ok hdr -> runs (DoPage cfg hdr buf).
Proof.
  intros H8 Hok. unfold DoPage.
  apply runs_bind; [apply runs_StartPage | intros r1].
  apply runs_bind;
    [destruct (r1 =? EPTMD_SUCCESS); [apply ReadRaster_loop_runs | apply runs_ret] |].
  intros [r2 buf'].
  apply runs_bind;
    [destruct (r2 =? EPTMD_SUCCESS); [apply runs_WriteRaster; assumption | apply runs_ret] |].
  intros r3.
  apply runs_bind;
    [destruct (r3 =? EPTMD_SUCCESS); [apply runs_EndPage | apply runs_ret] |].
  intros r4. apply runs_ret.
Qed.

Lemma runs_StartJob cfg : runs (StartJob cfg).
Proof.
  assert (runs (OpenDrawer cfg)) by (unfold OpenDrawer; repeat runs_step).
  assert (runs (SoundBuzzer cfg)) by (unfold SoundBuzzer; cbv zeta; repeat runs_step).
  unfold StartJob. cbv zeta.
  repeat (first [assumption | runs_step]).
Qed.

Lemma runs_EndJob cfg : runs (EndJob cfg).
Proof. unfold EndJob. repeat runs_step. Qed.

(** The page loop returns when every page of the stream has sizes that do
    not wrap. *)
Lemma DoJob_loop_returns fuel cfg :
  maxBandLines cfg = 8 ->
  forall buffer w,
    (length (raster w) < fuel)%nat ->
    Forall (fun pg => page_ok (page_header pg)) (raster w) ->
    exists a w', DoJob_loop fuel cfg buffer w = Some (a, w').
Proof.
  intros H8. induction fuel as [| fuel IH]; intros buffer w Hf Hok; [lia |].
  cbn [DoJob_loop]. unfold bind at 1. unfold cupsRasterReadHeader.
  destruct (raster w) as [| pg pages] eqn:Er; [eexists; eexists; reflexivity |].
  inversion Hok as [| ? ? Hpg Hpages]; subst.
  destruct (negb (cupsBitsPerPixel (page_header pg) =? 1));
    [eexists; eexists; reflexivity |].
  set (buffer' := match buffer with Some b => b | None => _ end).
  destruct (runs_DoPage cfg (page_header pg) buffer' H8 Hpg
              (set_raster pages (page_pixels pg) w))
    as ([result buf'] & w1 & Hrun & Hr).
  unfold bind. rewrite Hrun.
  destruct (result =? EPTMD_SUCCESS); [| eexists; eexists; reflexivity].
  apply IH.
  - rewrite Hr. cbn in *. lia.
  - rewrite Hr. exact Hpages.
Qed.

Lemma DoJob_pages_returns cfg w :
  maxBandLines cfg = 8 ->
  Forall (fun pg => page_ok (page_header pg)) (raster w) ->
  exists a w', DoJob_pages cfg w = Some (a, w').
Proof.
  intros H8 Hok. unfold DoJob_pages.
  destruct (runs_StartJob cfg w) as (r1 & w1 & Hrun & Hr).
  unfold bind. rewrite Hrun.
  destruct (r1 =? EPTMD_SUCCESS); [| eexists; eexists; reflexivity].
  apply DoJob_loop_returns; [exact H8 | lia | rewrite Hr; exact Hok].
Qed.

Lemma WriteData_fatal p_buffer size e rest w :
  e <> EINTR -> 0 < size -> sink w = WriteErr e :: rest ->
  WriteData p_buffer size w = Some (-1, set_output (stdout w) rest w).
Proof.
  intros He Hsize Hs. unfold WriteData. rewrite Hs. cbn [length WriteData_loop].
  destruct (Z.ltb_spec 0 size); [| lia].
  unfold bind, write. rewrite Hs.
  change (to_int (-1)) with (-1). cbn [Z.eqb Z.ltb Z.compare].
  destruct (Z.eqb_spec e EINTR); [contradiction | reflexivity].
Qed.

(** What the loop of [WriteData] does with an interrupted call: the
    increment [count += result] runs with [result] at -1.  Interrupted at
    the first call it gives up with a failure; interrupted after two of
    three bytes it goes one byte back and writes that byte again. *)
Lemma WriteData_interrupted :
  WriteData [1; 2; 3] 3 (set_output [] [WriteErr EINTR] (example_world []))
  = Some (EPTMD_FAILED, example_world [])
  /\ WriteData [1; 2; 3] 3 (set_output [] [Wrote 2; WriteErr EINTR] (example_world []))
     = Some (EPTMD_SUCCESS, set_output [1; 2; 2; 3] [] (example_world [])).
Proof. split; vm_compute; reflexivity. Qed.

Lemma page_of_size_ok (size : Z) (pages : list cups_page) :
  Forall (page_of_size size) pages ->
  Forall (fun pg => page_ok (page_header pg)) pages.
Proof.
  induction 1 as [| pg pages Hpg _ IH]; constructor; [| exact IH].
  destruct Hpg as (_ & _ & Hb & _ & Hh0 & Hh8 & Hsize & Hsz & _).
  cbv zeta in *. unfold page_ok. repeat split; lia.
Qed.

Lemma ahead_not_failed e rest pre k w :
  sink w = pre ++ WriteErr e :: rest -> sink w = drop k rest -> False.
Proof.
  intros H1 H2. rewrite H1 in H2. apply (f_equal length) in H2.
  rewrite length_app, length_drop in H2. cbn [length] in H2. lia.
Qed.

(** C9 (as the code has it).  A failure of [write] other than an interrupted
    call makes [WriteData] return -1 at once, with no further call.  For
    every job (bands of 8 lines, pages of one buffer size) run on a script
    whose first failure other than EINTR comes after the entries [pre],
    [DoJob] returns, and it is the pages part ([StartJob] and the page
    loop) followed by [EndJob].  Either the pages part ends before the
    failing call.  Or it makes the failing call and returns a failure code
    (neither success nor the cancellation), which is the result of the job,
    with the exit status -1; and it writes nothing after the failing call:
    whatever the script holds after the failing entry, the pages part
    returns the same result with the same output, having used at most one
    of those entries (the [close] of the user file that was being copied).
    What is still written after the failure is what [EndJob] writes. *)
Theorem write_failure_stops_pages (cfg : EPTMS_CONFIG_T) (e : Z)
    (pre rest : list sys_write) (size : Z) (w : World) :
  e <> EINTR -> Forall (fun r => ~ fatal r) pre ->
  sink w = pre ++ WriteErr e :: rest ->
  maxBandLines cfg = 8 ->
  Forall (page_of_size size) (raster w) ->
  (forall p_buffer n w0,
      0 < n -> sink w0 = WriteErr e :: rest ->
      WriteData p_buffer n w0 = Some (-1, set_output (stdout w0) rest w0))
  /\ exists r1 w1 r2 w',
      DoJob_pages cfg w = Some (r1, w1)
      /\ EndJob cfg w1 = Some (r2, w')
      /\ ((ahead e rest w1
           /\ DoJob cfg w = Some (if r1 =? EPTMD_SUCCESS then r2 else r1, w'))
          \/ (is_failure r1 = true
              /\ DoJob cfg w = Some (r1, w')
              /\ main cfg w = Some (-1, w')
              /\ forall rest', exists w1',
                   DoJob_pages cfg (with_script (pre ++ WriteErr e :: rest') w)
                   = Some (r1, w1')
                   /\ stdout w1' = stdout w1
                   /\ suffix (sink w1') rest'
                   /\ (length rest' <= length (sink w1') + 1)%nat)).
Proof.
  intros He Hpre Hs H8 Hall.
  split; [intros p_buffer n w0 Hn Hs0;
          apply (WriteData_fatal p_buffer n e rest w0); assumption |].
  destruct (DoJob_pages_returns cfg w H8 (page_of_size_ok size _ Hall))
    as (r1 & w1 & Hpages).
  destruct (runs_EndJob cfg w1) as (r2 & w' & Hend & _).
  exists r1, w1, r2, w'.
  split; [exact Hpages |]. split; [exact Hend |].
  assert (Hjob : DoJob cfg w = Some (if r1 =? EPTMD_SUCCESS then r2 else r1, w')).
  { unfold DoJob. rewrite (bind_Some _ _ _ _ _ Hpages).
    destruct (r1 =? EPTMD_SUCCESS); cbn [negb]; [exact Hend |].
    rewrite (bind_Some _ _ _ _ _ Hend). reflexivity. }
  assert (Hrel : forall rest',
             exists w2',
               DoJob_pages cfg (with_script (pre ++ WriteErr e :: rest') w) = Some (r1, w2')
               /\ (ahead_in_both e rest rest' w1 w2'
                   \/ (failed_in_both 1 rest rest' w1 w2' /\ is_failure r1 = true))).
  { intros rest'.
    apply (DoJob_pages_stops e rest rest' He cfg w _ r1 w1); [| exact Hpages].
    exists pre. split; [exact Hpre |]. split; [exact Hs | reflexivity]. }
  destruct (Hrel rest) as (_ & _ & [(pre1 & Hpre1 & Hs1 & _) | [(k & Hk & Hs1 & _) Hbad]]).
  - left. split; [exists pre1; split; assumption | exact Hjob].
  - right. split; [exact Hbad |].
    pose proof (is_failure_go _ Hbad) as Hgo. unfold is_success in Hgo.
    rewrite Hgo in Hjob.
    split; [exact Hjob |].
    split; [unfold main; rewrite (bind_Some _ _ _ _ _ Hjob);
            rewrite (is_failure_status _ Hbad); reflexivity |].
    intros rest'.
    destruct (Hrel rest')
      as (w2' & Hrun2 & [(pre2 & _ & Hs2 & _) | [(k' & Hk' & _ & ->) _]]).
    + exfalso. exact (ahead_not_failed e rest pre2 k w1 Hs2 Hs1).
    + eexists. split; [exact Hrun2 |]. split; [reflexivity |].
      cbn [with_script set_output sink].
      split; [apply suffix_drop | rewrite length_drop; lia].
Qed.

(** The job of the five-band page whose thirteenth call of [write], the
    command of the third band, fails with EIO (5): the pages part returns
    3403 with the job start, the page start and two bands on the sink, the
    two entries after the failing one are still in the script when it
    returns, and the job returns 3403, the exit status -1. *)
Lemma write_failure_stops_pages_witness :
  exists w1 w',
    DoJob_pages (example_config TmPaperReductionOff) failing_page_world = Some (3403, w1)
    /\ sink w1 = [Wrote 7; Wrote 7]
    /\ stdout w1
       = job_prologue (example_config TmPaperReductionOff) ++ page_prologue
         ++ [ESC; 0x2a; 1; 8; 0; 0xff; 0xff; 0xff; 0xff; 0xff; 0xff; 0xff; 0xff;
             ESC; 0x4a; 10]
         ++ [ESC; 0x2a; 1; 8; 0; 0xff; 0xff; 0xff; 0xff; 0xff; 0xff; 0xff; 0xff;
             ESC; 0x4a; 10]
    /\ DoJob (example_config TmPaperReductionOff) failing_page_world = Some (3403, w')
    /\ main (example_config TmPaperReductionOff) failing_page_world = Some (-1, w').
Proof.
  destruct (write_failure_stops_pages (example_config TmPaperReductionOff) 5
              (replicate 12 (Wrote 4096)) [Wrote 7; Wrote 7] 40 failing_page_world)
    as (_ & r1 & w1 & r2 & w' & Hpages & _ & Hcases).
  - discriminate.
  - repeat constructor; intros [].
  - reflexivity.
  - reflexivity.
  - repeat constructor; try reflexivity; try (cbn; lia).
  - pose proof Hpages as Hv. vm_compute in Hv. injection Hv as Hr Hw1. subst r1.
    destruct Hcases as [[(pre1 & Hs1 & _) _] | (_ & Hjob & Hmain & _)].
    + exfalso. rewrite <- Hw1 in Hs1. apply (f_equal length) in Hs1.
      rewrite length_app in Hs1. cbn in Hs1. lia.
    + exists w1, w'. split; [exact Hpages |].
      split; [rewrite <- Hw1; reflexivity |].
      split; [rewrite <- Hw1; vm_compute; reflexivity |].
      split; [exact Hjob | exact Hmain].
Defined.

(** C9 as stated fails: the first call of [write] of the job fails with EIO,
    the job returns the failure 2101, and the bytes of [EndJob.prn] are on
    the sink all the same. *)
Lemma bytes_written_after_write_failure :
  result_of (DoJob (example_config TmPaperReductionOff) failing_world) = Some 2101
  /\ output_of (DoJob (example_config TmPaperReductionOff) failing_world)
     = [0x41; 0x42]
  /\ output_of (DoJob_pages (example_config TmPaperReductionOff) failing_world) = [].
Proof. repeat split; vm_compute; reflexivity. Qed.

(** ** Cancellation *)

Lemma advance_set_raster b p k r px w :
  advance b p k (set_raster r px w) = set_raster r px (advance b p k w).
Proof. reflexivity. Qed.

Ltac healthy_write n :=
  erewrite bind_Some; [| apply (WriteData_healthy _ n); [assumption | reflexivity | reflexivity]];
  change (negb (EPTMD_SUCCESS =? EPTMD_SUCCESS)) with false; cbv iota;
  rewrite ?advance_advance.

Lemma OpenDrawer_healthy cfg w :
  sink w = [] ->
  OpenDrawer cfg w
  = Some (EPTMD_SUCCESS,
          advance match drawerControl cfg with
                  | TmDrawerNotUsed => []
                  | TmDrawer1 => [ESC; 0x70; 0; 50; 200]
                  | TmDrawer2 => [ESC; 0x70; 1; 50; 200]
                  end 0 0 w).
Proof.
  intros Hs. unfold OpenDrawer. destruct (drawerControl cfg).
  - rewrite bool_decide_eq_true_2 by reflexivity. unfold ret.
    rewrite advance_nil. reflexivity.
  - rewrite bool_decide_eq_false_2 by discriminate.
    apply (WriteData_healthy _ 5 w Hs); reflexivity.
  - rewrite bool_decide_eq_false_2 by discriminate.
    apply (WriteData_healthy _ 5 w Hs); reflexivity.
Qed.

Lemma SoundBuzzer_healthy cfg w :
  sink w = [] ->
  SoundBuzzer cfg w
  = Some (EPTMD_SUCCESS,
          advance match buzzerControl cfg with
                  | TmBuzzerNotUsed => []
                  | TmBuzzerInternal => [ESC; 0x70; 1; 50; 200]
                  | TmBuzzerExternal => [ESC; 0x28; 0x41; 5; 0; 97; 100; 1; 50; 200]
                  end 0 0 w).
Proof.
  intros Hs. unfold SoundBuzzer. cbv zeta. destruct (buzzerControl cfg).
  - rewrite bool_decide_eq_true_2 by reflexivity. unfold ret.
    rewrite advance_nil. reflexivity.
  - rewrite bool_decide_eq_false_2 by discriminate.
    rewrite bool_decide_eq_true_2 by reflexivity.
    healthy_write 5. reflexivity.
  - rewrite !bool_decide_eq_false_2 by discriminate.
    rewrite bool_decide_eq_true_2 by reflexivity.
    healthy_write 10. reflexivity.
Qed.

(** Once the flag is set, [EndPage] and [EndJob] return the cancellation
    result and leave the world as it is. *)
Lemma EndPage_canceled cfg hdr w :
  sigterm w = Some 0%nat -> EndPage cfg hdr w = Some (EPTMD_CANCEL, w).
Proof.
  intros H. unfold EndPage, bind, g_TmCanceled. rewrite H. reflexivity.
Qed.

Lemma EndJob_canceled cfg w :
  sigterm w = Some 0%nat -> EndJob cfg w = Some (EPTMD_CANCEL, w).
Proof.
  intros H. unfold EndJob, bind, g_TmCanceled. rewrite H. reflexivity.
Qed.

(** ** Reading a page *)

Lemma ReadRaster_loop_healthy hdr (n : nat) :
  forall i p_data buf w lines,
    pixels w = lines -> length lines = n ->
    Forall (fun l => Z.of_nat (length l) = cupsBytesPerLine hdr) lines ->
    Z.of_nat (length p_data) = cupsBytesPerLine hdr ->
    0 <= i -> i + Z.of_nat n = cupsHeight hdr ->
    Z.of_nat (length buf) = cupsBytesPerLine hdr * cupsHeight hdr ->
    cupsBytesPerLine hdr * cupsHeight hdr < 2 ^ 32 ->
    quiet_for n w ->
    ReadRaster_loop n hdr i p_data buf w
    = Some ((EPTMD_SUCCESS,
             take (Z.to_nat (cupsBytesPerLine hdr * i)) buf ++ concat lines),
            set_raster (raster w) [] (advance [] n 0 w)).
Proof.
  induction n as [| n IH]; intros i p_data buf w lines Hpx Hn Hall Hp Hi Hin Hlen Hsz Hq.
  - destruct lines; [| discriminate]. cbn [ReadRaster_loop concat].
    unfold ret. rewrite advance_nil, app_nil_r, take_ge by lia.
    destruct w; cbn in *; subst; reflexivity.
  - destruct lines as [| line lines]; [discriminate |].
    inversion Hall as [| ? ? Hline Hrest]; subst.
    assert (Hb : 0 <= cupsBytesPerLine hdr) by lia.
    cbn [ReadRaster_loop]. cbv zeta.
    rewrite (bind_Some _ _ _ _ _ (g_TmCanceled_spec w)).
    assert (Hflag : match sigterm w with Some O => true | _ => false end = false).
    { unfold quiet_for in Hq.
      destruct (sigterm w) as [[| t] |]; [lia | reflexivity | reflexivity]. }
    rewrite Hflag.
    unfold bind at 1. unfold cupsRasterReadPixels.
    change (pixels (advance [] 1 0 w)) with (pixels w). rewrite Hpx.
    rewrite (take_ge line) by lia.
    rewrite (drop_ge p_data) by lia. rewrite app_nil_r.
    destruct (Z.ltb_spec (Z.of_nat (length line)) (cupsBytesPerLine hdr)); [lia |].
    unfold TransferRaster, memcpy.
    rewrite (wrap32_small (cupsBytesPerLine hdr * i)) by nia.
    destruct (Z.ltb_spec (cupsBytesPerLine hdr * i) 0); [nia |].
    destruct (Z.ltb_spec (Z.of_nat (length buf))
                (cupsBytesPerLine hdr * i + cupsBytesPerLine hdr)); [nia |].
    cbn [orb]. rewrite (take_ge line) by lia.
    rewrite (IH (i + 1) line _ _ lines); try assumption; try lia.
    + rewrite advance_set_raster, advance_advance.
      match goal with
      | |- context [take ?k (?a ++ line ++ ?d)] =>
          replace (take k (a ++ line ++ d)) with (a ++ line)
      end.
      * cbn [concat]. rewrite <- app_assoc. reflexivity.
      * symmetry. rewrite app_assoc. apply take_app_length'.
        try (rewrite length_app, length_take_le by nia; nia).
    + reflexivity.
    + inversion Hn. reflexivity.
    + rewrite !length_app, length_take_le, length_drop by nia. nia.
    + unfold quiet_for in *. cbn. destruct (sigterm w); cbn; [lia | exact I].
Qed.

Lemma ReadRaster_healthy hdr buf w :
  length (pixels w) = Z.to_nat (cupsHeight hdr) ->
  Forall (fun l => Z.of_nat (length l) = cupsBytesPerLine hdr) (pixels w) ->
  0 <= cupsBytesPerLine hdr -> 0 <= cupsHeight hdr ->
  Z.of_nat (length buf) = cupsBytesPerLine hdr * cupsHeight hdr ->
  cupsBytesPerLine hdr * cupsHeight hdr < 2 ^ 32 ->
  quiet_for (Z.to_nat (cupsHeight hdr)) w ->
  ReadRaster hdr buf w
  = Some ((EPTMD_SUCCESS, concat (pixels w)),
          set_raster (raster w) [] (advance [] (Z.to_nat (cupsHeight hdr)) 0 w)).
Proof.
  intros Hn Hall Hb Hh Hlen Hsz Hq. unfold ReadRaster. cbv zeta.
  rewrite (ReadRaster_loop_healthy hdr _ 0 _ buf w (pixels w));
    try assumption; try reflexivity; try lia.
  - rewrite Z.mul_0_r. reflexivity.
  - rewrite length_replicate. lia.
Qed.

(** * Further properties of the code *)

(** ** [WriteData] on short, empty and interrupted writes *)

Lemma set_output_same w : set_output (stdout w) (sink w) w = w.
Proof. destruct w; reflexivity. Qed.

Lemma taken_nonneg pre : Forall short_write pre -> 0 <= taken pre.
Proof.
  induction 1 as [| r pre Hr _ IH]; [reflexivity |].
  unfold taken in *. cbn [map sum_list fold_right].
  fold (sum_list (map (fun r => match r with Wrote k => k | WriteErr _ => 0 end) pre)).
  destruct r; cbn in Hr; lia.
Qed.

Lemma taken_cons k pre : taken (Wrote k :: pre) = k + taken pre.
Proof. reflexivity. Qed.

(** Calls that each take at least one byte are repeated until the whole
    buffer is on the sink. *)
Lemma WriteData_loop_short_writes (p_buffer : list Z) (size : Z) :
  size = Z.of_nat (length p_buffer) -> size < 2 ^ 31 ->
  forall s : list sys_write, Forall short_write s ->
  forall (fuel : nat) (count : Z) (w : World),
    sink w = s -> (S (length s) < fuel)%nat -> 0 <= count <= size ->
    exists s', suffix s' s
      /\ WriteData_loop fuel p_buffer size count w
         = Some (EPTMD_SUCCESS,
                 set_output (stdout w ++ drop (Z.to_nat count) p_buffer) s' w).
Proof.
  intros Hsize Hlt s Hall.
  induction Hall as [| r s Hr Hall IH]; intros fuel count w Hs Hf Hc.
  - destruct fuel as [| [| fuel]]; [cbn in Hf; lia | cbn in Hf; lia |].
    exists []. split; [reflexivity |].
    cbn [WriteData_loop].
    destruct (Z.ltb_spec count size) as [Hlt' | Hge].
    + unfold bind at 1. unfold write. rewrite Hs.
      rewrite to_int_small by lia.
      destruct (Z.eqb_spec (size - count) 0); [lia |].
      destruct (Z.ltb_spec (size - count) 0); [lia |].
      rewrite wrap32_small by lia.
      replace (count + (size - count)) with size by lia.
      rewrite Z.ltb_irrefl. unfold ret, result_of_count. rewrite Z.eqb_refl.
      rewrite take_ge by (rewrite length_drop; lia). reflexivity.
    + unfold ret, result_of_count.
      replace count with size by lia. rewrite Z.eqb_refl.
      rewrite drop_ge, app_nil_r by lia. rewrite <- Hs, set_output_same. reflexivity.
  - destruct r as [k | e]; [| contradiction]. cbn in Hr.
    destruct fuel as [| fuel]; [lia |]. cbn [length] in Hf.
    cbn [WriteData_loop].
    destruct (Z.ltb_spec count size) as [Hlt' | Hge].
    + unfold bind at 1. unfold write. rewrite Hs.
      set (k' := Z.max 0 (Z.min k (size - count))).
      assert (Hk' : 1 <= k' <= size - count) by (unfold k'; lia).
      rewrite to_int_small by lia.
      destruct (Z.eqb_spec k' 0); [lia |].
      destruct (Z.ltb_spec k' 0); [lia |].
      rewrite wrap32_small by lia.
      destruct (IH fuel (count + k')
                  (set_output (stdout w ++ take (Z.to_nat k') (drop (Z.to_nat count) p_buffer))
                     s w)) as (s' & Hsuf & Hrun); [reflexivity | lia | lia |].
      exists s'. split; [apply suffix_cons_r; exact Hsuf |].
      rewrite Hrun. f_equal. f_equal. unfold set_output. cbn.
      f_equal. rewrite <- app_assoc. f_equal.
      replace (Z.to_nat (count + k')) with (Z.to_nat count + Z.to_nat k')%nat by lia.
      rewrite <- drop_drop. apply take_drop.
    + exists (Wrote k :: s). split; [reflexivity |].
      unfold ret, result_of_count.
      replace count with size by lia. rewrite Z.eqb_refl.
      rewrite drop_ge, app_nil_r by lia. rewrite <- Hs, set_output_same. reflexivity.
Qed.

(** The calls of a script that each take all they are allowed, while less
    than the buffer has been taken: the loop is where the script ends. *)
Lemma WriteData_loop_prefix (p_buffer : list Z) (size : Z) :
  size = Z.of_nat (length p_buffer) -> size < 2 ^ 31 ->
  forall pre : list sys_write, Forall short_write pre ->
  forall (fuel : nat) (count : Z) (w : World) (tail : list sys_write),
    sink w = pre ++ tail -> 0 <= count -> count + taken pre < size ->
    WriteData_loop (length pre + fuel) p_buffer size count w
    = WriteData_loop fuel p_buffer size (count + taken pre)
        (set_output
           (stdout w ++ take (Z.to_nat (taken pre)) (drop (Z.to_nat count) p_buffer))
           tail w).
Proof.
  intros Hsize Hlt pre Hall.
  induction Hall as [| r pre Hr Hall IH]; intros fuel count w tail Hs Hc Ht.
  - cbn [length Nat.add app] in *. change (taken []) with 0.
    rewrite Z.add_0_r. change (Z.to_nat 0) with 0%nat. rewrite take_0, app_nil_r.
    rewrite <- Hs, set_output_same. reflexivity.
  - destruct r as [k | e]; [| contradiction]. cbn in Hr.
    rewrite taken_cons in *. pose proof (taken_nonneg pre Hall) as Hpos.
    cbn [length Nat.add WriteData_loop].
    destruct (Z.ltb_spec count size); [| lia].
    unfold bind at 1. unfold write. rewrite Hs. cbn [app].
    replace (Z.max 0 (Z.min k (size - count))) with k by lia.
    rewrite to_int_small by lia.
    destruct (Z.eqb_spec k 0); [lia |].
    destruct (Z.ltb_spec k 0); [lia |].
    rewrite wrap32_small by lia.
    rewrite (IH fuel (count + k) _ tail); [| reflexivity | lia | lia].
    f_equal; [lia |]. unfold set_output. cbn. f_equal.
    rewrite <- app_assoc. f_equal.
    replace (Z.to_nat (count + k)) with (Z.to_nat count + Z.to_nat k)%nat by lia.
    rewrite <- drop_drop.
    replace (Z.to_nat (k + taken pre)) with (Z.to_nat k + Z.to_nat (taken pre))%nat by lia.
    apply take_take_drop.
Qed.

(** X1.  Short writes are resumed: on a sink whose calls of [write] each
    take at least one byte, however few, [WriteData] returns success with
    exactly the bytes of the buffer on the sink, in order, nothing lost and
    nothing twice. *)
Theorem WriteData_short_writes (p_buffer : list Z) (size : Z) (w : World) :
  Forall short_write (sink w) ->
  size = Z.of_nat (length p_buffer) -> size < 2 ^ 31 ->
  exists s', suffix s' (sink w)
    /\ WriteData p_buffer size w
       = Some (EPTMD_SUCCESS, set_output (stdout w ++ p_buffer) s' w).
Proof.
  intros Hall Hsize Hlt. unfold WriteData.
  destruct (WriteData_loop_short_writes p_buffer size Hsize Hlt (sink w) Hall
              (S (S (length (sink w)))) 0 w) as (s' & Hsuf & Hrun);
    [reflexivity | lia | lia |].
  exists s'. split; [exact Hsuf |]. rewrite Hrun. reflexivity.
Qed.

(** Seven bytes on a sink that takes 1, then 2, then up to 100 bytes a call. *)
Lemma WriteData_short_writes_witness :
  exists s',
    WriteData [GS; 0x28; 0x47; 2; 0; 84; 1] 7
      (set_output [] [Wrote 1; Wrote 2; Wrote 100; Wrote 5] (example_world []))
    = Some (EPTMD_SUCCESS,
            set_output [GS; 0x28; 0x47; 2; 0; 84; 1] s' (example_world [])).
Proof.
  destruct (WriteData_short_writes [GS; 0x28; 0x47; 2; 0; 84; 1] 7
              (set_output [] [Wrote 1; Wrote 2; Wrote 100; Wrote 5] (example_world [])))
    as (s' & _ & Hrun).
  - repeat constructor; cbn; lia.
  - reflexivity.
  - reflexivity.
  - exists s'. exact Hrun.
Defined.

(** X2.  A call of [write] that takes nothing ends the loop: when, after
    calls that took [taken pre] bytes in all, fewer than the buffer holds, a
    call returns 0, [WriteData] returns [EPTMD_FAILED] without a further
    call, and the bytes taken so far stay on the sink. *)
Theorem WriteData_zero_write (p_buffer : list Z) (size : Z) (w : World)
    (pre tail : list sys_write) (k : Z) :
  size = Z.of_nat (length p_buffer) -> size < 2 ^ 31 ->
  Forall short_write pre -> taken pre < size -> k <= 0 ->
  sink w = pre ++ Wrote k :: tail ->
  WriteData p_buffer size w
  = Some (EPTMD_FAILED,
          set_output (stdout w ++ take (Z.to_nat (taken pre)) p_buffer) tail w).
Proof.
  intros Hsize Hlt Hall Ht Hk Hs. unfold WriteData. rewrite Hs.
  pose proof (taken_nonneg pre Hall) as Hpos.
  replace (S (S (length (pre ++ Wrote k :: tail))))
    with (length pre + S (S (S (length tail))))%nat
    by (rewrite length_app; cbn [length]; lia).
  rewrite (WriteData_loop_prefix p_buffer size Hsize Hlt pre Hall _ 0 w (Wrote k :: tail) Hs)
    by lia.
  change (Z.to_nat 0) with 0%nat. rewrite drop_0, Z.add_0_l.
  cbn [WriteData_loop].
  destruct (Z.ltb_spec (taken pre) size); [| lia].
  unfold bind at 1. unfold write. cbn [sink set_output].
  replace (Z.max 0 (Z.min k (size - taken pre))) with 0 by lia.
  change (to_int 0) with 0. cbn [Z.eqb].
  unfold ret, result_of_count.
  destruct (Z.eqb_spec (taken pre) size); [lia |].
  change (Z.to_nat 0) with 0%nat. rewrite take_0, app_nil_r. reflexivity.
Qed.

(** Three bytes, of which the sink takes two before a call returns 0. *)
Lemma WriteData_zero_write_witness :
  WriteData [ESC; 0x4a; 10] 3
    (set_output [] [Wrote 2; Wrote 0; Wrote 9] (example_world []))
  = Some (EPTMD_FAILED, set_output [ESC; 0x4a] [Wrote 9] (example_world [])).
Proof.
  apply (WriteData_zero_write [ESC; 0x4a; 10] 3
           (set_output [] [Wrote 2; Wrote 0; Wrote 9] (example_world []))
           [Wrote 2] [Wrote 9] 0).
  - reflexivity.
  - reflexivity.
  - repeat constructor. cbn. lia.
  - cbn. lia.
  - lia.
  - reflexivity.
Defined.

(** X3.  An interrupted first call is not repeated.  When the first call of
    [write] for a buffer fails with EINTR, the increment of the [for]
    statement adds the -1 to the count of 0, the count is [UINT_MAX], the
    loop ends, and [WriteData] returns [EPTMD_FAILED] with nothing written
    and no second call. *)
Theorem WriteData_interrupted_first_call (p_buffer : list Z) (size : Z) (w : World)
    (tail : list sys_write) :
  0 < size < 2 ^ 32 - 1 ->
  sink w = WriteErr EINTR :: tail ->
  WriteData p_buffer size w = Some (EPTMD_FAILED, set_output (stdout w) tail w).
Proof.
  intros Hsize Hs. unfold WriteData. rewrite Hs. cbn [length WriteData_loop].
  destruct (Z.ltb_spec 0 size); [| lia].
  unfold bind at 1. unfold write. rewrite Hs.
  change (to_int (-1)) with (-1). cbn [Z.eqb Z.ltb Z.compare].
  change (EINTR =? EINTR) with true. cbv iota.
  change (wrap32 (0 + -1)) with (2 ^ 32 - 1).
  destruct (Z.ltb_spec (2 ^ 32 - 1) size); [lia |].
  unfold ret, result_of_count.
  destruct (Z.eqb_spec (2 ^ 32 - 1) size); [lia | reflexivity].
Qed.

(** The first command of a job on a sink whose first call is interrupted. *)
Lemma WriteData_interrupted_first_call_witness :
  WriteData [ESC; 0x3d; 0x01; ESC; 0x40] 5
    (set_output [] [WriteErr EINTR] (example_world []))
  = Some (EPTMD_FAILED, example_world []).
Proof.
  apply (WriteData_interrupted_first_call [ESC; 0x3d; 0x01; ESC; 0x40] 5
           (set_output [] [WriteErr EINTR] (example_world [])) []).
  - lia.
  - reflexivity.
Defined.

(** X4.  An interrupted later call sends a byte twice.  When calls have
    taken [c] bytes, [0 < c < size], and the next call fails with EINTR,
    the count goes back to [c - 1]; with calls that take at least one byte
    from then on, [WriteData] returns success and the sink holds the first
    [c] bytes of the buffer followed by the buffer from byte [c - 1] on. *)
Theorem WriteData_interrupted_later_call (p_buffer : list Z) (size : Z) (w : World)
    (pre tail : list sys_write) :
  size = Z.of_nat (length p_buffer) -> size < 2 ^ 31 ->
  Forall short_write pre -> Forall short_write tail ->
  0 < taken pre < size ->
  sink w = pre ++ WriteErr EINTR :: tail ->
  exists s', suffix s' tail
    /\ WriteData p_buffer size w
       = Some (EPTMD_SUCCESS,
               set_output
                 (stdout w ++ take (Z.to_nat (taken pre)) p_buffer
                  ++ drop (Z.to_nat (taken pre - 1)) p_buffer) s' w).
Proof.
  intros Hsize Hlt Hpre Htail Ht Hs. unfold WriteData. rewrite Hs.
  replace (S (S (length (pre ++ WriteErr EINTR :: tail))))
    with (length pre + S (S (S (length tail))))%nat
    by (rewrite length_app; cbn [length]; lia).
  rewrite (WriteData_loop_prefix p_buffer size Hsize Hlt pre Hpre _ 0 w
             (WriteErr EINTR :: tail) Hs) by lia.
  change (Z.to_nat 0) with 0%nat. rewrite drop_0, Z.add_0_l.
  set (fuel := S (S (length tail))).
  cbn [WriteData_loop].
  destruct (Z.ltb_spec (taken pre) size); [| lia].
  unfold bind at 1. unfold write at 1. cbn [sink set_output].
  change (to_int (-1)) with (-1). cbn [Z.eqb Z.ltb Z.compare].
  change (EINTR =? EINTR) with true. cbv iota.
  rewrite wrap32_small by lia. unfold fuel.
  destruct (WriteData_loop_short_writes p_buffer size Hsize Hlt tail Htail
              (S (S (length tail))) (taken pre + -1)
              (set_output (stdout w ++ take (Z.to_nat (taken pre)) p_buffer) tail w))
    as (s' & Hsuf & Hrun); [reflexivity | lia | lia |].
  exists s'. split; [exact Hsuf |].
  etransitivity; [exact Hrun |].
  f_equal. f_equal. unfold set_output. cbn.
  rewrite <- app_assoc. reflexivity.
Qed.

(** Three bytes on a sink that takes two and is then interrupted: the
    second byte is on the sink twice. *)
Lemma WriteData_interrupted_later_call_witness :
  exists s',
    WriteData [ESC; 0x4a; 10] 3
      (set_output [] [Wrote 2; WriteErr EINTR] (example_world []))
    = Some (EPTMD_SUCCESS, set_output [ESC; 0x4a; 0x4a; 10] s' (example_world [])).
Proof.
  destruct (WriteData_interrupted_later_call [ESC; 0x4a; 10] 3
              (set_output [] [Wrote 2; WriteErr EINTR] (example_world []))
              [Wrote 2] []) as (s' & _ & Hrun).
  - reflexivity.
  - reflexivity.
  - repeat constructor. cbn. lia.
  - constructor.
  - cbn. lia.
  - reflexivity.
  - exists s'. exact Hrun.
Defined.

(** ** User files *)

Lemma memcpy_next (rest0 buf0 : list Z) (t g : Z) :
  0 <= t -> 0 <= g -> t + g <= Z.of_nat (length rest0) ->
  t + g <= Z.of_nat (length buf0) ->
  memcpy (take (Z.to_nat t) rest0 ++ drop (Z.to_nat t) buf0) t
    (drop (Z.to_nat t) rest0) g
  = take (Z.to_nat (t + g)) rest0 ++ drop (Z.to_nat (t + g)) buf0.
Proof.
  intros Ht Hg Hr Hb. unfold memcpy.
  assert (Hlt : length (take (Z.to_nat t) rest0) = Z.to_nat t)
    by (rewrite length_take; lia).
  rewrite length_app, Hlt, length_drop.
  destruct (Z.ltb_spec t 0); [lia |].
  destruct (Z.ltb_spec (Z.of_nat (Z.to_nat t + (length buf0 - Z.to_nat t))) (t + g));
    [lia |].
  cbn [orb].
  rewrite take_app_length' by (symmetry; exact Hlt).
  rewrite drop_app_ge by lia. rewrite Hlt, drop_drop.
  replace (Z.to_nat t + (Z.to_nat (t + g) - Z.to_nat t))%nat with (Z.to_nat (t + g)) by lia.
  rewrite app_assoc. f_equal.
  replace (Z.to_nat (t + g)) with (Z.to_nat t + Z.to_nat g)%nat by lia.
  apply take_take_drop.
Qed.

Section ShortReads.
Variable rest0 buf0 : list Z.
Variable B : Z.
Hypothesis buffer_length : Z.of_nat (length buf0) = B.
Hypothesis buffer_small : B < 2 ^ 31.

(** The pass entered with all there is to read in the buffer is the last. *)
Lemma ReadUserFile_loop_last (answers : list sys_read) (fuel : nat) (p_data : list Z) :
  Forall short_read answers -> Z.of_nat (length p_data) = B ->
  let L := Z.min B (Z.of_nat (length rest0)) in
  exists answers', suffix answers' answers
    /\ ReadUserFile_loop (S fuel) answers (drop (Z.to_nat L) rest0) p_data B L
       = Some (L, p_data, answers', drop (Z.to_nat L) rest0).
Proof.
  intros Hall Hlen L. cbn [ReadUserFile_loop].
  destruct (Z.ltb_spec L B) as [Hlt | Hge]; [| exists answers; split; reflexivity].
  assert (HL : L = Z.of_nat (length rest0)) by lia.
  assert (Hnil : drop (Z.to_nat L) rest0 = []) by (apply drop_ge; lia).
  assert (Hcopy : memcpy p_data L [] 0 = p_data).
  { unfold memcpy. destruct (Z.ltb_spec L 0); [lia |].
    destruct (Z.ltb_spec (Z.of_nat (length p_data)) (L + 0)); [lia |].
    cbn [orb]. change (Z.to_nat 0) with 0%nat. rewrite take_0, Z.add_0_r. cbn [app].
    apply take_drop. }
  rewrite Hnil. unfold read. cbn [length].
  destruct Hall as [| r answers Hr Hall].
  - exists []. split; [reflexivity |].
    replace (Z.min (B - L) (Z.of_nat 0)) with 0 by lia.
    change (to_int 0) with 0. cbn [Z.ltb Z.eqb Z.compare]. rewrite Hcopy. reflexivity.
  - destruct r as [k |]; [| contradiction].
    exists answers. split; [apply suffix_cons_r; reflexivity |].
    replace (Z.max 0 (Z.min k (Z.min (B - L) (Z.of_nat 0)))) with 0 by lia.
    change (to_int 0) with 0. cbn [Z.ltb Z.eqb Z.compare]. rewrite Hcopy. reflexivity.
Qed.

Lemma ReadUserFile_loop_short_reads (answers : list sys_read) :
  Forall short_read answers ->
  let L := Z.min B (Z.of_nat (length rest0)) in
  forall (fuel : nat) (t : Z),
    (S (length answers) < fuel)%nat -> 0 <= t <= L ->
    exists answers', suffix answers' answers
      /\ ReadUserFile_loop fuel answers (drop (Z.to_nat t) rest0)
           (take (Z.to_nat t) rest0 ++ drop (Z.to_nat t) buf0) B t
         = Some (L, take (Z.to_nat L) rest0 ++ drop (Z.to_nat L) buf0,
                 answers', drop (Z.to_nat L) rest0).
Proof.
  intros Hall L.
  assert (Hbuf : forall t, 0 <= t <= L ->
            Z.of_nat (length (take (Z.to_nat t) rest0 ++ drop (Z.to_nat t) buf0)) = B).
  { intros t Ht. rewrite length_app, length_take, length_drop. lia. }
  induction Hall as [| r answers Hr Hall IH]; intros fuel t Hf Ht.
  - destruct fuel as [| fuel]; [lia |]. cbn [length] in Hf.
    destruct (Z.eq_dec t L) as [-> | Hne].
    { apply ReadUserFile_loop_last; [constructor | apply Hbuf; lia]. }
    cbn [ReadUserFile_loop].
    destruct (Z.ltb_spec t B); [| lia].
    unfold read. rewrite length_drop.
    replace (Z.min (B - t) (Z.of_nat (length rest0 - Z.to_nat t))) with (L - t) by lia.
    rewrite to_int_small by lia.
    destruct (Z.ltb_spec (L - t) 0); [lia |].
    destruct (Z.eqb_spec (L - t) 0); [lia |].
    rewrite to_int_small by lia.
    rewrite memcpy_next by lia. rewrite drop_drop.
    replace (t + (L - t)) with L by lia.
    replace (Z.to_nat t + Z.to_nat (L - t))%nat with (Z.to_nat L) by lia.
    destruct fuel as [| fuel]; [lia |].
    apply ReadUserFile_loop_last; [constructor | apply Hbuf; lia].
  - destruct r as [k |]; [| contradiction]. cbn in Hr.
    destruct fuel as [| fuel]; [lia |]. cbn [length] in Hf.
    destruct (Z.eq_dec t L) as [-> | Hne].
    { apply ReadUserFile_loop_last; [constructor; assumption | apply Hbuf; lia]. }
    cbn [ReadUserFile_loop].
    destruct (Z.ltb_spec t B); [| lia].
    unfold read. rewrite length_drop.
    set (got := Z.max 0 (Z.min k (Z.min (B - t) (Z.of_nat (length rest0 - Z.to_nat t))))).
    assert (Hgot : 1 <= got <= L - t) by (unfold got; lia).
    rewrite to_int_small by lia.
    destruct (Z.ltb_spec got 0); [lia |].
    destruct (Z.eqb_spec got 0); [lia |].
    rewrite to_int_small by lia.
    rewrite memcpy_next by lia. rewrite drop_drop.
    replace (Z.to_nat t + Z.to_nat got)%nat with (Z.to_nat (t + got)) by lia.
    destruct (IH fuel (t + got)) as (answers' & Hsuf & Hrun); [lia | lia |].
    exists answers'. split; [apply suffix_cons_r; exact Hsuf | exact Hrun].
Qed.

End ShortReads.

(** X5.  Short reads are put together: when every call of [read] hands
    over at least one of the bytes left (however few), [ReadUserFile]
    returns with the next bytes of the file at the head of the buffer, as
    many as the file has left up to the size of the buffer, in order, and
    the file is left behind them: the bytes the term [ReadUserFile] names.
    [WriteUserFile_loop] reads the file through these calls
    ([ReadUserFile_fd]). *)
Theorem ReadUserFile_short_reads (answers : list sys_read) (rest p_buffer : list Z)
    (buffer_size : Z) :
  Forall short_read answers ->
  Z.of_nat (length p_buffer) = buffer_size -> buffer_size < 2 ^ 31 ->
  let data := ReadUserFile rest buffer_size in
  exists answers', suffix answers' answers
    /\ ReadUserFile_calls answers rest p_buffer buffer_size
       = Some (Z.of_nat (length data), data ++ drop (length data) p_buffer,
               answers', drop (length data) rest).
Proof.
  intros Hall Hlen Hlt data. unfold ReadUserFile_calls.
  destruct (ReadUserFile_loop_short_reads rest p_buffer buffer_size Hlen Hlt answers Hall
              (S (S (S (length answers)))) 0) as (answers' & Hsuf & Hrun); [lia | lia |].
  exists answers'. split; [exact Hsuf |].
  change (Z.to_nat 0) with 0%nat in Hrun. rewrite take_0, !drop_0 in Hrun.
  cbn [app] in Hrun. rewrite Hrun.
  assert (Hdata : length data
                  = Z.to_nat (Z.min buffer_size (Z.of_nat (length rest)))).
  { unfold data, ReadUserFile. rewrite length_take. lia. }
  rewrite Hdata.
  replace (Z.of_nat (Z.to_nat (Z.min buffer_size (Z.of_nat (length rest)))))
    with (Z.min buffer_size (Z.of_nat (length rest))) by lia.
  f_equal. f_equal. f_equal. f_equal. f_equal.
  unfold data, ReadUserFile.
  destruct (Z.le_ge_cases buffer_size (Z.of_nat (length rest))).
  - f_equal. lia.
  - rewrite !take_ge by lia. reflexivity.
Qed.

(** Five bytes of a file read into a buffer of four by calls that hand over
    1, 2 and up to 9 bytes. *)
Lemma ReadUserFile_short_reads_witness :
  exists answers',
    ReadUserFile_calls [ReadUpTo 1; ReadUpTo 2; ReadUpTo 9; ReadUpTo 3]
      [1; 2; 3; 4; 5] [0; 0; 0; 0] 4
    = Some (4, [1; 2; 3; 4], answers', [5]).
Proof.
  destruct (ReadUserFile_short_reads [ReadUpTo 1; ReadUpTo 2; ReadUpTo 9; ReadUpTo 3]
              [1; 2; 3; 4; 5] [0; 0; 0; 0] 4) as (answers' & _ & Hrun).
  - repeat constructor; cbn; lia.
  - reflexivity.
  - reflexivity.
  - exists answers'. exact Hrun.
Defined.

(** The loop of [WriteUserFile] on a sink that takes everything. *)
(** [WriteData] on the first [size] bytes of a longer buffer. *)
Lemma WriteData_head_healthy (p_buffer : list Z) (size : Z) (w : World) :
  sink w = [] -> 0 <= size <= Z.of_nat (length p_buffer) -> size < 2 ^ 31 ->
  WriteData p_buffer size w
  = Some (EPTMD_SUCCESS, advance (take (Z.to_nat size) p_buffer) 0 0 w).
Proof.
  intros Hs Hsize Hlt. unfold WriteData. rewrite Hs. cbn [length WriteData_loop].
  destruct (Z.ltb_spec 0 size) as [Hpos | Hnil].
  - unfold bind at 1. unfold write. rewrite Hs.
    rewrite to_int_small by lia.
    destruct (Z.eqb_spec (size - 0) 0); [lia |].
    destruct (Z.ltb_spec (size - 0) 0); [lia |].
    rewrite wrap32_small by lia.
    destruct (Z.ltb_spec (0 + (size - 0)) size); [lia |].
    unfold ret, result_of_count.
    replace (0 + (size - 0) =? size) with true by (symmetry; apply Z.eqb_eq; lia).
    f_equal. f_equal. unfold set_output, advance. cbn. rewrite Hs.
    change (Z.to_nat 0) with 0%nat. rewrite drop_0, Z.sub_0_r.
    destruct (sigterm w) as [k |]; cbn; rewrite ?Nat.sub_0_r, Nat.add_0_r;
      reflexivity.
  - assert (size = 0) as -> by lia. cbn. unfold ret. rewrite advance_nil. reflexivity.
Qed.

(** [ReadUserFile] when every call does its part: the next bytes of the
    file, up to 1024 of them, at the head of the buffer. *)
Lemma ReadUserFile_fd_healthy (rest p_buffer : list Z) (w : World) :
  sink w = [] -> length p_buffer = 1024%nat ->
  let L := Z.min 1024 (Z.of_nat (length rest)) in
  ReadUserFile_fd rest p_buffer 1024 w
  = Some ((L, take (Z.to_nat L) rest ++ drop (Z.to_nat L) p_buffer,
           drop (Z.to_nat L) rest), w).
Proof.
  intros Hs Hlen L. unfold ReadUserFile_fd, ReadUserFile_calls. rewrite Hs.
  cbn [map length].
  destruct (ReadUserFile_loop_short_reads rest p_buffer 1024 ltac:(lia) ltac:(lia) []
              ltac:(constructor) 3%nat 0 ltac:(cbn; lia) ltac:(lia))
    as (answers' & Hsuf & Hrun).
  change (Z.to_nat 0) with 0%nat in Hrun. rewrite take_0, !drop_0 in Hrun.
  cbn [app] in Hrun. fold L in Hrun. rewrite Hrun.
  assert (answers' = []) as ->.
  { destruct Hsuf as (k & Hk). destruct k, answers'; try discriminate. reflexivity. }
  cbn [length drop]. rewrite <- Hs at 1. rewrite set_output_same. reflexivity.
Qed.

Lemma WriteUserFile_loop_healthy (fuel : nat) :
  forall (rest : list Z) (w : World),
    sink w = [] -> (length rest < fuel)%nat ->
    WriteUserFile_loop fuel rest w = Some (EPTMD_SUCCESS, advance rest 0 0 w).
Proof.
  induction fuel as [| fuel IH]; intros rest w Hs Hf; [lia |].
  cbn [WriteUserFile_loop]. cbv zeta.
  rewrite (bind_Some _ _ _ _ _
             (ReadUserFile_fd_healthy rest (replicate 1024 0) w Hs
                ltac:(apply length_replicate))).
  cbv beta iota.
  set (L := Z.min 1024 (Z.of_nat (length rest))).
  destruct (Z.ltb_spec L 0); [lia |].
  destruct (Z.eqb_spec L 0) as [E0 | Hne].
  - assert (rest = []) as -> by (destruct rest; [reflexivity | cbn in *; lia]).
    unfold bind, close. rewrite Hs. cbn [Z.ltb Z.compare]. unfold ret.
    rewrite advance_nil. reflexivity.
  - erewrite bind_Some;
      [| apply WriteData_head_healthy;
         [ exact Hs
         | rewrite length_app, length_take, length_drop, length_replicate; lia
         | lia ] ].
    change (negb (EPTMD_SUCCESS =? EPTMD_SUCCESS)) with false. cbv iota.
    rewrite IH; [| exact Hs | rewrite length_drop; lia].
    rewrite advance_advance. cbn [Nat.add]. f_equal. f_equal. f_equal.
    rewrite take_app_length' by (rewrite length_take; lia).
    apply take_drop.
Qed.

Lemma WriteUserFile_healthy printer name w :
  sink w = [] ->
  WriteUserFile printer name w
  = Some (match files w !! user_file_path printer name with
          | Some Unreadable => EPTMD_FAILED
          | _ => EPTMD_SUCCESS
          end,
          advance (user_bytes w printer name) 0 0 w).
Proof.
  intros Hs. unfold WriteUserFile, user_bytes. cbv zeta.
  unfold bind at 1. unfold open.
  destruct (files w !! user_file_path printer name) as [[| bytes] |].
  - change (13 =? ENOENT) with false. cbv iota. unfold ret.
    rewrite advance_nil. reflexivity.
  - apply WriteUserFile_loop_healthy; [exact Hs | lia].
  - change (ENOENT =? ENOENT) with true. cbv iota. unfold ret.
    rewrite advance_nil. reflexivity.
Qed.

(** [WriteData] when the first call takes all [size] bytes. *)
Lemma WriteData_one_call (p_buffer : list Z) (size k : Z) (s : list sys_write)
    (w : World) :
  sink w = Wrote k :: s -> 0 < size <= k -> size < 2 ^ 31 ->
  WriteData p_buffer size w
  = Some (EPTMD_SUCCESS,
          set_output (stdout w ++ take (Z.to_nat size) p_buffer) s w).
Proof.
  intros Hs Hsize Hlt. unfold WriteData. rewrite Hs. cbn [length].
  set (fuel := S (length s)). cbn [WriteData_loop].
  destruct (Z.ltb_spec 0 size); [| lia].
  unfold bind at 1. unfold write. rewrite Hs.
  replace (Z.max 0 (Z.min k (size - 0))) with size by lia.
  rewrite to_int_small by lia.
  destruct (Z.eqb_spec size 0); [lia |].
  destruct (Z.ltb_spec size 0); [lia |].
  rewrite wrap32_small by lia. unfold fuel. cbn [WriteData_loop].
  destruct (Z.ltb_spec (0 + size) size); [lia |].
  unfold ret, result_of_count.
  replace (0 + size =? size) with true by (symmetry; apply Z.eqb_eq; lia).
  change (Z.to_nat 0) with 0%nat. rewrite drop_0. reflexivity.
Qed.

(** [ReadUserFile] when the first call of [read] fails. *)
Lemma ReadUserFile_fd_fails (rest p_buffer : list Z) (e : Z) (s : list sys_write)
    (w : World) :
  sink w = WriteErr e :: s ->
  ReadUserFile_fd rest p_buffer 1024 w
  = Some ((EPTMD_FAILED, p_buffer, rest), with_script s w).
Proof.
  intros Hs. unfold ReadUserFile_fd, ReadUserFile_calls. rewrite Hs.
  cbn [map as_read length]. set (fuel := S (S (length (map as_read s)))).
  cbn [ReadUserFile_loop]. change (0 <? 1024) with true. cbv iota.
  unfold read. change (to_int (-1)) with (-1). cbn [Z.ltb Z.compare].
  rewrite length_map.
  replace (S (length s) - length s)%nat with 1%nat by lia. reflexivity.
Qed.

(** A pass of the loop of [ReadUserFile], and a call of [read] that is
    answered with a number of bytes. *)
Lemma ReadUserFile_loop_pass fuel answers rest p_data B total :
  ReadUserFile_loop (S fuel) answers rest p_data B total
  = if total <? B then
      let '(r, p_data', answers', rest') :=
        read answers rest p_data total (B - total) in
      if to_int r <? 0 then Some (EPTMD_FAILED, p_data', answers', rest')
      else if to_int r =? 0 then Some (total, p_data', answers', rest')
      else ReadUserFile_loop fuel answers' rest' p_data' B (to_int (total + to_int r))
    else Some (total, p_data, answers, rest).
Proof. reflexivity. Qed.

Lemma read_up_to k answers rest p_data off n :
  read (ReadUpTo k :: answers) rest p_data off n
  = (Z.max 0 (Z.min k (Z.min n (Z.of_nat (length rest)))),
     memcpy p_data off rest (Z.max 0 (Z.min k (Z.min n (Z.of_nat (length rest))))),
     answers,
     drop (Z.to_nat (Z.max 0 (Z.min k (Z.min n (Z.of_nat (length rest)))))) rest).
Proof. reflexivity. Qed.

(** [ReadUserFile] on a file of fewer than 1024 bytes when the first call
    of [read] hands over all of them: a second call answers 0. *)
Lemma ReadUserFile_fd_short_file (rest p_buffer : list Z) (k1 k2 : Z)
    (s : list sys_write) (w : World) :
  sink w = Wrote k1 :: Wrote k2 :: s -> length p_buffer = 1024%nat ->
  (0 < length rest < 1024)%nat -> Z.of_nat (length rest) <= k1 ->
  ReadUserFile_fd rest p_buffer 1024 w
  = Some ((Z.of_nat (length rest), rest ++ drop (length rest) p_buffer, []),
          with_script s w).
Proof.
  intros Hs Hbuf Hlen Hk.
  assert (HL : 0 < Z.of_nat (length rest) < 1024) by lia.
  assert (HB : Z.of_nat (length p_buffer) = 1024) by lia.
  clear Hbuf Hlen.
  unfold ReadUserFile_fd, ReadUserFile_calls. rewrite Hs.
  cbn [map as_read length].
  rewrite ReadUserFile_loop_pass, read_up_to.
  destruct (Z.ltb_spec 0 1024) as [_ | ?]; [| lia].
  rewrite Z.sub_0_r.
  replace (Z.max 0 (Z.min k1 (Z.min 1024 (Z.of_nat (length rest)))))
    with (Z.of_nat (length rest)) by lia.
  rewrite to_int_small by lia.
  destruct (Z.ltb_spec (Z.of_nat (length rest)) 0) as [? | _]; [lia |].
  destruct (Z.eqb_spec (Z.of_nat (length rest)) 0) as [? | _]; [lia |].
  rewrite Nat2Z.id, drop_all, Z.add_0_l. rewrite to_int_small by lia.
  rewrite ReadUserFile_loop_pass, read_up_to.
  destruct (Z.ltb_spec (Z.of_nat (length rest)) 1024) as [_ | ?]; [| lia].
  cbn [length].
  replace (Z.max 0 (Z.min k2 (Z.min (1024 - Z.of_nat (length rest)) (Z.of_nat 0))))
    with 0 by lia.
  change (to_int 0) with 0.
  destruct (Z.ltb_spec 0 0) as [? | _]; [lia |].
  destruct (Z.eqb_spec 0 0) as [_ | ?]; [| lia].
  rewrite length_map.
  replace (S (S (length s)) - length s)%nat with 2%nat by lia.
  assert (Hcopy : memcpy (memcpy p_buffer 0 rest (Z.of_nat (length rest)))
                    (Z.of_nat (length rest)) [] 0
                  = rest ++ drop (length rest) p_buffer).
  { unfold memcpy.
    destruct (Z.ltb_spec 0 0) as [? | _]; [lia |].
    destruct (Z.ltb_spec (Z.of_nat (length p_buffer)) (0 + Z.of_nat (length rest)))
      as [? | _]; [lia |].
    cbn [orb].
    change (Z.to_nat 0) with 0%nat. rewrite take_0, Nat2Z.id, firstn_all. cbn [app].
    rewrite Z.add_0_l, Nat2Z.id.
    set (q := rest ++ drop (length rest) p_buffer).
    destruct (Z.ltb_spec (Z.of_nat (length rest)) 0) as [? | _]; [lia |].
    destruct (Z.ltb_spec (Z.of_nat (length q)) (Z.of_nat (length rest) + 0))
      as [Hq | _].
    { unfold q in Hq. rewrite length_app, length_drop in Hq. lia. }
    cbn [orb app]. rewrite Z.add_0_r, Nat2Z.id. apply take_drop. }
  rewrite Hcopy. reflexivity.
Qed.

(** [ReadUserFile] at the end of the file. *)
Lemma ReadUserFile_fd_end (p_buffer : list Z) (k : Z) (s : list sys_write)
    (w : World) :
  sink w = Wrote k :: s -> length p_buffer = 1024%nat ->
  ReadUserFile_fd [] p_buffer 1024 w = Some ((0, p_buffer, []), with_script s w).
Proof.
  intros Hs Hbuf. unfold ReadUserFile_fd, ReadUserFile_calls. rewrite Hs.
  cbn [map as_read length]. set (fuel := S (S (length (map as_read s)))).
  cbn [ReadUserFile_loop]. change (0 <? 1024) with true. cbv iota.
  unfold read. cbn [length].
  replace (Z.max 0 (Z.min k (Z.min (1024 - 0) (Z.of_nat 0)))) with 0 by lia.
  change (to_int 0) with 0. cbn [Z.ltb Z.eqb Z.compare].
  rewrite length_map.
  replace (S (length s) - length s)%nat with 1%nat by lia.
  assert (Hcopy : memcpy p_buffer 0 [] 0 = p_buffer).
  { unfold memcpy. cbn [Z.ltb Z.compare orb].
    destruct (Z.ltb_spec (Z.of_nat (length p_buffer)) (0 + 0)); [lia |].
    reflexivity. }
  rewrite Hcopy. reflexivity.
Qed.

(** X6.  What [WriteUserFile] does with a user file.  When the file does not
    exist it succeeds and writes nothing; when it cannot be opened for
    another reason it fails and writes nothing, and in both cases it makes
    no call on the script.  When every call succeeds in full, the sink
    receives the bytes of the file, all of them and in order, whatever the
    length of the file (the file goes through a buffer of 1024 bytes), and
    the result is success.  When the first call of [read] fails, with
    whatever [errno], the result is a failure, nothing is written, and the
    file is closed (one more entry of the script is used).  When a file of
    1 to 1023 bytes has been copied and its [close] fails, the bytes are on
    the sink and the result is a failure all the same. *)
Theorem WriteUserFile_copies (printer name : string) (w : World) :
  let path := user_file_path printer name in
  (files w !! path = None ->
   WriteUserFile printer name w = Some (EPTMD_SUCCESS, w))
  /\ (files w !! path = Some Unreadable ->
      WriteUserFile printer name w = Some (EPTMD_FAILED, w))
  /\ (forall bytes, files w !! path = Some (Content bytes) ->
      (sink w = [] ->
       WriteUserFile printer name w = Some (EPTMD_SUCCESS, advance bytes 0 0 w))
      /\ (forall e s, sink w = WriteErr e :: s ->
          WriteUserFile printer name w
          = Some (EPTMD_FAILED, with_script (drop 1 s) w))
      /\ (forall k1 k2 k3 k4 e s,
          (0 < length bytes < 1024)%nat ->
          Z.of_nat (length bytes) <= k1 -> Z.of_nat (length bytes) <= k3 ->
          sink w = Wrote k1 :: Wrote k2 :: Wrote k3 :: Wrote k4 :: WriteErr e :: s ->
          WriteUserFile printer name w
          = Some (EPTMD_FAILED, set_output (stdout w ++ bytes) s w))).
Proof.
  intros path.
  assert (Hopen : forall r, files w !! path = r ->
            WriteUserFile printer name w
            = match r with
              | None => Some (EPTMD_SUCCESS, w)
              | Some Unreadable => Some (EPTMD_FAILED, w)
              | Some (Content bytes) => WriteUserFile_loop (S (length bytes)) bytes w
              end).
  { intros r Hr. unfold WriteUserFile. cbv zeta. fold path.
    unfold bind at 1. unfold open. rewrite Hr.
    destruct r as [[| bytes] |]; reflexivity. }
  split; [intros E; apply (Hopen _ E) |].
  split; [intros E; apply (Hopen _ E) |].
  intros bytes E. rewrite (Hopen _ E). split; [| split].
  - intros Hs. apply WriteUserFile_loop_healthy; [exact Hs | lia].
  - intros e s Hs. cbn [WriteUserFile_loop]. cbv zeta.
    rewrite (bind_Some _ _ _ _ _ (ReadUserFile_fd_fails bytes _ e s w Hs)).
    cbv beta iota. change (EPTMD_FAILED <? 0) with true. cbv iota.
    unfold bind, close, ret. cbn [with_script set_output sink stdout].
    destruct s as [| [k | e'] s]; reflexivity.
  - intros k1 k2 k3 k4 e s Hlen Hk1 Hk3 Hs.
    set (fuel := length bytes). cbn [WriteUserFile_loop]. cbv zeta.
    rewrite (bind_Some _ _ _ _ _
               (ReadUserFile_fd_short_file bytes (replicate 1024 0) k1 k2 _ w Hs
                  ltac:(apply length_replicate) Hlen Hk1)).
    cbv beta iota.
    destruct (Z.ltb_spec (Z.of_nat (length bytes)) 0) as [? | _]; [lia |].
    destruct (Z.eqb_spec (Z.of_nat (length bytes)) 0) as [? | _]; [lia |].
    erewrite bind_Some;
      [| apply (WriteData_one_call _ _ k3 (Wrote k4 :: WriteErr e :: s));
         [reflexivity | lia | lia] ].
    change (negb (EPTMD_SUCCESS =? EPTMD_SUCCESS)) with false. cbv iota.
    rewrite Nat2Z.id, take_app_length.
    unfold fuel. destruct (length bytes) as [| n] eqn:En; [lia |].
    cbn [WriteUserFile_loop]. cbv zeta.
    erewrite bind_Some;
      [| apply (ReadUserFile_fd_end _ k4 (WriteErr e :: s));
         [reflexivity | apply length_replicate] ].
    reflexivity.
Qed.

(** The file [StartJob.prn] of 1500 bytes, which takes two passes of the
    loop, on a sink that takes everything, and when the first call of
    [read] fails. *)
Lemma WriteUserFile_copies_witness :
  WriteUserFile "TM-H6000IV" "StartJob.prn" long_file_world
  = Some (EPTMD_SUCCESS, advance (replicate 1500 0x41) 0 0 long_file_world)
  /\ WriteUserFile "TM-H6000IV" "StartJob.prn"
       (with_script [WriteErr 5; Wrote 1] long_file_world)
     = Some (EPTMD_FAILED, long_file_world).
Proof.
  destruct (WriteUserFile_copies "TM-H6000IV" "StartJob.prn" long_file_world)
    as (_ & _ & Hcopy).
  destruct (Hcopy (replicate 1500 0x41) ltac:(vm_compute; reflexivity))
    as (Hall & _).
  split; [apply Hall; reflexivity |].
  destruct (WriteUserFile_copies "TM-H6000IV" "StartJob.prn"
              (with_script [WriteErr 5; Wrote 1] long_file_world))
    as (_ & _ & Hcopy').
  destruct (Hcopy' (replicate 1500 0x41) ltac:(vm_compute; reflexivity))
    as (_ & Hfail & _).
  apply (Hfail 5 [Wrote 1]). reflexivity.
Defined.

(** ** What the sanitiser achieves *)

Ltac eqb_cases :=
  repeat (match goal with
          | |- context [?a =? ?b] => is_var a; destruct (Z.eqb_spec a b)
          end; cbn);
  try reflexivity; try lia.

(** What the rewriting leaves of a byte can no longer start a pair. *)
Lemma disturbing_sanitized (a b b' : Z) :
  (b' = b \/ b' = 0x30 \/ b' = 0x3B) ->
  disturbing (sanitized_byte a b) b' = false.
Proof.
  intros [-> | [-> | ->]]; unfold disturbing, sanitized_byte; eqb_cases.
Qed.

Lemma sanitized_byte_cases (a b : Z) :
  sanitized_byte a b = a
  \/ (a = 0x10 /\ sanitized_byte a b = 0x30)
  \/ (a = 0x1B /\ sanitized_byte a b = 0x3B).
Proof.
  unfold sanitized_byte.
  destruct (Z.eqb_spec a 16) as [-> | ?]; cbn [andb].
  - destruct ((b =? 4) || (b =? 5) || (b =? 20)); [right; left; auto | left; reflexivity].
  - destruct (Z.eqb_spec a 27) as [-> | ?]; cbn [andb]; [| left; reflexivity].
    destruct (b =? 61); [right; right; auto | left; reflexivity].
Qed.

(** A byte the rewriting has produced is left alone by a second rewriting. *)
Lemma sanitized_byte_again (a b b' : Z) :
  (b' = b \/ b' = 0x30 \/ b' = 0x3B) ->
  sanitized_byte (sanitized_byte a b) b' = sanitized_byte a b.
Proof.
  intros [-> | [-> | ->]]; unfold sanitized_byte; eqb_cases.
Qed.

Lemma load_outside (p : list Z) (j : Z) :
  Z.of_nat (length p) <= j -> load p j = 0.
Proof.
  intros H. unfold load. destruct (Z.ltb_spec j 0); [reflexivity |].
  rewrite lookup_ge_None_2 by lia. reflexivity.
Qed.

(** Buffers of one length with the same bytes are the same buffer. *)
Lemma load_ext (p q : list Z) :
  length p = length q -> (forall j, load p j = load q j) -> p = q.
Proof.
  intros Hlen Hload. apply list_eq. intros i.
  specialize (Hload (Z.of_nat i)). unfold load in Hload.
  destruct (Z.ltb_spec (Z.of_nat i) 0); [lia |].
  rewrite Nat2Z.id in Hload.
  destruct (p !! i) as [x |] eqn:Ep; destruct (q !! i) as [y |] eqn:Eq.
  - cbn in Hload. congruence.
  - apply lookup_lt_Some in Ep. apply lookup_ge_None in Eq. lia.
  - apply lookup_ge_None in Ep. apply lookup_lt_Some in Eq. lia.
  - reflexivity.
Qed.

(** X7.  Started at index 0, the sanitiser leaves none of the byte pairs it
    is there for: in the band data it returns no byte 0x10 is followed by
    0x04, 0x05 or 0x14 and no byte 0x1B is followed by 0x3D, at any
    position of the buffer. *)
Theorem sanitized_band_has_no_disturbing_pair (hdr : cups_page_header_t)
    (p : list Z) (j : Z) :
  0 <= cupsBytesPerLine hdr -> cupsBytesPerLine hdr * 8 < 2 ^ 32 ->
  Z.of_nat (length p) = cupsBytesPerLine hdr * 8 ->
  0 <= j -> j + 1 < Z.of_nat (length p) ->
  let out := AvoidDisturbingData hdr p 0 8 0 in
  disturbing (load out j) (load out (j + 1)) = false.
Proof.
  intros Hb Hsz Hlen Hj0 Hj out.
  destruct (AvoidDisturbingData_from_zero hdr p Hb Hsz Hlen) as [_ Hload].
  cbv zeta in Hload. unfold out. rewrite !Hload.
  destruct (Z.leb_spec 0 j); [| lia].
  destruct (Z.ltb_spec (j + 1) (Z.of_nat (length p))); [| lia].
  destruct (Z.leb_spec 0 (j + 1)); [| lia].
  cbn [andb].
  apply disturbing_sanitized.
  destruct (j + 1 + 1 <? Z.of_nat (length p)); [| left; reflexivity].
  destruct (sanitized_byte_cases (load p (j + 1)) (load p (j + 1 + 1)))
    as [-> | [[_ ->] | [_ ->]]]; auto.
Qed.

(** A band of one byte a line whose data holds the four pairs. *)
Lemma sanitized_band_has_no_disturbing_pair_witness :
  disturbing
    (load (AvoidDisturbingData example_header [0x10; 0x04; 0x1B; 0x3D; 0x10; 0x14; 0x10; 0x05]
             0 8 0) 2)
    (load (AvoidDisturbingData example_header [0x10; 0x04; 0x1B; 0x3D; 0x10; 0x14; 0x10; 0x05]
             0 8 0) (2 + 1))
  = false.
Proof.
  apply (sanitized_band_has_no_disturbing_pair example_header
           [0x10; 0x04; 0x1B; 0x3D; 0x10; 0x14; 0x10; 0x05] 2).
  - cbn. lia.
  - reflexivity.
  - reflexivity.
  - lia.
  - cbn. lia.
Defined.

(** X8.  Whatever index below [2^64 - 1] the scan starts from, the
    sanitiser keeps the length of the band data, leaves the bytes before
    the start index as they are, and changes a byte in one of two ways
    only: a 0x10 into 0x30 or a 0x1B into 0x3B. *)
Theorem sanitizer_changes_two_codes_only (hdr : cups_page_header_t) (p : list Z)
    (i j : Z) :
  0 <= cupsBytesPerLine hdr -> cupsBytesPerLine hdr * 8 < 2 ^ 32 ->
  Z.of_nat (length p) = cupsBytesPerLine hdr * 8 ->
  0 <= i -> i + 1 < 2 ^ 64 ->
  let out := AvoidDisturbingData hdr p 0 8 i in
  length out = length p
  /\ (j < i -> load out j = load p j)
  /\ (load out j = load p j
      \/ (load p j = 0x10 /\ load out j = 0x30)
      \/ (load p j = 0x1B /\ load out j = 0x3B)).
Proof.
  intros Hb Hsz Hlen Hi Hi64 out.
  assert (Hout : out = AvoidDisturbingData_loop (S (Z.to_nat (Z.of_nat (length p))))
                         (Z.of_nat (length p)) i p).
  { unfold out, AvoidDisturbingData. cbv zeta.
    rewrite Z.mul_0_r, Z.sub_0_r. change (wrap32 0) with 0. change (wrap32 8) with 8.
    rewrite wrap32_small by lia. change (Z.to_nat 0) with 0%nat.
    rewrite take_0, drop_0. cbn [app].
    replace (8 * cupsBytesPerLine hdr) with (Z.of_nat (length p)) by lia.
    reflexivity. }
  destruct (AvoidDisturbingData_loop_spec (S (Z.to_nat (Z.of_nat (length p))))
              (Z.of_nat (length p)) i p) as [Hl Hload]; [lia | lia | lia | lia | lia |].
  rewrite <- Hout in Hl, Hload.
  split; [exact Hl |]. rewrite Hload. split.
  - intros Hji. destruct (Z.leb_spec i j); [lia | reflexivity].
  - destruct ((i <=? j) && (j + 1 <? Z.of_nat (length p))); [| left; reflexivity].
    apply sanitized_byte_cases.
Qed.

(** The scan started at index 2 of band data that begins with two pairs. *)
Lemma sanitizer_changes_two_codes_only_witness :
  length (AvoidDisturbingData example_header [0x10; 0x04; 0x1B; 0x3D; 0x10; 0x14; 0; 0] 0 8 2)
  = 8%nat
  /\ load (AvoidDisturbingData example_header [0x10; 0x04; 0x1B; 0x3D; 0x10; 0x14; 0; 0] 0 8 2) 0
     = 0x10.
Proof.
  destruct (sanitizer_changes_two_codes_only example_header
              [0x10; 0x04; 0x1B; 0x3D; 0x10; 0x14; 0; 0] 2 0) as (Hl & Hbefore & _).
  - cbn. lia.
  - reflexivity.
  - reflexivity.
  - lia.
  - lia.
  - split; [exact Hl | apply Hbefore; lia].
Defined.

(** X9.  Sanitising is idempotent: started at index 0 on band data it has
    already been through (started at 0), the sanitiser changes nothing. *)
Theorem sanitizer_idempotent (hdr : cups_page_header_t) (p : list Z) :
  0 <= cupsBytesPerLine hdr -> cupsBytesPerLine hdr * 8 < 2 ^ 32 ->
  Z.of_nat (length p) = cupsBytesPerLine hdr * 8 ->
  AvoidDisturbingData hdr (AvoidDisturbingData hdr p 0 8 0) 0 8 0
  = AvoidDisturbingData hdr p 0 8 0.
Proof.
  intros Hb Hsz Hlen.
  destruct (AvoidDisturbingData_from_zero hdr p Hb Hsz Hlen) as [Hl1 Hload1].
  cbv zeta in Hl1, Hload1.
  set (out := AvoidDisturbingData hdr p 0 8 0) in *.
  destruct (AvoidDisturbingData_from_zero hdr out Hb Hsz ltac:(lia)) as [Hl2 Hload2].
  cbv zeta in Hl2, Hload2.
  apply load_ext; [exact Hl2 |]. intros j. rewrite Hload2.
  destruct (Z.leb_spec 0 j); [| reflexivity].
  destruct (Z.ltb_spec (j + 1) (Z.of_nat (length out))); [| reflexivity].
  cbn [andb]. rewrite !Hload1.
  destruct (Z.leb_spec 0 j); [| lia].
  destruct (Z.ltb_spec (j + 1) (Z.of_nat (length p))); [| lia].
  destruct (Z.leb_spec 0 (j + 1)); [| lia].
  cbn [andb]. apply sanitized_byte_again.
  destruct (j + 1 + 1 <? Z.of_nat (length p)); [| left; reflexivity].
  destruct (sanitized_byte_cases (load p (j + 1)) (load p (j + 1 + 1)))
    as [-> | [[_ ->] | [_ ->]]]; auto.
Qed.

(** Band data of one byte a line with two pairs, sanitised twice. *)
Lemma sanitizer_idempotent_witness :
  AvoidDisturbingData example_header
    (AvoidDisturbingData example_header [0x10; 0x04; 0x1B; 0x3D; 0x10; 0x06; 0; 0] 0 8 0)
    0 8 0
  = [0x30; 0x04; 0x3B; 0x3D; 0x10; 0x06; 0; 0].
Proof.
  rewrite (sanitizer_idempotent example_header [0x10; 0x04; 0x1B; 0x3D; 0x10; 0x06; 0; 0]).
  - reflexivity.
  - cbn. lia.
  - reflexivity.
  - reflexivity.
Defined.

(** ** Start-up *)

(** What the three readers of the PPD leave of the configuration. *)
Lemma GetModelSpecificFromPPD_fields p_ppd c r c' :
  GetModelSpecificFromPPD p_ppd c = (r, c') ->
  0 <= r
  /\ p_printerName c' = p_printerName c /\ paperReduction c' = paperReduction c
  /\ buzzerControl c' = buzzerControl c /\ drawerControl c' = drawerControl c
  /\ maxBandLines c' = maxBandLines c
  /\ (r = EPTMD_SUCCESS -> 1 <= h_motionUnit c' <= 255 /\ 1 <= v_motionUnit c' <= 255).
Proof.
  unfold GetModelSpecificFromPPD.
  destruct (ppdFindAttr p_ppd "TmxMotionUnitHori") as [vh |];
    [| intros [= <- <-]; repeat split; try reflexivity; try lia; discriminate].
  cbv zeta. cbn [h_motionUnit set_h_motionUnit].
  pose proof (wrap32_range (atol vh)) as Hh.
  destruct (Z.eqb_spec 0 (wrap32 (atol vh))); cbn [orb];
    [intros [= <- <-]; repeat split; try reflexivity; try lia; discriminate |].
  destruct (Z.ltb_spec 255 (wrap32 (atol vh)));
    [intros [= <- <-]; repeat split; try reflexivity; try lia; discriminate |].
  destruct (ppdFindAttr p_ppd "TmxMotionUnitVert") as [vv |];
    [| intros [= <- <-]; repeat split; try reflexivity; try lia; discriminate].
  cbn [v_motionUnit set_v_motionUnit].
  pose proof (wrap32_range (atol vv)) as Hv.
  destruct (Z.eqb_spec 0 (wrap32 (atol vv))); cbn [orb];
    [intros [= <- <-]; repeat split; try reflexivity; try lia; discriminate |].
  destruct (Z.ltb_spec 255 (wrap32 (atol vv)));
    [intros [= <- <-]; repeat split; try reflexivity; try lia; discriminate |].
  intros [= <- <-]. cbn. repeat split; try reflexivity; lia.
Qed.

Lemma GetPaperReductionFromPPD_fields p_ppd c r c' :
  GetPaperReductionFromPPD p_ppd c = (r, c') ->
  0 <= r
  /\ p_printerName c' = p_printerName c
  /\ h_motionUnit c' = h_motionUnit c /\ v_motionUnit c' = v_motionUnit c
  /\ buzzerControl c' = buzzerControl c /\ drawerControl c' = drawerControl c
  /\ maxBandLines c' = maxBandLines c.
Proof.
  unfold GetPaperReductionFromPPD.
  destruct (ppdFindMarkedChoice p_ppd "TmxPaperReduction") as [choice |];
    [| intros [= <- <-]; repeat split; try reflexivity; lia].
  repeat match goal with
         | |- context [String.eqb ?a ?b] => destruct (String.eqb a b)
         end;
    intros [= <- <-]; repeat split; try reflexivity; cbv; discriminate.
Qed.

Lemma GetBuzzerAndDrawerFromPPD_fields p_ppd c r c' :
  GetBuzzerAndDrawerFromPPD p_ppd c = (r, c') ->
  0 <= r
  /\ p_printerName c' = p_printerName c
  /\ h_motionUnit c' = h_motionUnit c /\ v_motionUnit c' = v_motionUnit c
  /\ paperReduction c' = paperReduction c
  /\ maxBandLines c' = maxBandLines c
  /\ (r = EPTMD_SUCCESS ->
      (buzzerControl c' = TmBuzzerNotUsed /\ drawerControl c' = TmDrawerNotUsed)
      \/ drawerControl c' = drawerControl c
      \/ buzzerControl c' = buzzerControl c).
Proof.
  unfold GetBuzzerAndDrawerFromPPD.
  destruct (ppdFindMarkedChoice p_ppd "TmxBuzzerAndDrawer") as [choice |];
    [| intros [= <- <-]; repeat split; try reflexivity; try lia; discriminate].
  repeat match goal with
         | |- context [String.eqb ?a ?b] => destruct (String.eqb a b)
         end;
    intros [= <- <-]; repeat split; try reflexivity; try (cbv; discriminate);
    intros _; cbn; auto.
Qed.

Lemma GetParameters_fields env argv c r c' :
  GetParameters env argv c = (r, c') ->
  0 <= r
  /\ (r = EPTMD_SUCCESS ->
      1 <= h_motionUnit c' <= 255 /\ 1 <= v_motionUnit c' <= 255
      /\ ((buzzerControl c' = TmBuzzerNotUsed /\ drawerControl c' = TmDrawerNotUsed)
          \/ drawerControl c' = drawerControl c
          \/ buzzerControl c' = buzzerControl c)).
Proof.
  unfold GetParameters.
  destruct (ppdOpenFile env) as [p_ppd |]; [| intros [= <- <-]; split; [lia | discriminate]].
  cbv zeta.
  destruct (if 0 <? Z.of_nat (length (cupsParseOptions env (arg argv 5)))
            then cupsMarkOptions env (ppdMarkDefaults env p_ppd)
                   (cupsParseOptions env (arg argv 5))
            else (false, ppdMarkDefaults env p_ppd)) as [conflict ppd].
  destruct conflict; [intros [= <- <-]; split; [lia | discriminate] |].
  destruct (GetModelSpecificFromPPD ppd c) as [r1 c1] eqn:E1.
  destruct (GetModelSpecificFromPPD_fields _ _ _ _ E1)
    as (Hr1 & _ & _ & Hb1 & Hd1 & _ & Hu1).
  destruct (Z.eqb_spec r1 EPTMD_SUCCESS) as [-> | Hne1].
  - destruct (GetPaperReductionFromPPD ppd c1) as [r2 c2] eqn:E2.
    destruct (GetPaperReductionFromPPD_fields _ _ _ _ E2)
      as (Hr2 & _ & Hh2 & Hv2 & Hb2 & Hd2 & _).
    destruct (Z.eqb_spec r2 EPTMD_SUCCESS) as [-> | Hne2].
    + destruct (GetBuzzerAndDrawerFromPPD ppd c2) as [r3 c3] eqn:E3.
      destruct (GetBuzzerAndDrawerFromPPD_fields _ _ _ _ E3)
        as (Hr3 & _ & Hh3 & Hv3 & _ & _ & Hx3).
      intros [= <- <-]. split; [exact Hr3 |]. intros E.
      destruct (Hu1 eq_refl) as [Hh Hv].
      split; [lia |]. split; [lia |].
      destruct (Hx3 E) as [? | [? | ?]]; [left; assumption | right; left | right; right];
        congruence.
    + cbv beta iota.
      destruct (Z.eqb_spec r2 EPTMD_SUCCESS); [contradiction |].
      intros [= <- <-]. split; [exact Hr2 | contradiction].
  - cbv beta iota.
    destruct (Z.eqb_spec r1 EPTMD_SUCCESS); [contradiction |]. cbv beta iota.
    destruct (Z.eqb_spec r1 EPTMD_SUCCESS); [contradiction |].
    intros [= <- <-]. split; [exact Hr1 | contradiction].
Qed.

Lemma InitSignal_result calls :
  InitSignal calls = EPTMD_SUCCESS \/ 1101 <= InitSignal calls <= 1106.
Proof.
  unfold InitSignal. cbv zeta.
  repeat match goal with
         | |- context [negb (?a =? 0)] => destruct (negb (a =? 0))
         end;
    first [left; reflexivity | right; lia].
Qed.

Lemma Init_fields env argc argv c r c' :
  Init env argc argv c = (r, c') ->
  0 <= r
  /\ (r = EPTMD_SUCCESS ->
      (argc = 6 \/ argc = 7)
      /\ 1 <= h_motionUnit c' <= 255 /\ 1 <= v_motionUnit c' <= 255
      /\ maxBandLines c' = 8 /\ p_printerName c' = arg argv 0
      /\ ((buzzerControl c' = TmBuzzerNotUsed /\ drawerControl c' = TmDrawerNotUsed)
          \/ drawerControl c' = drawerControl c
          \/ buzzerControl c' = buzzerControl c)).
Proof.
  unfold Init.
  destruct (Z.eqb_spec 6 argc) as [E6 | N6]; destruct (Z.eqb_spec 7 argc) as [E7 | N7];
    cbn [negb andb]; try lia;
    try (intros [= <- <-]; split; [lia | discriminate]).
  all: destruct (InitSignal_result (signal_calls env)) as [Es | Hs];
    [ rewrite Es; change (negb (EPTMD_SUCCESS =? EPTMD_SUCCESS)) with false; cbv iota zeta
    | destruct (Z.eqb_spec (InitSignal (signal_calls env)) EPTMD_SUCCESS) as [E0 | _];
      [unfold EPTMD_SUCCESS in *; lia |];
      cbn [negb]; intros [= <- <-]; split; [lia | unfold EPTMD_SUCCESS; lia] ].
  all: repeat match goal with
         | |- context [if ?b then (_, _) else _] =>
             destruct b; [intros [= <- <-]; split; [lia | discriminate] |]
         end.
  all: destruct (GetParameters env argv c) as [r1 c1] eqn:E1;
    destruct (GetParameters_fields _ _ _ _ _ E1) as (Hr1 & Hok);
    destruct (Z.eqb_spec r1 EPTMD_SUCCESS) as [-> | Hne]; cbn [negb];
    intros [= <- <-];
    [ split; [lia |]; intros _; destruct (Hok eq_refl) as (Hh & Hv & Hx);
      cbn [h_motionUnit v_motionUnit maxBandLines p_printerName buzzerControl
           drawerControl set_printer];
      repeat split; try lia; try exact Hx; auto
    | split; [exact Hr1 | contradiction] ].
Qed.

(** X10.  The configuration a successful [Init] hands to the job: [main]
    was entered with 6 or 7 arguments, both motion units are between 1 and
    255, the bands are 8 lines high, and the printer name is [argv[0]],
    whatever the configuration held before and whatever the PPD holds. *)
Theorem Init_configuration (env : Startup) (argc : Z) (argv : list string)
    (p_config Config : EPTMS_CONFIG_T) :
  Init env argc argv p_config = (EPTMD_SUCCESS, Config) ->
  (argc = 6 \/ argc = 7)
  /\ 1 <= h_motionUnit Config <= 255 /\ 1 <= v_motionUnit Config <= 255
  /\ maxBandLines Config = 8
  /\ p_printerName Config = arg argv 0.
Proof.
  intros H. destruct (Init_fields _ _ _ _ _ _ H) as (_ & Hok).
  destruct (Hok eq_refl) as (Ha & Hh & Hv & Hm & Hp & _).
  repeat split; try assumption; lia.
Qed.

(** The filter started for the queue TM-H6000IV with a PPD whose motion
    units are 160 and 144. *)
Lemma Init_configuration_witness :
  maxBandLines (snd (Init example_startup 6 example_argv zero_Config)) = 8
  /\ 1 <= v_motionUnit (snd (Init example_startup 6 example_argv zero_Config)) <= 255.
Proof.
  destruct (Init_configuration example_startup 6 example_argv zero_Config
              (snd (Init example_startup 6 example_argv zero_Config)))
    as (_ & _ & Hv & Hm & _).
  - vm_compute. reflexivity.
  - split; [exact Hm | exact Hv].
Defined.

(** X11.  The drawer and the buzzer are never both in use.  [main] starts
    from the zeroed configuration, and the reader of the PPD choice sets one
    of the two fields (or resets both), so after a successful [Init] at
    least one of them is "not used": the job start writes at most one of
    the drawer pulse and the buzzer command. *)
Theorem buzzer_and_drawer_exclusive (env : Startup) (argc : Z) (argv : list string)
    (Config : EPTMS_CONFIG_T) :
  Init env argc argv zero_Config = (EPTMD_SUCCESS, Config) ->
  buzzerControl Config = TmBuzzerNotUsed \/ drawerControl Config = TmDrawerNotUsed.
Proof.
  intros H. destruct (Init_fields _ _ _ _ _ _ H) as (_ & Hok).
  destruct (Hok eq_refl) as (_ & _ & _ & _ & _ & [[Hb _] | [Hd | Hb]]).
  - left. exact Hb.
  - right. exact Hd.
  - left. exact Hb.
Qed.

(** The PPD choice OpenDrawer1: the drawer is used, the buzzer is not. *)
Lemma buzzer_and_drawer_exclusive_witness :
  buzzerControl (snd (Init example_startup 6 example_argv zero_Config)) = TmBuzzerNotUsed
  \/ drawerControl (snd (Init example_startup 6 example_argv zero_Config)) = TmDrawerNotUsed.
Proof.
  apply (buzzer_and_drawer_exclusive example_startup 6 example_argv).
  vm_compute. reflexivity.
Defined.

(** X12.  A failed start-up writes nothing.  [Init] never returns the
    cancellation code, so whenever it fails (a wrong number of arguments,
    which gives 1001, a failing signal call, an input that cannot be
    opened, a missing or conflicting PPD, a motion unit out of range, an
    unknown choice) [main] returns the exit status -1 and not a byte has
    gone to the printer; when it succeeds [main] is the job run on the
    configuration [Init] made. *)
Theorem start_up_failure_writes_nothing (env : Startup) (argv : list string)
    (w : World) :
  let started := Init env (Z.of_nat (length argv)) argv zero_Config in
  (length argv <> 6%nat -> length argv <> 7%nat -> fst started = 1001)
  /\ (fst started <> EPTMD_SUCCESS -> main_from_argv env argv w = Some (-1, w))
  /\ (fst started = EPTMD_SUCCESS -> main_from_argv env argv w = main (snd started) w).
Proof.
  intros started. split; [| split].
  - intros N6 N7. unfold started, Init.
    destruct (Z.eqb_spec 6 (Z.of_nat (length argv))); [lia |].
    destruct (Z.eqb_spec 7 (Z.of_nat (length argv))); [lia |].
    reflexivity.
  - intros Hne. unfold main_from_argv. fold started.
    destruct started as [r c] eqn:E. cbn [fst] in Hne.
    destruct (Init_fields _ _ _ _ _ _ E) as (Hr & _).
    destruct (Z.eqb_spec r EPTMD_SUCCESS); [contradiction |].
    unfold ret, main_status.
    destruct (Z.eqb_spec r EPTMD_SUCCESS); [contradiction |].
    destruct (Z.eqb_spec r EPTMD_CANCEL) as [-> | _]; [unfold EPTMD_CANCEL in Hr; lia | reflexivity].
  - intros Hok. unfold main_from_argv. fold started.
    destruct started as [r c]. cbn [fst snd] in *. rewrite Hok. reflexivity.
Qed.

(** The filter started with two arguments only, a user file in place. *)
Lemma start_up_failure_writes_nothing_witness :
  main_from_argv example_startup ["TM-H6000IV"; "42"] long_file_world
  = Some (-1, long_file_world).
Proof.
  destruct (start_up_failure_writes_nothing example_startup ["TM-H6000IV"; "42"]
              long_file_world) as (Hargs & Hfail & _).
  apply Hfail. rewrite Hargs.
  - unfold EPTMD_SUCCESS. lia.
  - cbn. lia.
  - cbn. lia.
Defined.

(** ** Jobs: cancelled at the start, without pages, with a page that is not
       1 bit deep *)

Lemma user_bytes_advance b p k w printer name :
  user_bytes (advance b p k w) printer name = user_bytes w printer name.
Proof. reflexivity. Qed.

Lemma WriteUserFile_readable printer name w :
  sink w = [] ->
  files w !! user_file_path printer name <> Some Unreadable ->
  WriteUserFile printer name w
  = Some (EPTMD_SUCCESS, advance (user_bytes w printer name) 0 0 w).
Proof.
  intros Hs Hf. rewrite (WriteUserFile_healthy printer name w Hs).
  destruct (files w !! user_file_path printer name) as [[| bytes] |];
    [contradiction | reflexivity | reflexivity].
Qed.

Lemma flag_clear w :
  sigterm w <> Some 0%nat ->
  match sigterm w with Some O => true | _ => false end = false.
Proof. destruct (sigterm w) as [[| t] |]; [congruence | reflexivity | reflexivity]. Qed.

Lemma quiet_for_clear n w : quiet_for (S n) w -> sigterm w <> Some 0%nat.
Proof.
  unfold quiet_for. destruct (sigterm w) as [t |]; [| discriminate].
  intros H [= ->]. lia.
Qed.

Lemma quiet_for_advance b p k n m w :
  quiet_for (p + n) w -> (m <= n)%nat -> quiet_for m (advance b p k w).
Proof.
  unfold quiet_for. cbn. destruct (sigterm w) as [t |]; cbn; [lia | trivial].
Qed.

(** [StartJob] on a sink that takes everything, with the user file of the
    job start when there is one. *)
Lemma StartJob_with_file cfg w :
  sink w = [] -> sigterm w <> Some 0%nat ->
  files w !! user_file_path (p_printerName cfg) "StartJob.prn" <> Some Unreadable ->
  StartJob cfg w
  = Some (EPTMD_SUCCESS,
          advance (job_prologue cfg ++ user_bytes w (p_printerName cfg) "StartJob.prn")
            1 0 w).
Proof.
  intros Hs Hq Hf. unfold StartJob. cbv zeta.
  rewrite (bind_Some _ _ _ _ _ (g_TmCanceled_spec w)).
  rewrite (flag_clear w Hq).
  healthy_write 5. healthy_write 4. healthy_write 4. healthy_write 4. healthy_write 7.
  erewrite bind_Some; [| apply OpenDrawer_healthy; exact Hs].
  change (negb (EPTMD_SUCCESS =? EPTMD_SUCCESS)) with false. cbv iota.
  rewrite advance_advance.
  erewrite bind_Some; [| apply SoundBuzzer_healthy; exact Hs].
  change (negb (EPTMD_SUCCESS =? EPTMD_SUCCESS)) with false. cbv iota.
  rewrite advance_advance.
  erewrite bind_Some; [| apply WriteUserFile_readable; [exact Hs | exact Hf]].
  change (negb (EPTMD_SUCCESS =? EPTMD_SUCCESS)) with false. cbv iota.
  rewrite advance_advance, user_bytes_advance.
  unfold ret, job_prologue. rewrite <- !app_assoc. reflexivity.
Qed.

Lemma EndJob_with_file cfg w :
  sink w = [] -> sigterm w <> Some 0%nat ->
  files w !! user_file_path (p_printerName cfg) "EndJob.prn" <> Some Unreadable ->
  EndJob cfg w
  = Some (EPTMD_SUCCESS,
          advance (user_bytes w (p_printerName cfg) "EndJob.prn") 1 0 w).
Proof.
  intros Hs Hq Hf. unfold EndJob.
  rewrite (bind_Some _ _ _ _ _ (g_TmCanceled_spec w)).
  rewrite (flag_clear w Hq).
  erewrite bind_Some; [| apply WriteUserFile_readable; [exact Hs | exact Hf]].
  change (negb (EPTMD_SUCCESS =? EPTMD_SUCCESS)) with false. cbv iota.
  rewrite advance_advance, user_bytes_advance. reflexivity.
Qed.

(** X13.  A job cancelled before it starts leaves the printer alone: with
    the flag set when [DoJob] is entered, [StartJob] and [EndJob] both
    return at their first statement, nothing is written, no page is taken
    off the raster stream, the job's result is [EPTMD_CANCEL] and the exit
    status is -2. *)
Theorem job_cancelled_at_start (cfg : EPTMS_CONFIG_T) (w : World) :
  sigterm w = Some 0%nat ->
  DoJob cfg w = Some (EPTMD_CANCEL, w) /\ main cfg w = Some (-2, w).
Proof.
  intros Hq.
  assert (Hstart : StartJob cfg w = Some (EPTMD_CANCEL, w))
    by (unfold StartJob, bind, g_TmCanceled; rewrite Hq; reflexivity).
  assert (Hpages : DoJob_pages cfg w = Some (EPTMD_CANCEL, w))
    by (unfold DoJob_pages; rewrite (bind_Some _ _ _ _ _ Hstart); reflexivity).
  assert (Hjob : DoJob cfg w = Some (EPTMD_CANCEL, w)).
  { unfold DoJob. rewrite (bind_Some _ _ _ _ _ Hpages).
    change (negb (EPTMD_CANCEL =? EPTMD_SUCCESS)) with true. cbv iota.
    rewrite (bind_Some _ _ _ _ _ (EndJob_canceled cfg w Hq)). reflexivity. }
  split; [exact Hjob |].
  unfold main. rewrite (bind_Some _ _ _ _ _ Hjob). reflexivity.
Qed.

(** The five-band job with the signal already in when the job starts. *)
Lemma job_cancelled_at_start_witness :
  DoJob (example_config TmPaperReductionOff)
    (set_sigterm (Some 0%nat) (example_world [five_band_page]))
  = Some (EPTMD_CANCEL, set_sigterm (Some 0%nat) (example_world [five_band_page])).
Proof.
  apply (job_cancelled_at_start (example_config TmPaperReductionOff)
           (set_sigterm (Some 0%nat) (example_world [five_band_page]))).
  reflexivity.
Defined.

(** X14.  A job without pages.  On a sink that takes everything, with no
    signal and user files that can be read, a raster stream that holds no
    page gives the job start (the five configuration commands, the drawer
    pulse or the buzzer command when configured, the file [StartJob.prn])
    followed by the file [EndJob.prn], nothing else, and the result is
    success. *)
Theorem job_without_pages (cfg : EPTMS_CONFIG_T) (w : World) :
  sink w = [] -> raster w = [] -> quiet_for 2 w ->
  files w !! user_file_path (p_printerName cfg) "StartJob.prn" <> Some Unreadable ->
  files w !! user_file_path (p_printerName cfg) "EndJob.prn" <> Some Unreadable ->
  DoJob cfg w
  = Some (EPTMD_SUCCESS,
          advance (job_prologue cfg
                   ++ user_bytes w (p_printerName cfg) "StartJob.prn"
                   ++ user_bytes w (p_printerName cfg) "EndJob.prn") 2 0 w).
Proof.
  intros Hs Hr Hq Hf1 Hf2.
  pose proof (StartJob_with_file cfg w Hs (quiet_for_clear 1 w Hq) Hf1) as Hstart.
  assert (Hpages : DoJob_pages cfg w
                   = Some (EPTMD_SUCCESS,
                           advance (job_prologue cfg
                                    ++ user_bytes w (p_printerName cfg) "StartJob.prn")
                             1 0 w)).
  { unfold DoJob_pages. rewrite (bind_Some _ _ _ _ _ Hstart).
    change (EPTMD_SUCCESS =? EPTMD_SUCCESS) with true. cbv beta iota.
    change (raster (advance _ 1 0 w)) with (raster w). rewrite Hr.
    cbn [length DoJob_loop]. unfold bind, cupsRasterReadHeader.
    change (raster (advance _ 1 0 w)) with (raster w). rewrite Hr. reflexivity. }
  unfold DoJob. rewrite (bind_Some _ _ _ _ _ Hpages).
  change (negb (EPTMD_SUCCESS =? EPTMD_SUCCESS)) with false. cbv iota.
  rewrite EndJob_with_file;
    [| exact Hs
     | apply (quiet_for_clear 0); apply (quiet_for_advance _ 1 _ 1); [exact Hq | lia]
     | exact Hf2].
  rewrite advance_advance, user_bytes_advance, <- app_assoc. reflexivity.
Qed.

(** The job without pages of the queue whose [StartJob.prn] holds 1500
    bytes. *)
Lemma job_without_pages_witness :
  DoJob (example_config TmPaperReductionOff) long_file_world
  = Some (EPTMD_SUCCESS,
          advance (job_prologue (example_config TmPaperReductionOff)
                   ++ replicate 1500 0x41) 2 0 long_file_world).
Proof.
  rewrite (job_without_pages (example_config TmPaperReductionOff) long_file_world).
  - vm_compute. reflexivity.
  - reflexivity.
  - reflexivity.
  - exact I.
  - vm_compute. discriminate.
  - vm_compute. discriminate.
Defined.

(** X15.  A page that is not 1 bit a pixel ends the job with the code 2001
    before anything of the page is written: when the first page header of
    the stream has another depth, the output is the job start followed by
    the file [EndJob.prn] (which [DoJob] still sends), the result is 2001,
    and the exit status is -1. *)
Theorem job_rejects_deep_page (cfg : EPTMS_CONFIG_T) (pg : cups_page)
    (rest_pages : list cups_page) (w : World) :
  sink w = [] -> raster w = pg :: rest_pages -> quiet_for 2 w ->
  cupsBitsPerPixel (page_header pg) <> 1 ->
  files w !! user_file_path (p_printerName cfg) "StartJob.prn" <> Some Unreadable ->
  files w !! user_file_path (p_printerName cfg) "EndJob.prn" <> Some Unreadable ->
  let w' :=
    set_raster rest_pages (page_pixels pg)
      (advance (job_prologue cfg
                ++ user_bytes w (p_printerName cfg) "StartJob.prn"
                ++ user_bytes w (p_printerName cfg) "EndJob.prn") 2 0 w) in
  DoJob cfg w = Some (2001, w') /\ main cfg w = Some (-1, w').
Proof.
  intros Hs Hr Hq Hbpp Hf1 Hf2 w'.
  assert (Hjob : DoJob cfg w = Some (2001, w')).
  { pose proof (StartJob_with_file cfg w Hs (quiet_for_clear 1 w Hq) Hf1) as Hstart.
    assert (Hpages : DoJob_pages cfg w
                     = Some (2001,
                             set_raster rest_pages (page_pixels pg)
                               (advance (job_prologue cfg
                                         ++ user_bytes w (p_printerName cfg) "StartJob.prn")
                                  1 0 w))).
    { unfold DoJob_pages. rewrite (bind_Some _ _ _ _ _ Hstart).
      change (EPTMD_SUCCESS =? EPTMD_SUCCESS) with true. cbv beta iota.
      change (raster (advance _ 1 0 w)) with (raster w). rewrite Hr.
      cbn [length]. set (fuel := length rest_pages). cbn [DoJob_loop].
      unfold bind at 1. unfold cupsRasterReadHeader.
      change (raster (advance _ 1 0 w)) with (raster w). rewrite Hr.
      destruct (Z.eqb_spec (cupsBitsPerPixel (page_header pg)) 1); [contradiction |].
      reflexivity. }
    unfold DoJob. rewrite (bind_Some _ _ _ _ _ Hpages).
    change (negb (2001 =? EPTMD_SUCCESS)) with true. cbv iota.
    erewrite bind_Some;
      [| apply EndJob_with_file;
         [ exact Hs
         | cbn; unfold quiet_for in Hq; destruct (sigterm w) as [t |]; cbn;
           [intros [= E]; lia | discriminate]
         | exact Hf2 ] ].
    unfold ret, w'. rewrite advance_set_raster, advance_advance.
    rewrite <- app_assoc. reflexivity. }
  split; [exact Hjob |].
  unfold main. rewrite (bind_Some _ _ _ _ _ Hjob). reflexivity.
Qed.

(** A stream whose first page is 8 bits deep. *)
Lemma job_rejects_deep_page_witness :
  DoJob (example_config TmPaperReductionOff) (example_world [deep_page])
  = Some (2001,
          set_raster [] [[0xff]]
            (advance (job_prologue (example_config TmPaperReductionOff)) 2 0
               (example_world [deep_page]))).
Proof.
  destruct (job_rejects_deep_page (example_config TmPaperReductionOff) deep_page []
              (example_world [deep_page])) as [Hjob _].
  - reflexivity.
  - reflexivity.
  - exact I.
  - discriminate.
  - vm_compute. discriminate.
  - vm_compute. discriminate.
  - rewrite Hjob. vm_compute. reflexivity.
Defined.

(** ** Reading the raster of a page *)

(** Byte [x] of line [y] in the concatenation of lines of one width. *)
Lemma load_concat (n : Z) (ls : list (list Z)) :
  Forall (fun l => Z.of_nat (length l) = n) ls ->
  forall y x, 0 <= x < n -> 0 <= y < Z.of_nat (length ls) ->
  load (concat ls) (n * y + x) = load (default [] (ls !! Z.to_nat y)) x.
Proof.
  induction 1 as [| l ls Hl Hall IH]; intros y x Hx Hy; [cbn in Hy; lia |].
  cbn [concat]. unfold load.
  destruct (Z.ltb_spec (n * y + x) 0); [nia |].
  destruct (Z.ltb_spec x 0); [lia |].
  destruct (Z.eq_dec y 0) as [-> | Hy0].
  - rewrite Z.mul_0_r, Z.add_0_l. change (Z.to_nat 0) with 0%nat. cbn [lookup list_lookup].
    rewrite lookup_app_l by lia. reflexivity.
  - rewrite lookup_app_r by nia.
    replace (Z.to_nat (n * y + x) - length l)%nat with (Z.to_nat (n * (y - 1) + x)) by nia.
    replace (Z.to_nat y) with (S (Z.to_nat (y - 1))) by lia. cbn [lookup list_lookup].
    specialize (IH (y - 1) x Hx ltac:(cbn [length] in Hy; lia)).
    unfold load in IH.
    destruct (Z.ltb_spec (n * (y - 1) + x) 0); [nia |].
    destruct (Z.ltb_spec x 0); [lia |].
    exact IH.
Qed.

(** X16.  [ReadRaster] fills the page buffer with the page.  When the
    stream holds the [cupsHeight] scanlines of the page, each of
    [cupsBytesPerLine] bytes, and no signal comes, the result is success
    and the page buffer is the scanlines one after the other, byte [x] of
    scanline [y] at offset [cupsBytesPerLine * y + x], whatever the buffer
    held before (it is the buffer of the page before); nothing is written. *)
Theorem ReadRaster_fills_page (hdr : cups_page_header_t) (buf : list Z) (w : World) :
  length (pixels w) = Z.to_nat (cupsHeight hdr) ->
  Forall (fun l => Z.of_nat (length l) = cupsBytesPerLine hdr) (pixels w) ->
  0 <= cupsBytesPerLine hdr -> 0 <= cupsHeight hdr ->
  Z.of_nat (length buf) = cupsBytesPerLine hdr * cupsHeight hdr ->
  cupsBytesPerLine hdr * cupsHeight hdr < 2 ^ 32 ->
  quiet_for (Z.to_nat (cupsHeight hdr)) w ->
  exists page w',
    ReadRaster hdr buf w = Some ((EPTMD_SUCCESS, page), w')
    /\ page = concat (pixels w)
    /\ stdout w' = stdout w /\ pixels w' = []
    /\ forall y x,
         0 <= y < cupsHeight hdr -> 0 <= x < cupsBytesPerLine hdr ->
         load page (cupsBytesPerLine hdr * y + x)
         = load (default [] (pixels w !! Z.to_nat y)) x.
Proof.
  intros Hn Hall Hb Hh Hlen Hsz Hq.
  eexists. eexists.
  split; [apply ReadRaster_healthy; assumption |].
  split; [reflexivity |].
  split; [cbn; apply app_nil_r |].
  split; [reflexivity |].
  intros y x Hy Hx. apply load_concat; [exact Hall | exact Hx | lia].
Qed.

(** The page of 8 scanlines whose scanline 5 is black, read over a buffer
    that still holds a black page. *)
Lemma ReadRaster_fills_page_witness :
  exists w',
    ReadRaster coarse_header (replicate 8 0xff)
      (set_raster [] [[0]; [0]; [0]; [0]; [0]; [1]; [0]; [0]] (example_world []))
    = Some ((EPTMD_SUCCESS, example_page), w').
Proof.
  destruct (ReadRaster_fills_page coarse_header (replicate 8 0xff)
              (set_raster [] [[0]; [0]; [0]; [0]; [0]; [1]; [0]; [0]] (example_world [])))
    as (page & w' & Hrun & Hpage & _).
  - reflexivity.
  - repeat constructor.
  - cbn. lia.
  - cbn. lia.
  - reflexivity.
  - reflexivity.
  - exact I.
  - exists w'. rewrite Hrun, Hpage. reflexivity.
Defined.




(** ** The band command and the feed commands *)

(** X18.  The band command announces the width in two bytes, low byte
    first: it is [ESC * 1 nL nH] with [nL] and [nH] the two low bytes of
    [cupsWidth], so the announced number of columns is [cupsWidth] modulo
    65536 (the band data that follows has [cupsBytesPerLine * 8] bytes
    whatever the announcement). *)
Theorem band_command_announces_width (hdr : cups_page_header_t) :
  band_command hdr
  = [ESC; 0x2a; 1; cupsWidth hdr mod 256; (cupsWidth hdr / 256) mod 256]
  /\ 0 <= cupsWidth hdr mod 256 < 256
  /\ 0 <= (cupsWidth hdr / 256) mod 256 < 256
  /\ cupsWidth hdr mod 256 + 256 * ((cupsWidth hdr / 256) mod 256)
     = cupsWidth hdr mod 65536.
Proof.
  split; [| split; [| split]].
  - unfold band_command.
    change 255 with (Z.ones 8). rewrite !Z.land_ones by lia.
    rewrite Z.shiftr_div_pow2 by lia. reflexivity.
  - apply Z.mod_pos_bound. lia.
  - apply Z.mod_pos_bound. lia.
  - change 65536 with (256 * 256). rewrite Z.rem_mul_r by lia. reflexivity.
Qed.

(** X19.  Every feed command carries a distance of 1 to 255.  On a sink
    that takes everything a feed writes the commands [ESC J n] of
    [feed_output], one for every started 255 units of the distance, and no
    command has the distance 0 or a distance that does not fit the byte. *)
Theorem feed_distances_fit_a_byte (cfg : EPTMS_CONFIG_T) (hdr : cups_page_header_t)
    (n : Z) (w : World) :
  sink w = [] -> 0 < HWResolution1 hdr ->
  FeedPaper cfg hdr n w = Some (EPTMD_SUCCESS, advance (feed_output cfg hdr n) 0 0 w)
  /\ Forall (fun d => 1 <= d <= 255) (feed_distances (feed_output cfg hdr n))
  /\ Z.of_nat (length (feed_distances (feed_output cfg hdr n)))
     = (FeedPaper_point cfg hdr n + 254) / 255.
Proof.
  intros Hs Hr. split; [apply FeedPaper_healthy; assumption |].
  unfold feed_output.
  rewrite <- (app_nil_r (feed_bytes _)), feed_distances_feed_bytes, app_nil_r.
  pose proof (FeedPaper_point_range cfg hdr n Hr) as Hrange.
  destruct (Z.eq_dec (FeedPaper_point cfg hdr n) 0) as [E | Hne].
  - rewrite E. split; [constructor | reflexivity].
  - destruct (feed_chunks_spec (FeedPaper_point cfg hdr n)) as (q & r & Hch & Hd & Hrr & Hq);
      [lia |].
    rewrite Hch. split.
    + apply Forall_app. split; [| repeat constructor; lia].
      apply Forall_replicate. lia.
    + rewrite length_app, length_replicate. cbn [length].
      assert ((FeedPaper_point cfg hdr n + 254) / 255 = Z.of_nat q + 1); [| lia].
      symmetry. apply Z.div_unique with (r := r - 1); lia.
Qed.

(** The feed for 6000 scanlines at motion unit 10 and 203 dpi: two
    commands, for 255 and 40. *)
Lemma feed_distances_fit_a_byte_witness :
  Forall (fun d => 1 <= d <= 255)
    (feed_distances (feed_output (example_config TmPaperReductionOff) example_header 6000))
  /\ Z.of_nat (length (feed_distances
                         (feed_output (example_config TmPaperReductionOff)
                            example_header 6000)))
     = 2.
Proof.
  destruct (feed_distances_fit_a_byte (example_config TmPaperReductionOff) example_header
              6000 (example_world [])) as (_ & Hall & Hlen).
  - reflexivity.
  - reflexivity.
  - split; [exact Hall | rewrite Hlen; reflexivity].
Defined.

(** ** The whole output of a page and of a job *)

Lemma stdout_advance b p k w : stdout (advance b p k w) = stdout w ++ b.
Proof. reflexivity. Qed.

Lemma stdout_set_raster r px w : stdout (set_raster r px w) = stdout w.
Proof. reflexivity. Qed.

Lemma user_bytes_set_raster r px w printer name :
  user_bytes (set_raster r px w) printer name = user_bytes w printer name.
Proof. reflexivity. Qed.

Lemma StartPage_with_file cfg w :
  sink w = [] ->
  files w !! user_file_path (p_printerName cfg) "StartPage.prn" <> Some Unreadable ->
  StartPage cfg w
  = Some (EPTMD_SUCCESS,
          advance (page_prologue ++ user_bytes w (p_printerName cfg) "StartPage.prn")
            0 0 w).
Proof.
  intros Hs Hf. unfold StartPage. cbv zeta. healthy_write 7.
  erewrite bind_Some; [| apply WriteUserFile_readable; [exact Hs | exact Hf]].
  change (negb (EPTMD_SUCCESS =? EPTMD_SUCCESS)) with false. cbv iota.
  rewrite advance_advance, user_bytes_advance. reflexivity.
Qed.

Lemma EndPage_with_file cfg hdr w :
  sink w = [] -> sigterm w <> Some 0%nat ->
  files w !! user_file_path (p_printerName cfg) "EndPage.prn" <> Some Unreadable ->
  EndPage cfg hdr w
  = Some (EPTMD_SUCCESS,
          advance (user_bytes w (p_printerName cfg) "EndPage.prn" ++ [ESC; 0x46; 0; FF])
            1 0 w).
Proof.
  intros Hs Hq Hf. unfold EndPage.
  rewrite (bind_Some _ _ _ _ _ (g_TmCanceled_spec w)).
  rewrite (flag_clear w Hq).
  erewrite bind_Some; [| apply WriteUserFile_readable; [exact Hs | exact Hf]].
  change (negb (EPTMD_SUCCESS =? EPTMD_SUCCESS)) with false. cbv iota zeta.
  rewrite advance_advance, user_bytes_advance.
  erewrite bind_Some;
    [| apply (WriteData_healthy [ESC; 0x46; 0; FF] 4); [exact Hs | reflexivity | reflexivity]].
  change (negb (EPTMD_SUCCESS =? EPTMD_SUCCESS)) with false. cbv iota.
  rewrite advance_advance. reflexivity.
Qed.

(** The raster of a page, blank or not, when no signal is seen. *)
Lemma WriteRaster_healthy cfg hdr buf w :
  maxBandLines cfg = 8 -> 0 < HWResolution1 hdr ->
  0 <= cupsBytesPerLine hdr -> cupsBytesPerLine hdr * 8 < 2 ^ 31 ->
  0 <= cupsHeight hdr /\ cupsHeight hdr + 8 <= 2 ^ 32 ->
  cupsBytesPerLine hdr * cupsHeight hdr < 2 ^ 32 ->
  sink w = [] -> quiet_for (Nat.pred (page_bands hdr buf)) w ->
  WriteRaster cfg hdr buf w
  = Some (EPTMD_SUCCESS,
          advance (raster_output cfg hdr buf (uninit w) (sanitized w))
            (Nat.pred (page_bands hdr buf)) (page_bands hdr buf) w).
Proof.
  intros H8 Hr Hb Hb8 Hh Hsz Hs Hq. unfold raster_output, page_bands in *. cbv zeta in *.
  destruct (Z.eqb_spec (cupsHeight hdr) (FindBlackRasterLineTop hdr buf)) as [E | Hne].
  - apply WriteRaster_blank; [exact Hr | exact Hs | symmetry; exact E].
  - cbn [Nat.pred].
    apply (WriteRaster_completes cfg hdr buf H8 Hr Hb Hb8 Hh Hsz w Hs);
      [congruence |].
    unfold quiet_for in *. destruct (sigterm w); [lia | exact I].
Qed.

(** A page on a sink that takes everything when no signal is seen. *)
Lemma DoPage_healthy cfg pg buf0 w :
  maxBandLines cfg = 8 ->
  page_of_size (Z.of_nat (length buf0)) pg ->
  sink w = [] -> pixels w = page_pixels pg ->
  files w !! user_file_path (p_printerName cfg) "StartPage.prn" <> Some Unreadable ->
  files w !! user_file_path (p_printerName cfg) "EndPage.prn" <> Some Unreadable ->
  let bands := page_bands (page_header pg) (concat (page_pixels pg)) in
  quiet_for (Z.to_nat (cupsHeight (page_header pg)) + Nat.pred bands + 1) w ->
  DoPage cfg (page_header pg) buf0 w
  = Some ((EPTMD_SUCCESS, concat (page_pixels pg)),
          set_raster (raster w) []
            (advance
               (page_output cfg (user_bytes w (p_printerName cfg) "StartPage.prn")
                  (user_bytes w (p_printerName cfg) "EndPage.prn") pg
                  (uninit w) (sanitized w))
               (Z.to_nat (cupsHeight (page_header pg)) + Nat.pred bands + 1) bands w)).
Proof.
  intros H8 (Hbpp & Hr & Hb & Hb8 & Hh0 & Hh8 & Hsize & Hsz & Hn & Hall) Hs Hpx Hf1 Hf2
    bands Hq.
  set (hdr := page_header pg) in *. set (lines := page_pixels pg) in *.
  unfold DoPage.
  rewrite (bind_Some _ _ _ _ _ (StartPage_with_file cfg w Hs Hf1)).
  change (EPTMD_SUCCESS =? EPTMD_SUCCESS) with true. cbv iota.
  erewrite bind_Some;
    [| apply ReadRaster_healthy;
       [ cbn; rewrite Hpx; exact Hn
       | cbn; rewrite Hpx; exact Hall
       | exact Hb | exact Hh0 | lia | lia
       | unfold quiet_for in *; cbn; destruct (sigterm w); cbn; [lia | exact I] ] ].
  change (EPTMD_SUCCESS =? EPTMD_SUCCESS) with true. cbv iota.
  change (pixels (advance _ 0 0 w)) with (pixels w). rewrite Hpx.
  erewrite bind_Some;
    [| apply (WriteRaster_healthy cfg hdr (concat lines) _ H8 Hr Hb Hb8 (conj Hh0 Hh8));
       [ lia | exact Hs
       | unfold quiet_for in *; cbn; destruct (sigterm w); cbn; [fold bands; lia | exact I] ] ].
  change (EPTMD_SUCCESS =? EPTMD_SUCCESS) with true. cbv iota.
  fold bands.
  erewrite bind_Some;
    [| apply EndPage_with_file;
       [ exact Hs
       | cbn; unfold quiet_for in Hq; destruct (sigterm w) as [t |]; cbn;
         [intros [= E]; lia | discriminate]
       | exact Hf2 ] ].
  unfold ret, page_output.
  rewrite !advance_set_raster, !advance_advance.
  rewrite user_bytes_set_raster, user_bytes_advance.
  cbn [uninit sanitized advance set_raster raster].
  fold hdr lines.
  replace (sanitized w + (0 + 0))%nat with (sanitized w) by lia.
  f_equal. f_equal. f_equal.
  f_equal; try lia; rewrite ?app_nil_l, <- ?app_assoc; reflexivity.
Qed.

(** X20.  The bytes of a page.  On a sink that takes everything, with no
    signal seen and user files that can be read, a page of the stream
    (1 bit a pixel, its scanlines all there) is written as: the page start
    command and the file [StartPage.prn]; the raster (for a blank page the
    feed of the whole page under mode Off and nothing otherwise, else the
    top margin feed of the mode, the bands, the bottom margin feed of the
    mode); the file [EndPage.prn]; the eject command [ESC F 0 FF].  The
    result is success and the page buffer holds the page. *)
Theorem page_bytes (cfg : EPTMS_CONFIG_T) (pg : cups_page) (buf0 : list Z) (w : World) :
  maxBandLines cfg = 8 ->
  page_of_size (Z.of_nat (length buf0)) pg ->
  sink w = [] -> pixels w = page_pixels pg ->
  files w !! user_file_path (p_printerName cfg) "StartPage.prn" <> Some Unreadable ->
  files w !! user_file_path (p_printerName cfg) "EndPage.prn" <> Some Unreadable ->
  quiet_for (Z.to_nat (cupsHeight (page_header pg))
             + Nat.pred (page_bands (page_header pg) (concat (page_pixels pg))) + 1) w ->
  exists w',
    DoPage cfg (page_header pg) buf0 w
    = Some ((EPTMD_SUCCESS, concat (page_pixels pg)), w')
    /\ stdout w'
       = stdout w ++ page_prologue
         ++ user_bytes w (p_printerName cfg) "StartPage.prn"
         ++ raster_output cfg (page_header pg) (concat (page_pixels pg))
              (uninit w) (sanitized w)
         ++ user_bytes w (p_printerName cfg) "EndPage.prn"
         ++ [ESC; 0x46; 0; FF]
    /\ sanitized w'
       = (sanitized w + page_bands (page_header pg) (concat (page_pixels pg)))%nat.
Proof.
  intros H8 Hpg Hs Hpx Hf1 Hf2 Hq.
  eexists. split; [apply DoPage_healthy; assumption |].
  split; reflexivity.
Qed.

(** The page whose scanline 5 is black, at 8 dpi under mode Both: the page
    start, one band with its feed, the eject command. *)
Lemma page_bytes_witness :
  exists w',
    DoPage (example_config TmPaperReductionBoth) coarse_header (replicate 8 0)
      (set_raster [] (page_pixels black_line_page) (example_world []))
    = Some ((EPTMD_SUCCESS, example_page), w')
    /\ stdout w'
       = [GS; 0x28; 0x47; 2; 0; 84; 1]
         ++ [ESC; 0x2a; 1; 8; 0; 0; 0; 0; 0; 0; 0; 0; 0x80; ESC; 0x4a; 10]
         ++ [ESC; 0x46; 0; FF].
Proof.
  destruct (page_bytes (example_config TmPaperReductionBoth) black_line_page
              (replicate 8 0)
              (set_raster [] (page_pixels black_line_page) (example_world [])))
    as (w' & Hrun & Hout & _).
  - reflexivity.
  - repeat split; try reflexivity; try (cbn; lia). repeat constructor.
  - reflexivity.
  - reflexivity.
  - vm_compute. discriminate.
  - vm_compute. discriminate.
  - exact I.
  - exists w'. split; [exact Hrun |]. rewrite Hout. vm_compute. reflexivity.
Defined.

(** ** Cancellation outside the band loop *)




(** X22.  A page cancelled before it is ejected.  [EndPage] reads the flag
    first: when the flag is set after the raster of the page has been
    written (it read 0 while the page was read and between the bands),
    [DoPage] returns [EPTMD_CANCEL] with the whole raster of the page on
    the sink, and neither the file [EndPage.prn] nor the eject command
    [ESC F 0 FF] behind it. *)
Theorem page_cancelled_before_eject (cfg : EPTMS_CONFIG_T) (pg : cups_page)
    (buf0 : list Z) (w : World) :
  maxBandLines cfg = 8 ->
  page_of_size (Z.of_nat (length buf0)) pg ->
  sink w = [] -> pixels w = page_pixels pg ->
  files w !! user_file_path (p_printerName cfg) "StartPage.prn" <> Some Unreadable ->
  sigterm w
  = Some (Z.to_nat (cupsHeight (page_header pg))
          + Nat.pred (page_bands (page_header pg) (concat (page_pixels pg))))%nat ->
  exists w',
    DoPage cfg (page_header pg) buf0 w
    = Some ((EPTMD_CANCEL, concat (page_pixels pg)), w')
    /\ stdout w'
       = stdout w ++ page_prologue
         ++ user_bytes w (p_printerName cfg) "StartPage.prn"
         ++ raster_output cfg (page_header pg) (concat (page_pixels pg))
              (uninit w) (sanitized w).
Proof.
  intros H8 (Hbpp & Hr & Hb & Hb8 & Hh0 & Hh8 & Hsize & Hsz & Hn & Hall) Hs Hpx Hf1 Hq.
  set (hdr := page_header pg) in *. set (lines := page_pixels pg) in *.
  set (bands := page_bands hdr (concat lines)) in *.
  eexists. split.
  - unfold DoPage.
    rewrite (bind_Some _ _ _ _ _ (StartPage_with_file cfg w Hs Hf1)).
    change (EPTMD_SUCCESS =? EPTMD_SUCCESS) with true. cbv iota.
    erewrite bind_Some;
      [| apply ReadRaster_healthy;
         [ cbn; rewrite Hpx; exact Hn
         | cbn; rewrite Hpx; exact Hall
         | exact Hb | exact Hh0 | lia | lia
         | unfold quiet_for; cbn; rewrite Hq; cbn; lia ] ].
    change (EPTMD_SUCCESS =? EPTMD_SUCCESS) with true. cbv iota.
    change (pixels (advance _ 0 0 w)) with (pixels w). rewrite Hpx.
    erewrite bind_Some;
      [| apply (WriteRaster_healthy cfg hdr (concat lines) _ H8 Hr Hb Hb8 (conj Hh0 Hh8));
         [ lia | exact Hs
         | unfold quiet_for; cbn; rewrite Hq; cbn; fold bands; lia ] ].
    change (EPTMD_SUCCESS =? EPTMD_SUCCESS) with true. cbv iota.
    fold bands.
    erewrite bind_Some;
      [| apply EndPage_canceled; cbn; rewrite Hq; cbn; f_equal; lia ].
    reflexivity.
  - rewrite !stdout_advance, !stdout_set_raster, !stdout_advance.
    cbn [uninit sanitized advance set_raster]. rewrite !Nat.add_0_r.
    rewrite app_nil_r, <- !app_assoc. reflexivity.
Qed.

(** The page whose scanline 5 is black when the signal comes while its one
    band is written: the band is on the sink, the eject command is not. *)
Lemma page_cancelled_before_eject_witness :
  exists w',
    DoPage (example_config TmPaperReductionBoth) coarse_header (replicate 8 0)
      (set_sigterm (Some 8%nat)
         (set_raster [] (page_pixels black_line_page) (example_world [])))
    = Some ((EPTMD_CANCEL, example_page), w')
    /\ stdout w'
       = [GS; 0x28; 0x47; 2; 0; 84; 1]
         ++ [ESC; 0x2a; 1; 8; 0; 0; 0; 0; 0; 0; 0; 0; 0x80; ESC; 0x4a; 10].
Proof.
  destruct (page_cancelled_before_eject (example_config TmPaperReductionBoth)
              black_line_page (replicate 8 0)
              (set_sigterm (Some 8%nat)
                 (set_raster [] (page_pixels black_line_page) (example_world []))))
    as (w' & Hrun & Hout).
  - reflexivity.
  - repeat split; try reflexivity; try (cbn; lia). repeat constructor.
  - reflexivity.
  - reflexivity.
  - vm_compute. discriminate.
  - vm_compute. reflexivity.
  - exists w'. split; [exact Hrun |]. rewrite Hout. vm_compute. reflexivity.
Defined.

Lemma length_concat_lines (n : Z) (ls : list (list Z)) :
  Forall (fun l => Z.of_nat (length l) = n) ls ->
  Z.of_nat (length (concat ls)) = n * Z.of_nat (length ls).
Proof.
  induction 1 as [| l ls Hl _ IH]; [cbn; lia |].
  cbn [concat length]. rewrite length_app. lia.
Qed.

Lemma set_raster_same w : set_raster (raster w) (pixels w) w = w.
Proof. destruct w; reflexivity. Qed.

Lemma world_after_page (A B : list Z) (p b1 b2 : nat) rest px px' w :
  sigterm w = None ->
  set_raster [] px'
    (advance B 0 b2
       (set_raster (raster (set_raster rest px w)) []
          (advance A p b1 (set_raster rest px w))))
  = set_raster [] px' (advance (A ++ B) 0 (b1 + b2) w).
Proof.
  intros H. destruct w as [out s t un k f r q]. cbn in H. subst t.
  unfold set_raster, advance. cbn. rewrite app_assoc, Nat.add_assoc. reflexivity.
Qed.

Section WholeJob.
Variable cfg : EPTMS_CONFIG_T.
Variable size : Z.
Hypothesis bands_of_8 : maxBandLines cfg = 8.

(** The loop of [DoJob] over pages of one size on a sink that takes
    everything when no signal comes. *)
Lemma DoJob_loop_healthy (pages : list cups_page) :
  Forall (page_of_size size) pages ->
  forall (fuel : nat) (p_pageBuffer : option (list Z)) (w : World),
    (length pages < fuel)%nat ->
    sink w = [] -> sigterm w = None -> raster w = pages ->
    files w !! user_file_path (p_printerName cfg) "StartPage.prn" <> Some Unreadable ->
    files w !! user_file_path (p_printerName cfg) "EndPage.prn" <> Some Unreadable ->
    match p_pageBuffer with
    | None => True
    | Some buffer => Z.of_nat (length buffer) = size
    end ->
    DoJob_loop fuel cfg p_pageBuffer w
    = Some (EPTMD_SUCCESS,
            set_raster [] (match pages with [] => pixels w | _ => [] end)
              (advance
                 (pages_output cfg (user_bytes w (p_printerName cfg) "StartPage.prn")
                    (user_bytes w (p_printerName cfg) "EndPage.prn") pages
                    (uninit w) (sanitized w))
                 0 (pages_bands pages) w)).
Proof.
  induction 1 as [| pg rest Hpg Hall IH];
    intros fuel p_pageBuffer w Hf Hs Hq Hr Hf1 Hf2 Hbuf;
    (destruct fuel as [| fuel]; [cbn in Hf; lia |]); cbn [DoJob_loop];
    unfold bind at 1; unfold cupsRasterReadHeader; rewrite Hr.
  - unfold ret. cbn [pages_output pages_bands]. rewrite advance_nil.
    rewrite <- Hr, set_raster_same. reflexivity.
  - pose proof Hpg as (Hbpp & Hres & Hb & Hb8 & Hh0 & Hh8 & Hsize & Hsz & Hn & Hw).
    cbv zeta in Hbpp. rewrite Hbpp. change (negb (1 =? 1)) with false. cbv iota.
    set (buffer := match p_pageBuffer with
                   | None =>
                       replicate
                         (Z.to_nat (wrap32 (cupsHeight (page_header pg)
                                            * cupsBytesPerLine (page_header pg)))) 0
                   | Some buffer => buffer
                   end).
    assert (Hlen : Z.of_nat (length buffer) = size).
    { unfold buffer. destruct p_pageBuffer as [b |]; [exact Hbuf |].
      rewrite length_replicate, wrap32_small by nia. nia. }
    set (w0 := set_raster rest (page_pixels pg) w).
    erewrite bind_Some;
      [| apply (DoPage_healthy cfg pg buffer w0 bands_of_8);
         [ rewrite Hlen; exact Hpg | exact Hs | reflexivity | exact Hf1 | exact Hf2
         | unfold quiet_for; cbn; rewrite Hq; exact I ] ].
    cbv beta iota. change (EPTMD_SUCCESS =? EPTMD_SUCCESS) with true. cbv beta iota.
    set (b1 := page_bands (page_header pg) (concat (page_pixels pg))).
    match goal with
    | |- DoJob_loop _ _ _ ?w = _ => set (w1 := w)
    end.
    rewrite IH.
    + change (uninit w1) with (uninit w).
      change (sanitized w1) with (sanitized w + b1)%nat.
      change (user_bytes w1 (p_printerName cfg) "StartPage.prn")
        with (user_bytes w (p_printerName cfg) "StartPage.prn").
      change (user_bytes w1 (p_printerName cfg) "EndPage.prn")
        with (user_bytes w (p_printerName cfg) "EndPage.prn").
      change (user_bytes w0 (p_printerName cfg) "StartPage.prn")
        with (user_bytes w (p_printerName cfg) "StartPage.prn") in w1.
      change (user_bytes w0 (p_printerName cfg) "EndPage.prn")
        with (user_bytes w (p_printerName cfg) "EndPage.prn") in w1.
      change (uninit w0) with (uninit w) in w1.
      change (sanitized w0) with (sanitized w) in w1.
      replace (match rest with [] => pixels w1 | _ :: _ => [] end)
        with ([] : list (list Z)) by (destruct rest; reflexivity).
      cbn [pages_output pages_bands]. fold b1.
      unfold w1, w0. rewrite world_after_page by exact Hq. reflexivity.
    + cbn [length] in Hf. lia.
    + exact Hs.
    + cbn. rewrite Hq. reflexivity.
    + reflexivity.
    + exact Hf1.
    + exact Hf2.
    + rewrite (length_concat_lines (cupsBytesPerLine (page_header pg))) by exact Hw.
      rewrite Hn. cbv zeta in Hsize. lia.
Qed.

End WholeJob.

(** A job on a sink that takes everything when no signal comes. *)
Lemma DoJob_healthy (cfg : EPTMS_CONFIG_T) (size : Z) (w : World) :
  maxBandLines cfg = 8 ->
  Forall (page_of_size size) (raster w) ->
  sink w = [] -> sigterm w = None ->
  files w !! user_file_path (p_printerName cfg) "StartJob.prn" <> Some Unreadable ->
  files w !! user_file_path (p_printerName cfg) "StartPage.prn" <> Some Unreadable ->
  files w !! user_file_path (p_printerName cfg) "EndPage.prn" <> Some Unreadable ->
  files w !! user_file_path (p_printerName cfg) "EndJob.prn" <> Some Unreadable ->
  exists w',
    DoJob cfg w = Some (EPTMD_SUCCESS, w')
    /\ main cfg w = Some (0, w')
    /\ stdout w'
       = stdout w ++ job_prologue cfg
         ++ user_bytes w (p_printerName cfg) "StartJob.prn"
         ++ pages_output cfg (user_bytes w (p_printerName cfg) "StartPage.prn")
              (user_bytes w (p_printerName cfg) "EndPage.prn") (raster w)
              (uninit w) (sanitized w)
         ++ user_bytes w (p_printerName cfg) "EndJob.prn"
    /\ raster w' = [].
Proof.
  intros H8 Hall Hs Hq Hf1 Hf2 Hf3 Hf4.
  assert (Hnq : sigterm w <> Some 0%nat) by (rewrite Hq; discriminate).
  pose proof (StartJob_with_file cfg w Hs Hnq Hf1) as Hstart.
  set (w1 := advance (job_prologue cfg ++ user_bytes w (p_printerName cfg) "StartJob.prn")
               1 0 w) in *.
  pose proof (DoJob_loop_healthy cfg size H8 (raster w) Hall (S (length (raster w))) None w1
                ltac:(lia) Hs ltac:(cbn; rewrite Hq; reflexivity) eq_refl Hf2 Hf3 I)
    as Hloop.
  assert (Hpages : DoJob_pages cfg w = DoJob_loop (S (length (raster w))) cfg None w1).
  { unfold DoJob_pages. rewrite (bind_Some _ _ _ _ _ Hstart). reflexivity. }
  rewrite Hloop in Hpages.
  match type of Hpages with _ = Some (_, ?x) => set (w2 := x) in * end.
  assert (Hend : EndJob cfg w2
                 = Some (EPTMD_SUCCESS,
                         advance (user_bytes w (p_printerName cfg) "EndJob.prn") 1 0 w2)).
  { exact (EndJob_with_file cfg w2 Hs ltac:(cbn; rewrite Hq; discriminate) Hf4). }
  assert (Hjob : DoJob cfg w
                 = Some (EPTMD_SUCCESS,
                         advance (user_bytes w (p_printerName cfg) "EndJob.prn") 1 0 w2)).
  { unfold DoJob. rewrite (bind_Some _ _ _ _ _ Hpages).
    change (negb (EPTMD_SUCCESS =? EPTMD_SUCCESS)) with false. cbv iota. exact Hend. }
  eexists. split; [exact Hjob |].
  split; [unfold main; rewrite (bind_Some _ _ _ _ _ Hjob); reflexivity |].
  split; [| reflexivity].
  rewrite stdout_advance. unfold w2. rewrite stdout_set_raster, stdout_advance.
  change (uninit w1) with (uninit w).
  change (sanitized w1) with (sanitized w + 0)%nat. rewrite Nat.add_0_r.
  change (user_bytes w1 (p_printerName cfg) "StartPage.prn")
    with (user_bytes w (p_printerName cfg) "StartPage.prn").
  change (user_bytes w1 (p_printerName cfg) "EndPage.prn")
    with (user_bytes w (p_printerName cfg) "EndPage.prn").
  unfold w1. rewrite stdout_advance, <- !app_assoc. reflexivity.
Qed.

(** ** Cancellation in the band loop of a page of the job *)

Lemma world_after_pages (A B : list Z) (p1 p2 b1 b2 : nat) r px rem px' w :
  set_raster rem px'
    (advance B p2 b2
       (set_raster (raster (set_raster r px w)) []
          (advance A p1 b1 (set_raster r px w))))
  = set_raster rem px' (advance (A ++ B) (p1 + p2) (b1 + b2) w).
Proof.
  destruct w as [out s t un k f r0 q]. unfold set_raster, advance. cbn.
  rewrite app_assoc, Nat.add_assoc. f_equal.
  destruct t as [n |]; cbn; [f_equal; lia | reflexivity].
Qed.

Section PagesBefore.
Variable cfg : EPTMS_CONFIG_T.
Variable size : Z.
Hypothesis bands_of_8 : maxBandLines cfg = 8.

(** The loop of [DoJob] over the first pages of the stream, as long as no
    signal is seen: it comes to the page after them with their bytes on the
    sink. *)
Lemma DoJob_loop_pages (done : list cups_page) :
  Forall (page_of_size size) done ->
  forall (fuel : nat) (p_pageBuffer : option (list Z)) (w : World)
         (rem : list cups_page),
    raster w = done ++ rem ->
    sink w = [] -> quiet_for (pages_polls done) w ->
    files w !! user_file_path (p_printerName cfg) "StartPage.prn" <> Some Unreadable ->
    files w !! user_file_path (p_printerName cfg) "EndPage.prn" <> Some Unreadable ->
    match p_pageBuffer with
    | None => True
    | Some buffer => Z.of_nat (length buffer) = size
    end ->
    exists (buffer' : option (list Z)) (px' : list (list Z)),
      match buffer' with
      | None => True
      | Some buffer => Z.of_nat (length buffer) = size
      end
      /\ DoJob_loop (length done + fuel) cfg p_pageBuffer w
         = DoJob_loop fuel cfg buffer'
             (set_raster rem px'
                (advance
                   (pages_output cfg (user_bytes w (p_printerName cfg) "StartPage.prn")
                      (user_bytes w (p_printerName cfg) "EndPage.prn") done
                      (uninit w) (sanitized w))
                   (pages_polls done) (pages_bands done) w)).
Proof.
  induction 1 as [| pg done Hpg Hall IH];
    intros fuel p_pageBuffer w rem Hr Hs Hq Hf1 Hf2 Hbuf.
  - exists p_pageBuffer, (pixels w). split; [exact Hbuf |].
    cbn [length pages_output pages_polls pages_bands Nat.add].
    rewrite advance_nil. cbn [app] in Hr. rewrite <- Hr, set_raster_same. reflexivity.
  - cbn [length Nat.add DoJob_loop].
    unfold bind at 1. unfold cupsRasterReadHeader. rewrite Hr. cbn [app].
    pose proof Hpg as (Hbpp & Hres & Hb & Hb8 & Hh0 & Hh8 & Hsize & Hsz & Hn & Hw).
    cbv zeta in Hbpp. rewrite Hbpp. change (negb (1 =? 1)) with false. cbv iota.
    set (buffer := match p_pageBuffer with
                   | None =>
                       replicate
                         (Z.to_nat (wrap32 (cupsHeight (page_header pg)
                                            * cupsBytesPerLine (page_header pg)))) 0
                   | Some buffer => buffer
                   end).
    assert (Hlen : Z.of_nat (length buffer) = size).
    { unfold buffer. destruct p_pageBuffer as [b |]; [exact Hbuf |].
      rewrite length_replicate, wrap32_small by nia. nia. }
    set (w0 := set_raster (done ++ rem) (page_pixels pg) w).
    cbn [pages_polls] in Hq.
    erewrite bind_Some;
      [| apply (DoPage_healthy cfg pg buffer w0 bands_of_8);
         [ rewrite Hlen; exact Hpg | exact Hs | reflexivity | exact Hf1 | exact Hf2
         | unfold quiet_for, page_polls in *; cbn;
           destruct (sigterm w); [lia | exact I] ] ].
    cbv beta iota. change (EPTMD_SUCCESS =? EPTMD_SUCCESS) with true. cbv beta iota.
    match goal with
    | |- context [DoJob_loop _ _ (Some ?b) ?w] => set (w1 := w); set (b1 := b)
    end.
    destruct (IH fuel (Some b1) w1 rem) as (buffer' & px' & Hb' & Hrun).
    + reflexivity.
    + exact Hs.
    + unfold quiet_for, page_polls in *. cbn.
      destruct (sigterm w); cbn; [lia | exact I].
    + exact Hf1.
    + exact Hf2.
    + unfold b1.
      rewrite (length_concat_lines (cupsBytesPerLine (page_header pg))) by exact Hw.
      rewrite Hn. cbv zeta in Hsize. lia.
    + exists buffer', px'. split; [exact Hb' |]. rewrite Hrun.
      f_equal. unfold w1, w0. cbn [pages_output pages_polls pages_bands].
      change (user_bytes
                (set_raster (raster (set_raster (done ++ rem) (page_pixels pg) w)) []
                   (advance _ _ _ (set_raster (done ++ rem) (page_pixels pg) w)))
                (p_printerName cfg) "StartPage.prn")
        with (user_bytes w (p_printerName cfg) "StartPage.prn").
      change (user_bytes
                (set_raster (raster (set_raster (done ++ rem) (page_pixels pg) w)) []
                   (advance _ _ _ (set_raster (done ++ rem) (page_pixels pg) w)))
                (p_printerName cfg) "EndPage.prn")
        with (user_bytes w (p_printerName cfg) "EndPage.prn").
      change (user_bytes (set_raster (done ++ rem) (page_pixels pg) w)
                (p_printerName cfg) "StartPage.prn")
        with (user_bytes w (p_printerName cfg) "StartPage.prn").
      change (user_bytes (set_raster (done ++ rem) (page_pixels pg) w)
                (p_printerName cfg) "EndPage.prn")
        with (user_bytes w (p_printerName cfg) "EndPage.prn").
      rewrite world_after_pages. reflexivity.
Qed.

(** A page that is cancelled in its band loop: the flag is found set by the
    read after band [t + 1]. *)
Lemma DoPage_cancelled_in_band_loop (pg : cups_page) (buf0 : list Z) (t : nat)
    (w : World) :
  page_of_size (Z.of_nat (length buf0)) pg ->
  let hdr := page_header pg in
  let buf := concat (page_pixels pg) in
  let top := FindBlackRasterLineTop hdr buf in
  let last := FindBlackRasterLineEnd hdr buf + 1 in
  top <> cupsHeight hdr -> (t < loop_bands top last)%nat ->
  sink w = [] -> pixels w = page_pixels pg ->
  files w !! user_file_path (p_printerName cfg) "StartPage.prn" <> Some Unreadable ->
  sigterm w = Some (Z.to_nat (cupsHeight hdr) + t)%nat ->
  DoPage cfg hdr buf0 w
  = Some ((EPTMD_CANCEL, buf),
          set_raster (raster w) []
            (advance
               (page_prologue ++ user_bytes w (p_printerName cfg) "StartPage.prn"
                ++ (if feeds_top_margin (paperReduction cfg)
                    then feed_output cfg hdr top else [])
                ++ full_bands (S t) cfg hdr buf top (uninit w) (sanitized w))
               (Z.to_nat (cupsHeight hdr) + S t) (S t) w)).
Proof.
  intros (Hbpp & Hr & Hb & Hb8 & Hh0 & Hh8 & Hsize & Hsz & Hn & Hall)
    hdr buf top last Hne Ht Hs Hpx Hf Hq.
  fold hdr in Hr, Hb, Hb8, Hh0, Hh8, Hsize, Hn, Hall.
  unfold DoPage.
  rewrite (bind_Some _ _ _ _ _ (StartPage_with_file cfg w Hs Hf)).
  change (EPTMD_SUCCESS =? EPTMD_SUCCESS) with true. cbv iota.
  erewrite bind_Some;
    [| apply ReadRaster_healthy;
       [ cbn; rewrite Hpx; exact Hn
       | cbn; rewrite Hpx; exact Hall
       | exact Hb | exact Hh0 | lia | lia
       | unfold quiet_for; cbn; rewrite Hq; cbn; lia ] ].
  change (EPTMD_SUCCESS =? EPTMD_SUCCESS) with true. cbv iota.
  change (pixels (advance _ 0 0 w)) with (pixels w). rewrite Hpx. fold buf.
  erewrite bind_Some;
    [| apply (WriteRaster_canceled cfg hdr buf bands_of_8 Hr Hb Hb8 (conj Hh0 Hh8)
                ltac:(lia) _ t);
       [ exact Hs | exact Hne
       | cbn; rewrite Hq; cbn; f_equal; lia
       | exact Ht ] ].
  change (EPTMD_CANCEL =? EPTMD_SUCCESS) with false. cbv iota.
  unfold bind, ret.
  rewrite !advance_set_raster, !advance_advance.
  cbn [uninit sanitized advance set_raster raster].
  replace (sanitized w + (0 + 0))%nat with (sanitized w) by lia.
  rewrite <- !app_assoc. reflexivity.
Qed.

End PagesBefore.

(** C7 (as the code has it).  The band loop reads the flag after each of
    its bands (band, the band's feed, then the read), not before a band.
    A job of pages of one buffer size with its user files, on a sink that
    takes everything; the pages [before] are written to their end and the
    page [pg] after them is not blank.  When the flag is first found set by
    the read after band [t + 1] of the band loop of [pg] (it read 0 in
    [StartJob], all through the pages before, at every scanline of
    [ReadRaster] and after the [t] bands before), the job ends with
    [EPTMD_CANCEL], [main] returns -2, which is neither the 0 of success nor
    the -1 of failure, and the output is the job start, the pages before,
    the page start of [pg], its top margin feed of the mode and its
    [t + 1] bands with their feeds: no further band, no bottom feed, nothing
    of [EndPage], none of the pages after [pg] and nothing of [EndJob]. *)
Theorem cancellation_in_band_loop (cfg : EPTMS_CONFIG_T) (size : Z)
    (before : list cups_page) (pg : cups_page) (after : list cups_page)
    (t : nat) (w : World) :
  maxBandLines cfg = 8 ->
  Forall (page_of_size size) before -> page_of_size size pg ->
  let hdr := page_header pg in
  let buf := concat (page_pixels pg) in
  let top := FindBlackRasterLineTop hdr buf in
  let last := FindBlackRasterLineEnd hdr buf + 1 in
  top <> cupsHeight hdr ->
  (t < loop_bands top last)%nat ->
  sink w = [] ->
  raster w = before ++ pg :: after ->
  files w !! user_file_path (p_printerName cfg) "StartJob.prn" <> Some Unreadable ->
  files w !! user_file_path (p_printerName cfg) "StartPage.prn" <> Some Unreadable ->
  files w !! user_file_path (p_printerName cfg) "EndPage.prn" <> Some Unreadable ->
  sigterm w = Some (1 + pages_polls before + Z.to_nat (cupsHeight hdr) + t)%nat ->
  exists w',
    DoJob cfg w = Some (EPTMD_CANCEL, w')
    /\ main cfg w = Some (-2, w')
    /\ stdout w'
       = stdout w ++ job_prologue cfg
         ++ user_bytes w (p_printerName cfg) "StartJob.prn"
         ++ pages_output cfg (user_bytes w (p_printerName cfg) "StartPage.prn")
              (user_bytes w (p_printerName cfg) "EndPage.prn") before
              (uninit w) (sanitized w)
         ++ page_prologue ++ user_bytes w (p_printerName cfg) "StartPage.prn"
         ++ (if feeds_top_margin (paperReduction cfg)
             then feed_output cfg hdr top else [])
         ++ full_bands (S t) cfg hdr buf top (uninit w)
              (sanitized w + pages_bands before)
    /\ sigterm w' = Some 0%nat
    /\ raster w' = after
    /\ main_status EPTMD_CANCEL <> main_status EPTMD_SUCCESS
    /\ main_status EPTMD_CANCEL <> main_status EPTMD_FAILED.
Proof.
  intros H8 Hall Hpg hdr buf top last Hne Ht Hs Hras Hf1 Hf2 Hf3 Hq.
  assert (Hnq : sigterm w <> Some 0%nat) by (rewrite Hq; discriminate).
  pose proof (StartJob_with_file cfg w Hs Hnq Hf1) as Hstart.
  set (w1 := advance (job_prologue cfg ++ user_bytes w (p_printerName cfg) "StartJob.prn")
               1 0 w) in *.
  destruct (DoJob_loop_pages cfg size H8 before Hall (S (S (length after))) None w1
              (pg :: after))
    as (buffer' & px' & Hb' & Hloop).
  { exact Hras. }
  { exact Hs. }
  { unfold quiet_for. cbn. rewrite Hq. cbn. lia. }
  { exact Hf2. }
  { exact Hf3. }
  { exact I. }
  match type of Hloop with _ = DoJob_loop _ _ _ ?x => set (w2 := x) in * end.
  pose proof Hpg as (Hbpp & _ & Hb & _ & Hh0 & Hh8 & Hsize & Hsz & _).
  fold hdr in Hbpp, Hb, Hh0, Hh8, Hsize.
  set (buffer := match buffer' with
                 | None =>
                     replicate (Z.to_nat (wrap32 (cupsHeight hdr * cupsBytesPerLine hdr))) 0
                 | Some buffer => buffer
                 end).
  assert (Hlen : Z.of_nat (length buffer) = size).
  { unfold buffer. destruct buffer' as [b |]; [exact Hb' |].
    rewrite length_replicate, wrap32_small by nia. nia. }
  set (w3 := set_raster after (page_pixels pg) w2).
  assert (Hq3 : sigterm w3 = Some (Z.to_nat (cupsHeight hdr) + t)%nat).
  { unfold w3, w2, w1. cbn [sigterm set_raster advance after_polls].
    rewrite Hq. cbn [after_polls]. f_equal. lia. }
  pose proof (DoPage_cancelled_in_band_loop cfg H8 pg buffer t w3
                ltac:(rewrite Hlen; exact Hpg) Hne Ht Hs eq_refl Hf2 Hq3) as Hpage.
  cbv zeta in Hpage. fold hdr buf top in Hpage.
  match type of Hpage with _ = Some (_, ?x) => set (w4 := x) in * end.
  assert (Hpages : DoJob_pages cfg w = Some (EPTMD_CANCEL, w4)).
  { unfold DoJob_pages. rewrite (bind_Some _ _ _ _ _ Hstart).
    change (EPTMD_SUCCESS =? EPTMD_SUCCESS) with true. cbv beta iota.
    change (raster w1) with (raster w). rewrite Hras, length_app. cbn [length].
    replace (S (length before + S (length after)))
      with (length before + S (S (length after)))%nat by lia.
    rewrite Hloop. cbn [DoJob_loop].
    unfold bind at 1. unfold cupsRasterReadHeader.
    change (raster w2) with (pg :: after). cbv beta iota.
    fold w3. fold hdr. rewrite Hbpp. change (negb (1 =? 1)) with false. cbv iota.
    fold buffer. rewrite (bind_Some _ _ _ _ _ Hpage). reflexivity. }
  assert (Hflag : sigterm w4 = Some 0%nat).
  { unfold w4. cbn [sigterm set_raster advance after_polls].
    rewrite Hq3. cbn [after_polls]. f_equal. lia. }
  assert (Hjob : DoJob cfg w = Some (EPTMD_CANCEL, w4)).
  { unfold DoJob. rewrite (bind_Some _ _ _ _ _ Hpages).
    change (negb (EPTMD_CANCEL =? EPTMD_SUCCESS)) with true. cbv iota.
    rewrite (bind_Some _ _ _ _ _ (EndJob_canceled cfg w4 Hflag)). reflexivity. }
  exists w4. split; [exact Hjob |].
  split; [unfold main; rewrite (bind_Some _ _ _ _ _ Hjob); reflexivity |].
  split.
  { unfold w4. rewrite stdout_set_raster, stdout_advance.
    unfold w3. rewrite stdout_set_raster. unfold w2.
    rewrite stdout_set_raster, stdout_advance. unfold w1.
    rewrite stdout_advance. cbn [uninit sanitized advance set_raster].
    rewrite Nat.add_0_r.
    change (user_bytes _ (p_printerName cfg) "StartPage.prn")
      with (user_bytes w (p_printerName cfg) "StartPage.prn").
    change (user_bytes _ (p_printerName cfg) "EndPage.prn")
      with (user_bytes w (p_printerName cfg) "EndPage.prn").
    rewrite <- !app_assoc. reflexivity. }
  split; [exact Hflag |].
  split; [reflexivity |].
  split; discriminate.
Qed.

(** Two pages of five bands, the flag found set after the second band of
    the second page: the job start with [StartJob.prn], the first page
    whole, then the page start with [StartPage.prn] and two bands, each
    followed by [ESC J 10]; bands 3 to 5 of the second page, its eject
    command and the user file [EndJob.prn] are not written. *)
Lemma cancellation_in_band_loop_witness :
  exists w',
    DoJob (example_config TmPaperReductionOff) canceled_second_page_world
    = Some (EPTMD_CANCEL, w')
    /\ main (example_config TmPaperReductionOff) canceled_second_page_world
       = Some (-2, w')
    /\ stdout w'
       = job_prologue (example_config TmPaperReductionOff) ++ [0x53]
         ++ (page_prologue ++ [0x50]
             ++ concat (replicate 5
                  [ESC; 0x2a; 1; 8; 0; 0xff; 0xff; 0xff; 0xff; 0xff; 0xff; 0xff; 0xff;
                   ESC; 0x4a; 10])
             ++ [ESC; 0x46; 0; FF])
         ++ page_prologue ++ [0x50]
         ++ concat (replicate 2
              [ESC; 0x2a; 1; 8; 0; 0xff; 0xff; 0xff; 0xff; 0xff; 0xff; 0xff; 0xff;
               ESC; 0x4a; 10]).
Proof.
  destruct (cancellation_in_band_loop (example_config TmPaperReductionOff) 40
              [five_band_page] five_band_page [] 1 canceled_second_page_world)
    as (w' & Hjob & Hmain & Hout & _).
  - reflexivity.
  - repeat constructor; try reflexivity; try (cbn; lia).
  - repeat constructor; try reflexivity; try (cbn; lia).
  - vm_compute. discriminate.
  - vm_compute. lia.
  - reflexivity.
  - reflexivity.
  - vm_compute. discriminate.
  - vm_compute. discriminate.
  - vm_compute. discriminate.
  - vm_compute. reflexivity.
  - exists w'. split; [exact Hjob |]. split; [exact Hmain |].
    rewrite Hout. vm_compute. reflexivity.
Defined.

(** C7 as stated fails: the flag is not read before the first band.  With
    the flag already set when the raster of the five-band page is written,
    the first band and its feed are written before the cancellation is
    seen; and for the page whose printable range is one band the raster
    writer never reads the flag: the band and the margin feeds are written
    and the result is success. *)
Lemma band_written_before_flag_is_read :
  result_of (WriteRaster (example_config TmPaperReductionBoth)
               (page_header five_band_page) (concat (page_pixels five_band_page))
               (set_sigterm (Some 0%nat) (example_world [])))
  = Some EPTMD_CANCEL
  /\ output_of (WriteRaster (example_config TmPaperReductionBoth)
                  (page_header five_band_page) (concat (page_pixels five_band_page))
                  (set_sigterm (Some 0%nat) (example_world [])))
     = [ESC; 0x2a; 1; 8; 0; 0xff; 0xff; 0xff; 0xff; 0xff; 0xff; 0xff; 0xff;
        ESC; 0x4a; 10]
  /\ result_of (WriteRaster (example_config TmPaperReductionOff) coarse_header
                  example_page (set_sigterm (Some 0%nat) (example_world [])))
     = Some EPTMD_SUCCESS
  /\ output_of (WriteRaster (example_config TmPaperReductionOff) coarse_header
                  example_page (set_sigterm (Some 0%nat) (example_world [])))
     = [ESC; 0x4a; 6] ++ [ESC; 0x2a; 1; 8; 0; 0; 0; 0; 0; 0; 0; 0; 0x80; ESC; 0x4a; 10]
       ++ [ESC; 0x4a; 2].
Proof. repeat split; vm_compute; reflexivity. Qed.

(** ** The bytes of a job *)

(** X23.  The bytes of a job.  On a sink that takes everything, with no
    signal and user files that can be read, a job whose pages are all
    1 bit a pixel and fill page buffers of one size is written as: the job
    start (the five configuration commands, the drawer pulse or the buzzer
    command when configured, the file [StartJob.prn]); every page in turn
    (page start, raster, page end); the file [EndJob.prn].  The result is
    success, the exit status 0, and the raster stream is read to its end. *)
Theorem job_bytes (cfg : EPTMS_CONFIG_T) (size : Z) (w : World) :
  maxBandLines cfg = 8 ->
  Forall (page_of_size size) (raster w) ->
  sink w = [] -> sigterm w = None ->
  files w !! user_file_path (p_printerName cfg) "StartJob.prn" <> Some Unreadable ->
  files w !! user_file_path (p_printerName cfg) "StartPage.prn" <> Some Unreadable ->
  files w !! user_file_path (p_printerName cfg) "EndPage.prn" <> Some Unreadable ->
  files w !! user_file_path (p_printerName cfg) "EndJob.prn" <> Some Unreadable ->
  exists w',
    DoJob cfg w = Some (EPTMD_SUCCESS, w')
    /\ main cfg w = Some (0, w')
    /\ stdout w'
       = stdout w ++ job_prologue cfg
         ++ user_bytes w (p_printerName cfg) "StartJob.prn"
         ++ pages_output cfg (user_bytes w (p_printerName cfg) "StartPage.prn")
              (user_bytes w (p_printerName cfg) "EndPage.prn") (raster w)
              (uninit w) (sanitized w)
         ++ user_bytes w (p_printerName cfg) "EndJob.prn"
    /\ raster w' = [].
Proof.
  intros H8 Hall Hs Hq Hf1 Hf2 Hf3 Hf4.
  destruct (DoJob_healthy cfg size w H8 Hall Hs Hq Hf1 Hf2 Hf3 Hf4)
    as (w' & Hjob & Hmain & Hout & Hend).
  exists w'. repeat split; assumption.
Qed.

(** A job of two pages at 8 dpi under mode Both, the page whose scanline 5
    is black and a blank page: the second page is the page start and the
    eject command alone. *)
Lemma job_bytes_witness :
  exists w',
    DoJob (example_config TmPaperReductionBoth) (example_world [black_line_page; blank_page])
    = Some (EPTMD_SUCCESS, w')
    /\ stdout w'
       = job_prologue (example_config TmPaperReductionBoth)
         ++ ([GS; 0x28; 0x47; 2; 0; 84; 1]
             ++ [ESC; 0x2a; 1; 8; 0; 0; 0; 0; 0; 0; 0; 0; 0x80; ESC; 0x4a; 10]
             ++ [ESC; 0x46; 0; FF])
         ++ ([GS; 0x28; 0x47; 2; 0; 84; 1] ++ [ESC; 0x46; 0; FF]).
Proof.
  destruct (job_bytes (example_config TmPaperReductionBoth) 8
              (example_world [black_line_page; blank_page]))
    as (w' & Hrun & _ & Hout & _).
  - reflexivity.
  - repeat constructor; try reflexivity; cbn; lia.
  - reflexivity.
  - reflexivity.
  - vm_compute. discriminate.
  - vm_compute. discriminate.
  - vm_compute. discriminate.
  - vm_compute. discriminate.
  - exists w'. split; [exact Hrun |]. rewrite Hout. vm_compute. reflexivity.
Defined.



(** ** What a band is made from *)

Lemma MakeSendData_eq hdr (buf buf' : list Z) (p_data lines lines' : Z) :
  0 <= cupsBytesPerLine hdr -> cupsBytesPerLine hdr * 8 < 2 ^ 32 ->
  (forall x bit, 0 <= x < cupsBytesPerLine hdr -> 0 <= bit <= 7 ->
     send_byte hdr buf p_data lines x bit 0 = send_byte hdr buf' p_data lines' x bit 0) ->
  MakeSendData hdr buf p_data lines = MakeSendData hdr buf' p_data lines'.
Proof.
  intros Hb Hsz Hbytes.
  destruct (MakeSendData_spec hdr buf p_data lines Hb Hsz) as [Hl1 Hload1].
  destruct (MakeSendData_spec hdr buf' p_data lines' Hb Hsz) as [Hl2 Hload2].
  apply load_ext; [congruence |]. intros j.
  destruct (Z.lt_ge_cases j 0) as [Hneg | Hpos].
  - unfold load. destruct (Z.ltb_spec j 0); [reflexivity | lia].
  - destruct (Z.lt_ge_cases j (cupsBytesPerLine hdr * 8)) as [Hin | Hout].
    + pose proof (Z.div_mod j 8 ltac:(lia)) as Hdm.
      pose proof (Z.mod_pos_bound j 8 ltac:(lia)) as Hm.
      assert (Hx : 0 <= j / 8 < cupsBytesPerLine hdr).
      { split; [apply Z.div_pos; lia | apply Z.div_lt_upper_bound; lia]. }
      replace j with (j / 8 * 8 + j mod 8) by lia.
      rewrite Hload1, Hload2 by lia. apply Hbytes; lia.
    + rewrite !load_outside by lia. reflexivity.
Qed.

(** X25.  A band is made from its own scanlines.  The band data depends on
    the page buffer through the bytes of the [lines] scanlines of the band
    alone (at most 8): a final band of fewer than 8 lines takes nothing
    from what lies behind it in the buffer, or behind the buffer.  And a
    band length above 8 counts as 8. *)
Theorem band_reads_its_lines_only (hdr : cups_page_header_t) (buf buf' : list Z)
    (p_data lines : Z) :
  0 <= cupsBytesPerLine hdr -> cupsBytesPerLine hdr * 8 < 2 ^ 32 ->
  (forall k x, 0 <= k < lines -> k <= 7 -> 0 <= x < cupsBytesPerLine hdr ->
     load buf (p_data + k * cupsBytesPerLine hdr + x)
     = load buf' (p_data + k * cupsBytesPerLine hdr + x)) ->
  MakeSendData hdr buf p_data lines = MakeSendData hdr buf' p_data lines
  /\ (8 <= lines -> MakeSendData hdr buf p_data lines = MakeSendData hdr buf p_data 8).
Proof.
  intros Hb Hsz Hsame. split.
  - apply MakeSendData_eq; [exact Hb | exact Hsz |].
    intros x bit Hx Hbit. apply Z.bits_inj'. intros t Ht.
    rewrite !send_byte_testbit by lia.
    destruct (Z.leb_spec 0 (7 - t)); [| reflexivity].
    destruct (Z.ltb_spec (7 - t) lines); [| reflexivity].
    cbn [andb]. rewrite Hsame by lia. reflexivity.
  - intros H8. apply MakeSendData_eq; [exact Hb | exact Hsz |].
    intros x bit Hx Hbit. apply Z.bits_inj'. intros t Ht.
    rewrite !send_byte_testbit by lia.
    destruct (Z.leb_spec 0 (7 - t)); [| reflexivity].
    destruct (Z.ltb_spec (7 - t) lines); [| lia].
    destruct (Z.ltb_spec (7 - t) 8); [reflexivity | lia].
Qed.

(** A final band of 3 lines at the end of a buffer, and the same lines
    followed by other data. *)
Lemma band_reads_its_lines_only_witness :
  MakeSendData coarse_header [0xff; 0xff; 0xff] 0 3
  = MakeSendData coarse_header [0xff; 0xff; 0xff; 0x55; 0xaa; 0x55; 0xaa; 0x55] 0 3.
Proof.
  destruct (band_reads_its_lines_only coarse_header [0xff; 0xff; 0xff]
              [0xff; 0xff; 0xff; 0x55; 0xaa; 0x55; 0xaa; 0x55] 0 3) as [Hsame _].
  - cbn. lia.
  - reflexivity.
  - intros k x Hk _ Hx. cbn in Hx.
    assert (Hcase : k = 0 \/ k = 1 \/ k = 2) by lia.
    assert (x = 0) as -> by lia.
    destruct Hcase as [-> | [-> | ->]]; reflexivity.
  - exact Hsame.
Defined.
